(** * SpliceBlocks: the Splice code generator

    A shallow embedding of the Splice backend of SpliceBlocks
    (generators/splice/splice_generator.ts and the block emitters of the
    math, logic, text, lists and procedures families), together with the
    properties of the generator that its specification states.

    JavaScript strings are [string]; the precedence levels of [Order] are
    the rationals of the enum; a generator method that reads and updates
    the generator instance is a function in the monad [Gen], which threads
    the instance and carries a thrown [Error].  The base class
    (core/generator) and the name database (core/names) are not among the
    sources: what the emitters use of them is modelled from the
    specification or taken as an interface. *)

From Stdlib Require Import ZArith QArith String Ascii List Bool Lia.
From Stdlib Require Import DecimalString.
Import ListNotations.

Local Open Scope string_scope.
Local Open Scope Z_scope.

(** ** JavaScript values and operators used by the emitters *)

Module Js.

(** [a || b] on strings: the empty string is falsy. *)
Definition or_else (a b : string) : string :=
  if String.eqb a EmptyString then b else a.

(** [!a] on a string. *)
Definition falsy (a : string) : bool := String.eqb a EmptyString.

(** String conversion of an integer number, as in ['x' + n]: all its
    decimal digits.  These are what JavaScript writes for a number of
    absolute value at most 2^53, which a number holds exactly; it rounds
    larger ones and writes those from 1e21 on with an exponent, and they
    are outside the model (the call sites pass the offsets 0 and 1). *)
Definition of_int (n : Z) : string := NilZero.string_of_int (Z.to_int n).

(** String conversion of a value that is a string or [undefined], as in
    ['x' + OPERATORS[k]] when [k] is not a key of the table. *)
Definition of_undefinable (v : option string) : string :=
  match v with Some s => s | None => "undefined" end.

(** String conversion of a value that is a string or [null], as in
    ['Unknown mode: ' + block.getFieldValue('MODE')]. *)
Definition of_nullable (v : option string) : string :=
  match v with Some s => s | None => "null" end.

(** [v === s] for a value that is a string or [null]. *)
Definition same (v : option string) (s : string) : bool :=
  match v with Some x => String.eqb x s | None => false end.

(** [arr.join(sep)] on an array of strings. *)
Fixpoint join (sep : string) (arr : list string) : string :=
  match arr with
  | [] => EmptyString
  | [x] => x
  | x :: rest => x ++ sep ++ join sep rest
  end.

(** [s[0] === c]. *)
Definition first_is (c : ascii) (s : string) : bool :=
  match s with
  | String d _ => Ascii.eqb d c
  | EmptyString => false
  end.

(** Property lookup [table[k]] in an object literal used as a table:
    the value of an own key, [undefined] otherwise.  (Keys that name a
    member of [Object.prototype] are not values a block field takes and
    are not modelled.) *)
Fixpoint prop {A : Type} (table : list (string * A)) (k : string) : option A :=
  match table with
  | [] => None
  | (k', v) :: rest => if String.eqb k' k then Some v else prop rest k
  end.

(** [obj[k] = v] on an object whose own keys are not integer-like: an
    existing key keeps its place, a new key goes last. *)
Fixpoint set (obj : list (string * string)) (k v : string) : list (string * string) :=
  match obj with
  | [] => [(k, v)]
  | (k', v') :: rest =>
      if String.eqb k' k then (k', v) :: rest else (k', v') :: set rest k v
  end.

(** [Object.values(obj)], in insertion order for such keys. *)
Definition values (obj : list (string * string)) : list string := map snd obj.

End Js.

Definition NL : string := String (ascii_of_nat 10) EmptyString.

(** ** Order of operations (splice_generator.ts, [enum Order]) *)

Definition Order := Q.

Module Order.
Local Open Scope Q_scope.
Definition ATOMIC : Order := 0.
Definition COLLECTION : Order := 1.
Definition STRING_CONVERSION : Order := 1.
Definition MEMBER : Order := 21 # 10.
Definition FUNCTION_CALL : Order := 22 # 10.
Definition EXPONENTIATION : Order := 3.
Definition UNARY_SIGN : Order := 4.
Definition BITWISE_NOT : Order := 4.
Definition MULTIPLICATIVE : Order := 5.
Definition DIVISION : Order := 5.
Definition ADDITIVE : Order := 6.
Definition BITWISE_SHIFT : Order := 7.
Definition BITWISE_AND : Order := 8.
Definition BITWISE_XOR : Order := 9.
Definition BITWISE_OR : Order := 10.
Definition RELATIONAL : Order := 11.
Definition EQUALITY : Order := 12.
Definition LOGICAL_NOT : Order := 13.
Definition LOGICAL_AND : Order := 14.
Definition LOGICAL_OR : Order := 15.
Definition CONDITIONAL : Order := 16.
Definition ASSIGNMENT : Order := 17.
Definition NONE : Order := 99.
End Order.

(** [SpliceGenerator.ORDER_OVERRIDES]: outer-inner pairings that do not
    require parentheses. *)
Definition ORDER_OVERRIDES : list (Order * Order) :=
  [ (Order.FUNCTION_CALL, Order.MEMBER);
    (Order.FUNCTION_CALL, Order.FUNCTION_CALL);
    (Order.MEMBER, Order.MEMBER);
    (Order.MEMBER, Order.FUNCTION_CALL);
    (Order.LOGICAL_NOT, Order.LOGICAL_NOT);
    (Order.LOGICAL_AND, Order.LOGICAL_AND);
    (Order.LOGICAL_OR, Order.LOGICAL_OR) ].

(** Modelled from the spec: (context_order, child_order) is a known
    no-wrap pair, one of the override table. *)
Definition is_override (contextOrder childOrder : Order) : bool :=
  existsb (fun p => Qeq_bool (fst p) contextOrder && Qeq_bool (snd p) childOrder)
          ORDER_OVERRIDES.

(** Modelled from the spec: the parenthesization decision of the base
    class's [valueToCode] (core/generator, not among the sources).  The
    override table is the list of outer-inner pairings that do not
    require parentheses, and its comments give what they spare:
    [(foo())() -> foo()()], [a && (b && c) -> a && b && c]; the spec has
    [a - (b - c)] keep its parentheses.  So a child of the same order as
    its context is wrapped unless the pair is listed, and the comparison
    of the contract sentence (wrap := not (child_order <= context_order
    OR (context_order, child_order) is a known no-wrap pair)) is
    modelled as strict: a child is left bare when it binds strictly
    tighter than its context, or when the pair is listed. *)
Definition wrap (contextOrder childOrder : Order) : bool :=
  negb (negb (Qle_bool contextOrder childOrder) || is_override contextOrder childOrder).

(** ** Blocks and workspaces (the framework's data, as the emitters read it) *)

Record VariableModel := { var_getId : string; var_name : string }.

(** A workspace: its [options.oneBasedIndex] flag, its variable map, and
    the variables that [Variables.allUsedVarModels] reports for it, in the
    order of the scan. *)
Record Workspace := {
  oneBasedIndex : bool;
  getVariableMap : list VariableModel;
  allUsedVarModels : list VariableModel;
}.

Inductive inputTypes := VALUE | STATEMENT | DUMMY.

(** [outputConnection]: absent, or present with or without a target. *)
Inductive Connection := NoConnection | Unplugged | Plugged.

#[local] Set Warnings "-register-all".
Inductive Block : Type := mkBlock {
  type : string;
  id : string;
  workspace : Workspace;
  fields : list (string * string);
  inputList : list (string * (inputTypes * option Block));
  nextBlock : option Block;
  outputConnection : Connection;
  getCommentText : option string;
  getVars : list string;
}.

(** [block.getFieldValue(name)]: the field's value, or [null]. *)
Definition getFieldValue (block : Block) (name : string) : option string :=
  Js.prop (fields block) name.

(** The block plugged into the input [name], if the input exists and is
    connected. *)
Definition getInputTargetBlock (block : Block) (name : string) : option Block :=
  match Js.prop (inputList block) name with
  | Some (_, target) => target
  | None => None
  end.

(** What an emitter returns: a [code, order] tuple, a string, or [null]. *)
Inductive Emitted :=
| Tuple (code : string) (order : Order)
| Text (code : string)
| Null.

(** ** The generator instance and the monad of its methods *)

Inductive Result (A : Type) :=
| Returned (a : A)
| Thrown (msg : string).
Arguments Returned {A} a.
Arguments Thrown {A} msg.

Inductive NameType := VARIABLE | PROCEDURE.

(** The name database (core/names) is not among the sources: its type and
    operations are the fields of this interface.  An operation that can
    allocate a name returns the database after the call. *)
Class NamesAPI := {
  Names : Type;
  Names_new : string -> Names;
  Names_reset : Names -> Names;
  Names_setVariableMap : list VariableModel -> Names -> Names;
  Names_populateVariables : Workspace -> Names -> Names;
  Names_populateProcedures : Workspace -> Names -> Names;
  Names_getName : option string -> NameType -> Names -> string * Names;
  Names_getDistinctName : string -> NameType -> Names -> string * Names;
}.

Section Generator.

Context {names : NamesAPI}.

Record Generator := mkGenerator {
  definitions_ : list (string * string);
  functionNames_ : list (string * string);
  nameDB_ : option Names;
  isInitialized : bool;
  PASS : string;
  INDENT : string;
  STATEMENT_PREFIX : option string;
  STATEMENT_SUFFIX : option string;
  COMMENT_WRAP : Z;
  RESERVED_WORDS_ : string;
}.

Definition with_definitions (d : list (string * string)) (g : Generator) :=
  mkGenerator d (functionNames_ g) (nameDB_ g) (isInitialized g) (PASS g)
    (INDENT g) (STATEMENT_PREFIX g) (STATEMENT_SUFFIX g) (COMMENT_WRAP g)
    (RESERVED_WORDS_ g).

Definition with_functionNames (f : list (string * string)) (g : Generator) :=
  mkGenerator (definitions_ g) f (nameDB_ g) (isInitialized g) (PASS g)
    (INDENT g) (STATEMENT_PREFIX g) (STATEMENT_SUFFIX g) (COMMENT_WRAP g)
    (RESERVED_WORDS_ g).

Definition with_nameDB (n : option Names) (g : Generator) :=
  mkGenerator (definitions_ g) (functionNames_ g) n (isInitialized g) (PASS g)
    (INDENT g) (STATEMENT_PREFIX g) (STATEMENT_SUFFIX g) (COMMENT_WRAP g)
    (RESERVED_WORDS_ g).

Definition with_isInitialized (b : bool) (g : Generator) :=
  mkGenerator (definitions_ g) (functionNames_ g) (nameDB_ g) b (PASS g)
    (INDENT g) (STATEMENT_PREFIX g) (STATEMENT_SUFFIX g) (COMMENT_WRAP g)
    (RESERVED_WORDS_ g).

Definition with_PASS (p : string) (g : Generator) :=
  mkGenerator (definitions_ g) (functionNames_ g) (nameDB_ g) (isInitialized g) p
    (INDENT g) (STATEMENT_PREFIX g) (STATEMENT_SUFFIX g) (COMMENT_WRAP g)
    (RESERVED_WORDS_ g).

(** A method: it reads the instance, and returns a value with the
    instance as it leaves it, or throws. *)
Definition Gen (A : Type) : Type := Generator -> Result (A * Generator).

Definition ret {A} (a : A) : Gen A := fun g => Returned (a, g).

Definition throw {A} (msg : string) : Gen A := fun _ => Thrown msg.

Definition bind {A B} (c : Gen A) (k : A -> Gen B) : Gen B :=
  fun g => match c g with
           | Returned (a, g') => k a g'
           | Thrown msg => Thrown msg
           end.

Definition read {A} (f : Generator -> A) : Gen A := fun g => Returned (f g, g).

Definition update (f : Generator -> Generator) : Gen unit :=
  fun g => Returned (tt, f g).

End Generator.

Declare Scope gen_scope.
Delimit Scope gen_scope with gen.
Notation "x <- c ;; k" := (bind c (fun x => k))
  (at level 61, c at next level, right associativity) : gen_scope.
Notation "c ;;; k" := (bind c (fun _ => k))
  (at level 61, right associativity) : gen_scope.
Local Open Scope gen_scope.

Definition DQ : string := String (ascii_of_nat 34) EmptyString.

(** Resolution of the input [name] of a block: [absent] when the block has
    no such input or nothing is plugged into it, [present target]
    otherwise. *)
Section WithInputTarget.
Context {A : Type} (name : string) (absent : A) (present : Block -> A).

Fixpoint withInputTarget (inputs : list (string * (inputTypes * option Block))) : A :=
  match inputs with
  | [] => absent
  | (n, (_, target)) :: rest =>
      if String.eqb n name
      then match target with Some b => present b | None => absent end
      else withInputTarget rest
  end.
End WithInputTarget.

(** The framework functions the generator calls that are not among the
    sources: text utilities and the base class's own [init] and [finish]. *)
Class FrameworkAPI {names : NamesAPI} := {
  injectId : string -> Block -> string;
  prefixLines : string -> string -> string;
  stringUtils_wrap : string -> Z -> string;
  super_init : Workspace -> Generator -> Generator;
  super_finish : string -> Generator -> Generator;
}.

(** ** The generator core *)

Section Core.

Context {names : NamesAPI} {framework : FrameworkAPI}.

(** The driver [generator.blockToCode], to which the methods below
    recur; [Splice.blockToCode] further down closes the recursion. *)
Variable blockToCode : Block -> Gen Emitted.

(** Modelled from the spec: [valueToCode] of the base class
    (core/generator, not among the sources).  It resolves the value
    block plugged into the slot, obtains its (code, order), applies the
    wrap decision with the context order, and returns the empty string
    for an unconnected slot; a block used as an expression must resolve
    to a (code, order) pair. *)
Definition valueToCode (block : Block) (name : string) (outerOrder : Order)
  : Gen string :=
  withInputTarget name (ret EmptyString)
    (fun target =>
       r <- blockToCode target ;;
       match r with
       | Tuple code innerOrder =>
           ret (if wrap outerOrder innerOrder then "(" ++ code ++ ")" else code)
       | _ => throw "Expecting tuple from value block."
       end)
    (inputList block).

(** Modelled from the spec: [statementToCode] of the base class.  It
    resolves the nested statement sequence and applies one level of
    indentation to the whole rendered block; the empty string for an
    unconnected slot. *)
Definition statementToCode (block : Block) (name : string) : Gen string :=
  withInputTarget name (ret EmptyString)
    (fun target =>
       r <- blockToCode target ;;
       match r with
       | Text code => indent <- read INDENT ;; ret (prefixLines code indent)
       | _ => throw "Expecting code from statement block."
       end)
    (inputList block).

(** Modelled from the spec: [getVariableName], [getProcedureName] and the
    distinct-name allocation go through the Name Database; using them
    outside an initialised pass is a usage error. *)
Definition withNames (f : Names -> string * Names) : Gen string :=
  fun g => match nameDB_ g with
           | None => Thrown "Name database is not defined."
           | Some db => let (n, db') := f db in Returned (n, with_nameDB (Some db') g)
           end.

Definition getVariableName (nameOrId : option string) : Gen string :=
  withNames (Names_getName nameOrId VARIABLE).

Definition getProcedureName (name : option string) : Gen string :=
  withNames (Names_getName name PROCEDURE).

Definition getDistinctName (name : string) (ty : NameType) : Gen string :=
  withNames (Names_getDistinctName name ty).

(** Modelled from the spec: [provideFunction_], memoized helper
    synthesis.  On the first call for a key a name is allocated, put in
    place of the placeholder throughout the template, and the rendered
    definition is stored; a repeated call returns the allocated name.
    The template is given as the lines in terms of the name that takes
    the place of [FUNCTION_NAME_PLACEHOLDER_]. *)
Definition provideFunction_ (desiredName : string) (code : string -> list string)
  : Gen string :=
  registered <- read functionNames_ ;;
  match Js.prop registered desiredName with
  | Some functionName => ret functionName
  | None =>
      functionName <- getDistinctName desiredName PROCEDURE ;;
      update (fun g => with_functionNames
                         (Js.set (functionNames_ g) desiredName functionName) g) ;;;
      update (fun g => with_definitions
                         (Js.set (definitions_ g) desiredName
                                 (Js.join NL (code functionName))) g) ;;;
      ret functionName
  end.

(** [SpliceGenerator.scrubNakedValue]. *)
Definition scrubNakedValue (line : string) : string := line ++ ";" ++ NL.

(** A comment, wrapped and prefixed, when [comment] is truthy. *)
Definition commentLines (comment : option string) (g : Generator) : string :=
  match comment with
  | Some c =>
      if Js.falsy c then EmptyString
      else prefixLines (stringUtils_wrap c (COMMENT_WRAP g - 3) ++ NL) "// "
  | None => EmptyString
  end.

(** [SpliceGenerator.scrub_]. *)
Definition scrub_ (block : Block) (code : string) (thisOnly : bool) : Gen string :=
  g <- read (fun g => g) ;;
  let commentCode :=
    match outputConnection block with
    | Plugged => EmptyString
    | _ =>
        commentLines (getCommentText block) g ++
        fold_left
          (fun acc input =>
             match input with
             | (_, (VALUE, Some childBlock)) =>
                 acc ++ commentLines (getCommentText childBlock) g
             | _ => acc
             end)
          (inputList block) EmptyString
    end in
  nextCode <-
    (if thisOnly then ret EmptyString
     else match nextBlock block with
          | Some next =>
              r <- blockToCode next ;;
              match r with
              | Text c => ret c
              | _ => throw "Expecting code from statement block."
              end
          | None => ret EmptyString
          end) ;;
  ret (commentCode ++ code ++ nextCode).

(** [SpliceGenerator.getAdjusted].  [opt_delta] is an integer number at
    every call site. *)
Definition getAdjusted (block : Block) (atId : string) (opt_delta : option Z)
           (opt_negate : option bool) (opt_order : option Order) : Gen string :=
  let delta := match opt_delta with Some d => d | None => 0 end in
  let order := match opt_order with
               | Some o => if Qeq_bool o 0 then Order.NONE else o
               | None => Order.NONE
               end in
  let delta := if oneBasedIndex (workspace block) then delta - 1 else delta in
  defaultValue <- valueToCode block atId order ;;
  if negb (String.eqb defaultValue EmptyString) then
    let defaultValue :=
      match opt_negate with
      | Some true => "!" ++ defaultValue
      | _ => defaultValue
      end in
    let defaultValue :=
      if 0 <? delta then defaultValue ++ " + " ++ Js.of_int delta
      else if delta <? 0 then defaultValue ++ " - " ++ Js.of_int (- delta)
      else defaultValue in
    let defaultValue :=
      match opt_order with
      | Some _ =>
          if Qle_bool Order.ADDITIVE order then "(" ++ defaultValue ++ ")"
          else defaultValue
      | None => defaultValue
      end in
    ret defaultValue
  else ret defaultValue.

(** The loop of [init] over the used variables: one declaration is
    pushed on [defvars] for each. *)
Fixpoint init_defvars (variables : list VariableModel) (defvars : list string)
  : Gen (list string) :=
  match variables with
  | [] => ret defvars
  | v :: rest =>
      name <- getVariableName (Some (var_getId v)) ;;
      init_defvars rest (List.app defvars ["let " ++ name ++ " = " ++ DQ ++ DQ ++ ";"])
  end.

(** [SpliceGenerator.init]. *)
Definition init (ws : Workspace) : Gen unit :=
  update (super_init ws) ;;;
  update (fun g => match nameDB_ g with
                   | Some _ => g
                   | None => with_nameDB (Some (Names_new (RESERVED_WORDS_ g))) g
                   end) ;;;
  update (fun g => with_nameDB (option_map Names_reset (nameDB_ g)) g) ;;;
  update (fun g => with_nameDB
                     (option_map (Names_setVariableMap (getVariableMap ws)) (nameDB_ g)) g) ;;;
  update (fun g => with_nameDB (option_map (Names_populateVariables ws) (nameDB_ g)) g) ;;;
  update (fun g => with_nameDB (option_map (Names_populateProcedures ws) (nameDB_ g)) g) ;;;
  update (fun g => with_PASS (INDENT g ++ "// pass" ++ NL) g) ;;;
  defvars <- init_defvars (allUsedVarModels ws) [] ;;
  update (fun g => with_definitions
                     (Js.set (definitions_ g) "variables" (Js.join NL defvars)) g) ;;;
  update (with_isInitialized true).

(** [SpliceGenerator.finish]. *)
Definition finish (code : string) : Gen string :=
  definitions <- read (fun g => Js.values (definitions_ g)) ;;
  update (super_finish code) ;;;
  update (with_isInitialized false) ;;;
  ret (Js.join (NL ++ NL) definitions ++ NL ++ NL ++ code).

(** ** Block emitters *)

(** A generator option such as [STATEMENT_PREFIX] is truthy. *)
Definition truthy (v : option string) : bool :=
  match v with Some s => negb (Js.falsy s) | None => false end.

(** *** Math (generators/splice/math) *)

(** The NUM field holds a number; the model keeps its string
    conversion. *)
Definition math_number (block : Block) : Gen Emitted :=
  let code := Js.of_nullable (getFieldValue block "NUM") in
  ret (Tuple code Order.ATOMIC).

(** For an 'OP' that is not a key of the table, [tuple] is [undefined]
    and reading [tuple[0]] throws a TypeError. *)
Definition math_arithmetic (block : Block) : Gen Emitted :=
  let OPERATORS :=
    [ ("ADD", (" + ", Order.ADDITIVE));
      ("MINUS", (" - ", Order.ADDITIVE));
      ("MULTIPLY", (" * ", Order.MULTIPLICATIVE));
      ("DIVIDE", (" / ", Order.MULTIPLICATIVE));
      ("POWER", (" ** ", Order.EXPONENTIATION)) ] in
  match Js.prop OPERATORS (Js.of_nullable (getFieldValue block "OP")) with
  | None => throw "TypeError: Cannot read properties of undefined"
  | Some tuple =>
      let operator := fst tuple in
      let order := snd tuple in
      argument0 <- valueToCode block "A" order ;;
      let argument0 := Js.or_else argument0 "0" in
      argument1 <- valueToCode block "B" order ;;
      let argument1 := Js.or_else argument1 "0" in
      let code := argument0 ++ operator ++ argument1 in
      ret (Tuple code order)
  end.

(** The branches other than NEG that end in the common
    [return [code, Order.FUNCTION_CALL]] are written with [call]; for SIN,
    COS and TAN, ['math.' + operator.toLowerCase() + '('] is spelled
    out. *)
Definition math_single (block : Block) : Gen Emitted :=
  let operator := getFieldValue block "OP" in
  let call (fn : string) (order : Order) : Gen Emitted :=
    arg <- valueToCode block "NUM" order ;;
    let arg := Js.or_else arg "0" in
    ret (Tuple (fn ++ arg ++ ")") Order.FUNCTION_CALL) in
  if Js.same operator "NEG" then
    arg <- valueToCode block "NUM" Order.UNARY_SIGN ;;
    let arg := Js.or_else arg "0" in
    let arg := if Js.first_is "-" arg then " (" ++ arg ++ ")" else arg in
    let code := "-" ++ arg in
    ret (Tuple code Order.UNARY_SIGN)
  else if Js.same operator "SIN" then call "math.sin(" Order.MULTIPLICATIVE
  else if Js.same operator "COS" then call "math.cos(" Order.MULTIPLICATIVE
  else if Js.same operator "TAN" then call "math.tan(" Order.MULTIPLICATIVE
  else if Js.same operator "ROOT" then call "math.sqrt(" Order.MULTIPLICATIVE
  else if Js.same operator "LN" then call "math.log(" Order.MULTIPLICATIVE
  else if Js.same operator "LOG10" then call "math.log10(" Order.MULTIPLICATIVE
  else if Js.same operator "ABS" then call "math.abs(" Order.UNARY_SIGN
  else if Js.same operator "EXP" then call "math.exp(" Order.MULTIPLICATIVE
  else if Js.same operator "POW10" then call "math.pow(10, " Order.MULTIPLICATIVE
  else throw ("Unknown math operator: " ++ Js.of_nullable operator).

Definition math_round (block : Block) : Gen Emitted :=
  let operator := getFieldValue block "OP" in
  arg <- valueToCode block "NUM" Order.NONE ;;
  let arg := Js.or_else arg "0" in
  if Js.same operator "ROUND" then
    ret (Tuple ("math.round(" ++ arg ++ ")") Order.FUNCTION_CALL)
  else if Js.same operator "ROUNDUP" then
    ret (Tuple ("math.ceil(" ++ arg ++ ")") Order.FUNCTION_CALL)
  else if Js.same operator "ROUNDDOWN" then
    ret (Tuple ("math.floor(" ++ arg ++ ")") Order.FUNCTION_CALL)
  else throw ("Unknown round operator: " ++ Js.of_nullable operator).

(** *** Logic (generators/splice/logic) *)

Definition logic_compare (block : Block) : Gen Emitted :=
  let OPERATORS :=
    [ ("EQ", "=="); ("NEQ", "!="); ("LT", "<");
      ("LTE", "<="); ("GT", ">"); ("GTE", ">=") ] in
  let operator := Js.prop OPERATORS (Js.of_nullable (getFieldValue block "OP")) in
  let order := Order.RELATIONAL in
  argument0 <- valueToCode block "A" order ;;
  let argument0 := Js.or_else argument0 "0" in
  argument1 <- valueToCode block "B" order ;;
  let argument1 := Js.or_else argument1 "0" in
  let code := argument0 ++ " " ++ Js.of_undefinable operator ++ " " ++ argument1 in
  ret (Tuple code order).

Definition logic_operation (block : Block) : Gen Emitted :=
  let operator := if Js.same (getFieldValue block "OP") "AND" then "&&" else "||" in
  let order := if String.eqb operator "&&" then Order.LOGICAL_AND
               else Order.LOGICAL_OR in
  argument0 <- valueToCode block "A" order ;;
  argument1 <- valueToCode block "B" order ;;
  let arguments :=
    if Js.falsy argument0 && Js.falsy argument1 then ("false", "false")
    else
      let defaultArgument := if String.eqb operator "&&" then "true" else "false" in
      (if Js.falsy argument0 then defaultArgument else argument0,
       if Js.falsy argument1 then defaultArgument else argument1) in
  let code := fst arguments ++ " " ++ operator ++ " " ++ snd arguments in
  ret (Tuple code order).

Definition logic_negate (block : Block) : Gen Emitted :=
  let order := Order.LOGICAL_NOT in
  argument0 <- valueToCode block "BOOL" order ;;
  let argument0 := Js.or_else argument0 "true" in
  ret (Tuple ("!" ++ argument0) order).

Definition logic_boolean (block : Block) : Gen Emitted :=
  let code := if Js.same (getFieldValue block "BOOL") "TRUE" then "true" else "false" in
  ret (Tuple code Order.ATOMIC).

(** *** Text (generators/splice/text) *)

Definition text_indexOf (block : Block) : Gen Emitted :=
  let operator := if Js.same (getFieldValue block "END") "FIRST"
                  then "indexOf" else "lastIndexOf" in
  substring <- valueToCode block "FIND" Order.NONE ;;
  let substring := Js.or_else substring (DQ ++ DQ) in
  text <- valueToCode block "VALUE" Order.NONE ;;
  let text := Js.or_else text (DQ ++ DQ) in
  let code := text ++ "." ++ operator ++ "(" ++ substring ++ ")" in
  if oneBasedIndex (workspace block) then ret (Tuple (code ++ " + 1") Order.ADDITIVE)
  else ret (Tuple code Order.FUNCTION_CALL).

Definition text_changeCase (block : Block) : Gen Emitted :=
  text <- valueToCode block "TEXT" Order.NONE ;;
  let text := Js.or_else text (DQ ++ DQ) in
  if Js.same (getFieldValue block "CASE") "UPPERCASE" then
    ret (Tuple (text ++ ".toUpperCase()") Order.FUNCTION_CALL)
  else if Js.same (getFieldValue block "CASE") "LOWERCASE" then
    ret (Tuple (text ++ ".toLowerCase()") Order.FUNCTION_CALL)
  else if Js.same (getFieldValue block "CASE") "TITLECASE" then
    functionName <- provideFunction_ "text_toTitleCase" (fun NAME =>
      [ "function " ++ NAME ++ "(str) {";
        "  return str.replace(/\b\w/g, l => l.toUpperCase());";
        "}" ]) ;;
    ret (Tuple (functionName ++ "(" ++ text ++ ")") Order.FUNCTION_CALL)
  else throw ("Unknown case type: " ++ Js.of_nullable (getFieldValue block "CASE")).

Definition text_trim (block : Block) : Gen Emitted :=
  let OPERATORS :=
    [ ("LEFT", ".trimStart()"); ("RIGHT", ".trimEnd()"); ("BOTH", ".trim()") ] in
  let operator := Js.prop OPERATORS (Js.of_nullable (getFieldValue block "MODE")) in
  text <- valueToCode block "TEXT" Order.NONE ;;
  let text := Js.or_else text (DQ ++ DQ) in
  ret (Tuple (text ++ Js.of_undefinable operator) Order.FUNCTION_CALL).

(** *** Lists (generators/splice/lists) *)

Definition lists_create_empty (block : Block) : Gen Emitted :=
  ret (Tuple "[]" Order.ATOMIC).

(** The helper of [lists_indexOf], searching from the start or from the
    end, in terms of the helper's name. *)
Definition lists_indexOf_helper (isFirst : bool) (NAME : string) : list string :=
  if isFirst
  then
    [ "func " ++ NAME ++ "(list, item) {";
      "  let i = 0;";
      "  while (i < len(list)) {";
      "    if (list[i] == item) {";
      "      return i;";
      "    }";
      "    i = i + 1;";
      "  }";
      "  return -1;";
      "}" ]
  else
    [ "func " ++ NAME ++ "(list, item) {";
      "  let i = len(list) - 1;";
      "  while (i >= 0) {";
      "    if (list[i] == item) {";
      "      return i;";
      "    }";
      "    i = i - 1;";
      "  }";
      "  return -1;";
      "}" ].

Definition lists_indexOf (block : Block) : Gen Emitted :=
  let isFirst := Js.same (getFieldValue block "END") "FIRST" in
  functionName <-
    provideFunction_ (if isFirst then "lists_indexOf" else "lists_lastIndexOf")
                     (lists_indexOf_helper isFirst) ;;
  item <- valueToCode block "FIND" Order.NONE ;;
  let item := Js.or_else item "null" in
  list <- valueToCode block "VALUE" Order.NONE ;;
  let list := Js.or_else list "[]" in
  let code := functionName ++ "(" ++ list ++ ", " ++ item ++ ")" in
  let code := if oneBasedIndex (workspace block) then code ++ " + 1" else code in
  ret (Tuple code Order.FUNCTION_CALL).

Definition lists_getIndex (block : Block) : Gen Emitted :=
  list <- valueToCode block "VALUE" Order.MEMBER ;;
  let list := Js.or_else list "[]" in
  at_ <- getAdjusted block "AT" None None None ;;
  let code := list ++ "[" ++ at_ ++ "]" in
  ret (Tuple code Order.MEMBER).

Definition lists_setIndex (block : Block) : Gen Emitted :=
  list <- valueToCode block "LIST" Order.MEMBER ;;
  let list := Js.or_else list "[]" in
  at_ <- getAdjusted block "AT" None None None ;;
  value <- valueToCode block "TO" Order.ASSIGNMENT ;;
  let value := Js.or_else value "null" in
  ret (Text (list ++ "[" ++ at_ ++ "] = " ++ value ++ ";" ++ NL)).

(** *** Procedures (generators/splice/procedures) *)

(** The statement prefix and suffix injected for a procedure definition
    (the [xfix1] of both definition emitters). *)
Definition procedure_xfix1 (block : Block) : Gen string :=
  g <- read (fun g => g) ;;
  let xfix1 := EmptyString in
  let xfix1 := if truthy (STATEMENT_PREFIX g)
               then xfix1 ++ injectId (Js.of_nullable (STATEMENT_PREFIX g)) block
               else xfix1 in
  let xfix1 := if truthy (STATEMENT_SUFFIX g)
               then xfix1 ++ injectId (Js.of_nullable (STATEMENT_SUFFIX g)) block
               else xfix1 in
  ret (if Js.falsy xfix1 then xfix1 else prefixLines xfix1 (INDENT g)).

(** [args[i] = generator.getVariableName(variables[i])] for every [i]. *)
Fixpoint variableNames (variables : list string) : Gen (list string) :=
  match variables with
  | [] => ret []
  | v :: rest =>
      n <- getVariableName (Some v) ;;
      ns <- variableNames rest ;;
      ret (n :: ns)
  end.

Definition procedures_defreturn (block : Block) : Gen Emitted :=
  funcName <- getProcedureName (getFieldValue block "NAME") ;;
  xfix1 <- procedure_xfix1 block ;;
  branch <- statementToCode block "STACK" ;;
  returnValue <- valueToCode block "RETURN" Order.NONE ;;
  let returnValue := Js.or_else returnValue EmptyString in
  let xfix2 :=
    if negb (Js.falsy branch) && negb (Js.falsy returnValue) then
      xfix1 ++ "return " ++ returnValue ++ ";" ++ NL
    else if negb (Js.falsy returnValue) then
      xfix1 ++ "return " ++ returnValue ++ ";" ++ NL
    else if negb (Js.falsy branch) then
      xfix1 ++ "return;" ++ NL
    else
      xfix1 ++ "return;" ++ NL in
  args <- variableNames (getVars block) ;;
  let code := "func " ++ funcName ++ "(" ++ Js.join ", " args ++ ") {" ++ NL
              ++ branch ++ xfix2 ++ "}" in
  code <- scrub_ block code false ;;
  update (fun g => with_definitions (Js.set (definitions_ g) ("%" ++ funcName) code) g) ;;;
  ret Null.

Definition procedures_defnoreturn (block : Block) : Gen Emitted :=
  funcName <- getProcedureName (getFieldValue block "NAME") ;;
  xfix1 <- procedure_xfix1 block ;;
  branch <- statementToCode block "STACK" ;;
  let code := "func " ++ funcName ++ "(" in
  args <- variableNames (getVars block) ;;
  let code := code ++ Js.join ", " args ++ ") {" ++ NL ++ branch ++ xfix1 ++ "}" ++ NL in
  code <- scrub_ block code false ;;
  update (fun g => with_definitions (Js.set (definitions_ g) ("%" ++ funcName) code) g) ;;;
  ret Null.

(** ** The driver *)

(** The per-block-type generator functions installed on the instance
    (the [forBlock] registry), for the emitters above: the function
    registered under the block's type, applied to the block. *)
Definition forBlock (block : Block) : option (Gen Emitted) :=
  let registered (name : string) := String.eqb (type block) name in
  if registered "math_number" then Some (math_number block)
  else if registered "math_arithmetic" then Some (math_arithmetic block)
  else if registered "math_single" then Some (math_single block)
  else if registered "math_round" then Some (math_round block)
  else if registered "logic_compare" then Some (logic_compare block)
  else if registered "logic_operation" then Some (logic_operation block)
  else if registered "logic_negate" then Some (logic_negate block)
  else if registered "logic_boolean" then Some (logic_boolean block)
  else if registered "text_indexOf" then Some (text_indexOf block)
  else if registered "text_changeCase" then Some (text_changeCase block)
  else if registered "text_trim" then Some (text_trim block)
  else if registered "lists_create_empty" then Some (lists_create_empty block)
  else if registered "lists_indexOf" then Some (lists_indexOf block)
  else if registered "lists_getIndex" then Some (lists_getIndex block)
  else if registered "lists_setIndex" then Some (lists_setIndex block)
  else if registered "procedures_defreturn" then Some (procedures_defreturn block)
  else if registered "procedures_defnoreturn" then Some (procedures_defnoreturn block)
  else None.

(** Modelled from the spec: the driver's step for one block (the base
    class's [blockToCode]).  It dispatches to the block's emitter and
    applies [scrub_] to the text it returns, which appends the code of
    the next-statement link; an emitter that returns [null] contributes
    no text. *)
Definition dispatch (block : Block) : Gen Emitted :=
  match forBlock block with
  | None => throw ("No generator for block type " ++ type block)
  | Some emit =>
      code <- emit ;;
      match code with
      | Tuple c order => c' <- scrub_ block c false ;; ret (Tuple c' order)
      | Text c => c' <- scrub_ block c false ;; ret (Text c')
      | Null => ret (Text EmptyString)
      end
  end.

End Core.

(** The driver of the Splice generator: [dispatch], recurring to itself on
    the blocks plugged into the inputs and the next-statement link. *)
Module Splice.

Fixpoint blockToCode {names : NamesAPI} {framework : FrameworkAPI}
         (block : Block) {struct block} : Gen Emitted :=
  dispatch blockToCode block.

End Splice.

(** ** An instance of the framework interfaces

    The generator runs on any implementation of the name database and of
    the framework's text utilities.  This one is used to run it on
    concrete blocks: a variable is named by the name its model carries, a
    procedure by its own name, and a distinct name is the requested one,
    with underscores after it while it is in use. *)
Module Plain.

Record names_db := { variableMap : list VariableModel; inUse : list string }.

Definition lookupVariable (vars : list VariableModel) (nameOrId : string) : string :=
  match find (fun v => String.eqb (var_getId v) nameOrId) vars with
  | Some v => var_name v
  | None => nameOrId
  end.

Fixpoint distinct (fuel : nat) (name : string) (used : list string) : string :=
  match fuel with
  | O => name
  | S fuel' =>
      if existsb (String.eqb name) used then distinct fuel' (name ++ "_") used
      else name
  end.

Definition names : NamesAPI := {|
  Names := names_db;
  Names_new := fun _ => {| variableMap := []; inUse := [] |};
  Names_reset := fun db => {| variableMap := variableMap db; inUse := [] |};
  Names_setVariableMap := fun vars db => {| variableMap := vars; inUse := inUse db |};
  Names_populateVariables := fun ws db =>
    {| variableMap := variableMap db;
       inUse := List.app (inUse db) (map var_name (getVariableMap ws)) |};
  Names_populateProcedures := fun _ db => db;
  Names_getName := fun nameOrId ty db =>
    match ty with
    | VARIABLE => (lookupVariable (variableMap db) (Js.of_nullable nameOrId), db)
    | PROCEDURE => (Js.of_nullable nameOrId, db)
    end;
  Names_getDistinctName := fun name _ db =>
    let n := distinct (S (List.length (inUse db))) name (inUse db) in
    (n, {| variableMap := variableMap db; inUse := n :: inUse db |});
|}.

(** [prefix] put before every line of [text]. *)
Fixpoint afterNewlines (text prefix : string) : string :=
  match text with
  | EmptyString => EmptyString
  | String c rest =>
      if Ascii.eqb c (ascii_of_nat 10)
      then match rest with
           | EmptyString => String c EmptyString
           | _ => String c (prefix ++ afterNewlines rest prefix)
           end
      else String c (afterNewlines rest prefix)
  end.

Definition framework : @FrameworkAPI names := {|
  injectId := fun msg _ => msg;
  prefixLines := fun text prefix => prefix ++ afterNewlines text prefix;
  stringUtils_wrap := fun text _ => text;
  super_init := fun _ g => with_functionNames [] (with_definitions [] g);
  super_finish := fun _ g => with_functionNames [] (with_definitions [] g);
|}.

(** A freshly constructed generator. *)
Definition generator : @Generator names :=
  {| definitions_ := [];
     functionNames_ := [];
     nameDB_ := None;
     isInitialized := false;
     PASS := EmptyString;
     INDENT := "  ";
     STATEMENT_PREFIX := None;
     STATEMENT_SUFFIX := None;
     COMMENT_WRAP := 60;
     RESERVED_WORDS_ := "math,random,Number" |}.

Definition workspace0 (oneBased : bool) : Workspace :=
  {| oneBasedIndex := oneBased; getVariableMap := []; allUsedVarModels := [] |}.

(** A block of the given type, fields and inputs in the workspace [ws],
    used as an expression. *)
Definition valueBlock (ws : Workspace) (ty : string) (flds : list (string * string))
           (inputs : list (string * (inputTypes * option Block))) : Block :=
  {| type := ty; id := ty; workspace := ws; fields := flds; inputList := inputs;
     nextBlock := None; outputConnection := Plugged; getCommentText := None;
     getVars := [] |}.

(** A block used as a statement. *)
Definition statementBlock (ws : Workspace) (ty : string) (flds : list (string * string))
           (inputs : list (string * (inputTypes * option Block))) : Block :=
  {| type := ty; id := ty; workspace := ws; fields := flds; inputList := inputs;
     nextBlock := None; outputConnection := NoConnection; getCommentText := None;
     getVars := [] |}.

Definition number (ws : Workspace) (n : string) : Block :=
  valueBlock ws "math_number" [("NUM", n)] [].

End Plain.

(** ** Vocabulary of the properties *)

(** The pairs of the override table, up to equality of numbers. *)
Definition listed (outer inner : Order) : Prop :=
  ((outer == Order.FUNCTION_CALL /\ inner == Order.MEMBER) \/
   (outer == Order.FUNCTION_CALL /\ inner == Order.FUNCTION_CALL) \/
   (outer == Order.MEMBER /\ inner == Order.MEMBER) \/
   (outer == Order.MEMBER /\ inner == Order.FUNCTION_CALL) \/
   (outer == Order.LOGICAL_NOT /\ inner == Order.LOGICAL_NOT) \/
   (outer == Order.LOGICAL_AND /\ inner == Order.LOGICAL_AND) \/
   (outer == Order.LOGICAL_OR /\ inner == Order.LOGICAL_OR))%Q.





Definition recognized (options : list string) (v : option string) : bool :=
  existsb (Js.same v) options.

(** The emitter throws: it returns no code. *)
Definition throws {names : NamesAPI} {A : Type} (c : Gen A) (g : Generator) : Prop :=
  exists msg, c g = Thrown msg.

(** The text has two adjacent minus signs somewhere. *)
Fixpoint has_double_minus (s : string) : bool :=
  match s with
  | String c1 ((String c2 _) as rest) =>
      (Ascii.eqb c1 "-" && Ascii.eqb c2 "-") || has_double_minus rest
  | _ => false
  end.

(** The declaration of a used variable in the target language. *)
Definition declaration (name : string) : string :=
  "let " ++ name ++ " = " ++ DQ ++ DQ ++ ";".

(** The names the database gives to the variables, asked one after the
    other, and the database after the last one. *)
Fixpoint namesOf {names : NamesAPI} (variables : list VariableModel) (db : Names)
  : list string * Names :=
  match variables with
  | [] => ([], db)
  | v :: rest =>
      let (n, db1) := Names_getName (Some (var_getId v)) VARIABLE db in
      let (ns, db2) := namesOf rest db1 in
      (n :: ns, db2)
  end.


(** ** Concrete blocks *)

Module Examples.

Import Plain.

Definition zeroBased : Workspace := workspace0 false.
Definition oneBased : Workspace := workspace0 true.

(** The plain generator after [init] on a workspace. *)
Definition ready (ws : Workspace) : @Generator names :=
  match init (framework := framework) ws generator with
  | Returned (_, g) => g
  | Thrown _ => generator
  end.

(** The generator as a method leaves it. *)
Definition stateAfter {A : Type} (c : @Gen names A) (g : @Generator names)
  : @Generator names :=
  match c g with
  | Returned (_, g') => g'
  | Thrown _ => g
  end.

(** A block whose option fields hold a value no emitter knows. *)
Definition unknownOptionBlock (ty : string) : Block :=
  valueBlock zeroBased ty [("OP", "XYZ"); ("CASE", "XYZ"); ("MODE", "XYZ")] [].

(** A binary block of type [ty] with operator [op] and operands [a] and
    [b], each plugged or not. *)
Definition binary (ty op : string) (a b : option Block) : Block :=
  valueBlock zeroBased ty [("OP", op)] [("A", (VALUE, a)); ("B", (VALUE, b))].




(** The negation of an operand. *)
Definition negate (operand : option Block) : Block :=
  valueBlock zeroBased "math_single" [("OP", "NEG")] [("NUM", (VALUE, operand))].

(** An indexing block whose 'AT' slot holds [at_], in the workspace
    [ws]. *)
Definition getIndex (ws : Workspace) (at_ : option Block) : Block :=
  valueBlock ws "lists_getIndex" []
    [("VALUE", (VALUE, None)); ("AT", (VALUE, at_))].

Definition setIndex (ws : Workspace) (at_ : option Block) : Block :=
  statementBlock ws "lists_setIndex" []
    [("LIST", (VALUE, None)); ("AT", (VALUE, at_)); ("TO", (VALUE, None))].

Definition indexOf (ty : string) : Block :=
  valueBlock oneBased ty [("END", "FIRST")]
    [("VALUE", (VALUE, None)); ("FIND", (VALUE, None))].


(** A workspace that declares a and b and uses b only. *)
Definition declaresTwoUsesOne : Workspace :=
  {| oneBasedIndex := false;
     getVariableMap := [ {| var_getId := "id_a"; var_name := "a" |};
                         {| var_getId := "id_b"; var_name := "b" |} ];
     allUsedVarModels := [ {| var_getId := "id_b"; var_name := "b" |} ] |}.

(** A workspace that declares a, b and c, where the scan reports b and
    then a as used. *)
Definition usesTwo : Workspace :=
  {| oneBasedIndex := false;
     getVariableMap := [ {| var_getId := "id_a"; var_name := "a" |};
                         {| var_getId := "id_b"; var_name := "b" |};
                         {| var_getId := "id_c"; var_name := "c" |} ];
     allUsedVarModels := [ {| var_getId := "id_b"; var_name := "b" |};
                           {| var_getId := "id_a"; var_name := "a" |} ] |}.

(** A generator whose table holds the declarations and then the
    definition of a procedure. *)
Definition holdsTwo : @Generator names :=
  with_definitions [("variables", "let a = 0;"); ("%f", "func f() {}")] generator.

End Examples.

From Stdlib Require Import DecimalZ DecimalPos FinFun.

(** ** String literals (splice_generator.ts, [quote_] and [multiline_quote_]) *)

Definition BS : string := String (ascii_of_nat 92) EmptyString.

Module JsString.

(** [s.replace(/c/g, by)] for a pattern that is one character [c] and a
    replacement text without dollar patterns. *)
Fixpoint replaceAll (c : ascii) (by_ : string) (s : string) : string :=
  match s with
  | EmptyString => EmptyString
  | String d rest =>
      if Ascii.eqb d c then by_ ++ replaceAll c by_ rest
      else String d (replaceAll c by_ rest)
  end.

(** [s.split(/\n/g)]: the pieces between the line breaks, at least one. *)
Fixpoint splitLines (s : string) : list string :=
  match s with
  | EmptyString => [EmptyString]
  | String c rest =>
      if Ascii.eqb c (ascii_of_nat 10) then EmptyString :: splitLines rest
      else match splitLines rest with
           | [] => [String c EmptyString]
           | line :: lines => String c line :: lines
           end
  end.

End JsString.

(** [SpliceGenerator.quote_]: backslash, line feed, single quote, double
    quote, tab and carriage return are replaced one after the other. *)
Definition quote_ (s : string) : string :=
  let s := JsString.replaceAll (ascii_of_nat 92) (BS ++ BS) s in
  let s := JsString.replaceAll (ascii_of_nat 10) (BS ++ "n") s in
  let s := JsString.replaceAll (ascii_of_nat 39) (BS ++ "'") s in
  let s := JsString.replaceAll (ascii_of_nat 34) (BS ++ DQ) s in
  let s := JsString.replaceAll (ascii_of_nat 9) (BS ++ "t") s in
  let s := JsString.replaceAll (ascii_of_nat 13) (BS ++ "r") s in
  DQ ++ s ++ DQ.

(** [SpliceGenerator.multiline_quote_]. *)
Definition multiline_quote_ (s : string) : string :=
  let lines := map quote_ (JsString.splitLines s) in
  Js.join (" + '" ++ BS ++ "n' +" ++ NL) lines.

(** ** More of the framework, as the emitters below read it *)

(** [block.getInput(name)] is truthy. *)
Definition getInput (block : Block) (name : string) : bool :=
  match Js.prop (inputList block) name with Some _ => true | None => false end.

(** A name made of a prefix and an index, as in ['ADD' + i]. *)
Definition indexed (prefix : string) (i : nat) : string :=
  prefix ++ Js.of_int (Z.of_nat i).

(** ** More block emitters *)

Section MoreEmitters.

Context {names : NamesAPI} {framework : FrameworkAPI}.

Variable blockToCode : Block -> Gen Emitted.

(** [itemCount_] of a create-with block (a member of CreateWithBlock, which
    the block model does not carry). *)
Variable itemCount_ : Block -> nat.

(** [generator.addLoopTrap] of the base class, which is not among the
    sources. *)
Variable addLoopTrap : string -> Block -> string.

(** The elements [valueToCode(block, prefix + i, Order.NONE) || missing]
    for [i] from [i] on, [count] of them. *)
Fixpoint indexedValues (block : Block) (prefix missing : string) (count i : nat)
  : Gen (list string) :=
  match count with
  | O => ret []
  | S count' =>
      element <- valueToCode blockToCode block (indexed prefix i) Order.NONE ;;
      rest <- indexedValues block prefix missing count' (S i) ;;
      ret (Js.or_else element missing :: rest)
  end.

(** *** Text (generators/splice/text) *)

(** [quote_] of a field that is [null] throws a TypeError. *)
Definition quoteField (v : option string) : Gen string :=
  match v with
  | Some s => ret (quote_ s)
  | None => throw "TypeError: Cannot read properties of null"
  end.

Definition text (block : Block) : Gen Emitted :=
  code <- quoteField (getFieldValue block "TEXT") ;;
  ret (Tuple code Order.ATOMIC).

Definition text_multiline (block : Block) : Gen Emitted :=
  match getFieldValue block "TEXT" with
  | Some s => ret (Tuple (multiline_quote_ s) Order.ATOMIC)
  | None => throw "TypeError: Cannot read properties of null"
  end.

Definition text_join (block : Block) : Gen Emitted :=
  elements <- indexedValues block "ADD" (DQ ++ DQ) (itemCount_ block) O ;;
  let code := Js.join " + " elements in
  ret (Tuple code Order.ADDITIVE).

Definition text_append (block : Block) : Gen Emitted :=
  varName <- getVariableName (getFieldValue block "VAR") ;;
  value <- valueToCode blockToCode block "TEXT" Order.NONE ;;
  let value := Js.or_else value (DQ ++ DQ) in
  ret (Text (varName ++ " = " ++ varName ++ " + " ++ value ++ ";" ++ NL)).

Definition text_length (block : Block) : Gen Emitted :=
  text <- valueToCode blockToCode block "VALUE" Order.NONE ;;
  let text := Js.or_else text (DQ ++ DQ) in
  ret (Tuple ("len(" ++ text ++ ")") Order.FUNCTION_CALL).

Definition text_isEmpty (block : Block) : Gen Emitted :=
  text <- valueToCode blockToCode block "VALUE" Order.NONE ;;
  let text := Js.or_else text (DQ ++ DQ) in
  ret (Tuple ("len(" ++ text ++ ") == 0") Order.EQUALITY).

Definition text_random_letter (NAME : string) : list string :=
  [ "function " ++ NAME ++ "(text) {";
    "  const length = text.length;";
    "  const position = Math.floor(Math.random() * length);";
    "  return text[position];";
    "}" ].

Definition text_charAt (block : Block) : Gen Emitted :=
  let where_ := match getFieldValue block "WHERE" with
                | Some w => Js.or_else w "FROM_START"
                | None => "FROM_START"
                end in
  let textOrder := if String.eqb where_ "RANDOM" then Order.NONE else Order.NONE in
  text <- valueToCode blockToCode block "VALUE" textOrder ;;
  let text := Js.or_else text (DQ ++ DQ) in
  let member (at_ : string) : Gen Emitted :=
    ret (Tuple (text ++ "[" ++ at_ ++ "]") Order.MEMBER) in
  if String.eqb where_ "FROM_START" then
    at_ <- getAdjusted blockToCode block "AT" None None None ;;
    member at_
  else if String.eqb where_ "FROM_END" then
    at_ <- getAdjusted blockToCode block "AT" (Some 1) (Some true) None ;;
    member at_
  else if String.eqb where_ "FIRST" then member "0"
  else if String.eqb where_ "LAST" then member "-1"
  else if String.eqb where_ "RANDOM" then
    functionName <- provideFunction_ "text_random_letter" text_random_letter ;;
    ret (Tuple (functionName ++ "(" ++ text ++ ")") Order.FUNCTION_CALL)
  else throw "Unhandled option (text_charAt).".

Definition text_getSubstring (block : Block) : Gen Emitted :=
  text <- valueToCode blockToCode block "STRING" Order.NONE ;;
  let text := Js.or_else text (DQ ++ DQ) in
  let where1 := getFieldValue block "WHERE1" in
  let where2 := getFieldValue block "WHERE2" in
  at1 <-
    (if Js.same where1 "FROM_START" then
       getAdjusted blockToCode block "AT1" None None None
     else if Js.same where1 "FROM_END" then
       getAdjusted blockToCode block "AT1" (Some 1) (Some true) None
     else if Js.same where1 "FIRST" then ret "0"
     else throw "Unhandled option (text_getSubstring).") ;;
  at2 <-
    (if Js.same where2 "FROM_START" then
       getAdjusted blockToCode block "AT2" (Some 1) None None
     else if Js.same where2 "FROM_END" then
       getAdjusted blockToCode block "AT2" (Some 0) (Some true) None
     else if Js.same where2 "LAST" then ret EmptyString
     else throw "Unhandled option (text_getSubstring).") ;;
  let code := text ++ ".substring(" ++ at1 ++ ", " ++ at2 ++ ")" in
  ret (Tuple code Order.FUNCTION_CALL).

Definition text_print (block : Block) : Gen Emitted :=
  msg <- valueToCode blockToCode block "TEXT" Order.NONE ;;
  let msg := Js.or_else msg (DQ ++ DQ) in
  ret (Text ("print(" ++ msg ++ ");" ++ NL)).

Definition text_prompt_helper (NAME : string) : list string :=
  [ "function " ++ NAME ++ "(msg) {";
    "  if (msg) {";
    "    return window.prompt(msg);";
    "  } else {";
    "    return window.prompt(" ++ DQ ++ DQ ++ ");";
    "  }";
    "}" ].

Definition text_prompt_ext (block : Block) : Gen Emitted :=
  functionName <- provideFunction_ "text_prompt" text_prompt_helper ;;
  msg <- valueToCode blockToCode block "TEXT" Order.NONE ;;
  let msg := Js.or_else msg (DQ ++ DQ) in
  ret (Tuple (functionName ++ "(" ++ msg ++ ")") Order.FUNCTION_CALL).

Definition text_prompt (block : Block) : Gen Emitted :=
  msg <- quoteField (getFieldValue block "TEXT") ;;
  ret (Tuple ("input(" ++ msg ++ ")") Order.FUNCTION_CALL).

Definition text_count_helper (NAME : string) : list string :=
  [ "function " ++ NAME ++ "(haystack, needle) {";
    "  if (needle.length === 0) return haystack.length + 1;";
    "  let n = 0;";
    "  let i = 0;";
    "  while ((i = haystack.indexOf(needle, i)) !== -1) {";
    "    n++;";
    "    i += needle.length;";
    "  }";
    "  return n;";
    "}" ].

Definition text_count (block : Block) : Gen Emitted :=
  text <- valueToCode blockToCode block "TEXT" Order.NONE ;;
  let text := Js.or_else text (DQ ++ DQ) in
  sub <- valueToCode blockToCode block "SUB" Order.NONE ;;
  let sub := Js.or_else sub (DQ ++ DQ) in
  functionName <- provideFunction_ "text_count" text_count_helper ;;
  ret (Tuple (functionName ++ "(" ++ text ++ ", " ++ sub ++ ")") Order.FUNCTION_CALL).

Definition text_replace (block : Block) : Gen Emitted :=
  text <- valueToCode blockToCode block "TEXT" Order.NONE ;;
  let text := Js.or_else text (DQ ++ DQ) in
  from <- valueToCode blockToCode block "FROM" Order.NONE ;;
  let from := Js.or_else from (DQ ++ DQ) in
  to <- valueToCode blockToCode block "TO" Order.NONE ;;
  let to := Js.or_else to (DQ ++ DQ) in
  ret (Tuple (text ++ ".replace(" ++ from ++ ", " ++ to ++ ")") Order.FUNCTION_CALL).

Definition text_reverse (block : Block) : Gen Emitted :=
  text <- valueToCode blockToCode block "TEXT" Order.NONE ;;
  let text := Js.or_else text (DQ ++ DQ) in
  ret (Tuple (text ++ ".split(" ++ DQ ++ DQ ++ ").reverse().join(" ++ DQ ++ DQ ++ ")")
             Order.FUNCTION_CALL).

(** *** Lists (generators/splice/lists) *)

Definition lists_create_with (block : Block) : Gen Emitted :=
  elements <- indexedValues block "ADD" "null" (itemCount_ block) O ;;
  let code := "[" ++ Js.join "," elements ++ "]" in
  ret (Tuple code Order.ATOMIC).

Definition lists_repeat_helper (NAME : string) : list string :=
  [ "func " ++ NAME ++ "(value, n) {";
    "  let arr = [];";
    "  let i = 0;";
    "  while (i < n) {";
    "    append(arr, value);";
    "    i = i + 1;";
    "  }";
    "  return arr;";
    "}" ].

Definition lists_repeat (block : Block) : Gen Emitted :=
  functionName <- provideFunction_ "lists_repeat" lists_repeat_helper ;;
  element <- valueToCode blockToCode block "ITEM" Order.NONE ;;
  let element := Js.or_else element "null" in
  repeatCount <- valueToCode blockToCode block "NUM" Order.NONE ;;
  let repeatCount := Js.or_else repeatCount "0" in
  ret (Tuple (functionName ++ "(" ++ element ++ ", " ++ repeatCount ++ ")")
             Order.FUNCTION_CALL).

Definition lists_length (block : Block) : Gen Emitted :=
  list <- valueToCode blockToCode block "VALUE" Order.NONE ;;
  let list := Js.or_else list "[]" in
  ret (Tuple ("len(" ++ list ++ ")") Order.FUNCTION_CALL).

Definition lists_isEmpty (block : Block) : Gen Emitted :=
  list <- valueToCode blockToCode block "VALUE" Order.NONE ;;
  let list := Js.or_else list "[]" in
  ret (Tuple ("len(" ++ list ++ ") == 0") Order.EQUALITY).

Definition lists_getSublist_helper (NAME : string) : list string :=
  [ "func " ++ NAME ++ "(list, start, end) {";
    "  let result = [];";
    "  let i = start;";
    "  while (i < end) {";
    "    append(result, list[i]);";
    "    i = i + 1;";
    "  }";
    "  return result;";
    "}" ].

Definition lists_getSublist (block : Block) : Gen Emitted :=
  list <- valueToCode blockToCode block "LIST" Order.NONE ;;
  let list := Js.or_else list "[]" in
  let where1 := getFieldValue block "WHERE1" in
  let where2 := getFieldValue block "WHERE2" in
  at1 <-
    (if Js.same where1 "FROM_START" then
       getAdjusted blockToCode block "AT1" None None None
     else if Js.same where1 "FROM_END" then
       getAdjusted blockToCode block "AT1" (Some 1) (Some true) None
     else if Js.same where1 "FIRST" then ret "0"
     else throw "Unhandled option (lists_getSublist).") ;;
  at2 <-
    (if Js.same where2 "FROM_START" then
       getAdjusted blockToCode block "AT2" (Some 1) None None
     else if Js.same where2 "FROM_END" then
       getAdjusted blockToCode block "AT2" (Some 0) (Some true) None
     else if Js.same where2 "LAST" then ret ("len(" ++ list ++ ")")
     else throw "Unhandled option (lists_getSublist).") ;;
  functionName <- provideFunction_ "lists_getSublist" lists_getSublist_helper ;;
  ret (Tuple (functionName ++ "(" ++ list ++ ", " ++ at1 ++ ", " ++ at2 ++ ")")
             Order.FUNCTION_CALL).

Definition lists_split_helper (NAME : string) : list string :=
  [ "func " ++ NAME ++ "(input, delim) {";
    "  // Simple split implementation";
    "  let result = [];";
    "  let current = " ++ DQ ++ DQ ++ ";";
    "  let i = 0;";
    "  while (i < len(input)) {";
    "    if (input[i] == delim) {";
    "      append(result, current);";
    "      current = " ++ DQ ++ DQ ++ ";";
    "    } else {";
    "      current = current + input[i];";
    "    }";
    "    i = i + 1;";
    "  }";
    "  append(result, current);";
    "  return result;";
    "}" ].

Definition lists_join_helper (NAME : string) : list string :=
  [ "func " ++ NAME ++ "(input, delim) {";
    "  let result = " ++ DQ ++ DQ ++ ";";
    "  let i = 0;";
    "  while (i < len(input)) {";
    "    if (i > 0) {";
    "      result = result + delim;";
    "    }";
    "    result = result + input[i];";
    "    i = i + 1;";
    "  }";
    "  return result;";
    "}" ].

Definition lists_split (block : Block) : Gen Emitted :=
  input <- valueToCode blockToCode block "INPUT" Order.NONE ;;
  delimiter <- valueToCode blockToCode block "DELIM" Order.NONE ;;
  let delimiter := Js.or_else delimiter (DQ ++ DQ) in
  let mode := getFieldValue block "MODE" in
  if Js.same mode "SPLIT" then
    functionName <- provideFunction_ "lists_split" lists_split_helper ;;
    ret (Tuple (functionName ++ "(" ++ input ++ ", " ++ delimiter ++ ")")
               Order.FUNCTION_CALL)
  else if Js.same mode "JOIN" then
    functionName <- provideFunction_ "lists_join" lists_join_helper ;;
    ret (Tuple (functionName ++ "(" ++ input ++ ", " ++ delimiter ++ ")")
               Order.FUNCTION_CALL)
  else throw ("Unknown mode: " ++ Js.of_nullable mode).

Definition lists_sort_helper (NAME : string) : list string :=
  [ "func " ++ NAME ++ "(list, type, direction) {";
    "  let copy = [];";
    "  let i = 0;";
    "  while (i < len(list)) {";
    "    append(copy, list[i]);";
    "    i = i + 1;";
    "  }";
    "  // Simple bubble sort";
    "  i = 0;";
    "  while (i < len(copy) - 1) {";
    "    let j = 0;";
    "    while (j < len(copy) - i - 1) {";
    "      let swap = false;";
    "      if (type == " ++ DQ ++ "NUMERIC" ++ DQ ++ ") {";
    "        if (direction == 1) {";
    "          swap = copy[j] > copy[j + 1];";
    "        } else {";
    "          swap = copy[j] < copy[j + 1];";
    "        }";
    "      } else {";
    "        // String comparison, simplified";
    "        if (direction == 1) {";
    "          swap = copy[j] > copy[j + 1];";
    "        } else {";
    "          swap = copy[j] < copy[j + 1];";
    "        }";
    "      }";
    "      if (swap) {";
    "        let temp = copy[j];";
    "        copy[j] = copy[j + 1];";
    "        copy[j + 1] = temp;";
    "      }";
    "      j = j + 1;";
    "    }";
    "    i = i + 1;";
    "  }";
    "  return copy;";
    "}" ].

Definition lists_sort (block : Block) : Gen Emitted :=
  list <- valueToCode blockToCode block "LIST" Order.FUNCTION_CALL ;;
  let list := Js.or_else list "[]" in
  let direction := if Js.same (getFieldValue block "DIRECTION") "1" then 1 else -1 in
  let type_ := getFieldValue block "TYPE" in
  functionName <- provideFunction_ "lists_sort" lists_sort_helper ;;
  ret (Tuple (functionName ++ "(" ++ list ++ ", " ++ DQ ++ Js.of_nullable type_ ++ DQ
                ++ ", " ++ Js.of_int direction ++ ")")
             Order.FUNCTION_CALL).

Definition lists_reverse_helper (NAME : string) : list string :=
  [ "func " ++ NAME ++ "(list) {";
    "  let result = [];";
    "  let i = len(list) - 1;";
    "  while (i >= 0) {";
    "    append(result, list[i]);";
    "    i = i - 1;";
    "  }";
    "  return result;";
    "}" ].

Definition lists_reverse (block : Block) : Gen Emitted :=
  list <- valueToCode blockToCode block "LIST" Order.FUNCTION_CALL ;;
  let list := Js.or_else list "[]" in
  functionName <- provideFunction_ "lists_reverse" lists_reverse_helper ;;
  ret (Tuple (functionName ++ "(" ++ list ++ ")") Order.FUNCTION_CALL).

(** *** Math (generators/splice/math) *)

Definition math_number_property (block : Block) : Gen Emitted :=
  number_to_check <- valueToCode blockToCode block "NUMBER_TO_CHECK" Order.MULTIPLICATIVE ;;
  let number_to_check := Js.or_else number_to_check "0" in
  let dropdown_property := getFieldValue block "PROPERTY" in
  code <-
    (if Js.same dropdown_property "EVEN" then ret (number_to_check ++ " % 2 == 0")
     else if Js.same dropdown_property "ODD" then ret (number_to_check ++ " % 2 == 1")
     else if Js.same dropdown_property "WHOLE" then ret (number_to_check ++ " % 1 == 0")
     else if Js.same dropdown_property "POSITIVE" then ret (number_to_check ++ " > 0")
     else if Js.same dropdown_property "NEGATIVE" then ret (number_to_check ++ " < 0")
     else if Js.same dropdown_property "DIVISIBLE_BY" then
       divisor <- valueToCode blockToCode block "DIVISOR" Order.MULTIPLICATIVE ;;
       let divisor := Js.or_else divisor "1" in
       ret (number_to_check ++ " % " ++ divisor ++ " == 0")
     else throw ("Unknown number property: " ++ Js.of_nullable dropdown_property)) ;;
  ret (Tuple code Order.EQUALITY).

Definition math_change (block : Block) : Gen Emitted :=
  argument0 <- valueToCode blockToCode block "DELTA" Order.ADDITIVE ;;
  let argument0 := Js.or_else argument0 "0" in
  varName <- getVariableName (getFieldValue block "VAR") ;;
  ret (Text (varName ++ " = " ++ varName ++ " + " ++ argument0 ++ ";" ++ NL)).

Definition math_on_list (block : Block) : Gen Emitted :=
  let func := getFieldValue block "OP" in
  list <- valueToCode blockToCode block "LIST" Order.NONE ;;
  let list := Js.or_else list "[]" in
  code <-
    (if Js.same func "SUM" then ret ("sum(" ++ list ++ ")")
     else if Js.same func "MIN" then ret ("min(" ++ list ++ ")")
     else if Js.same func "MAX" then ret ("max(" ++ list ++ ")")
     else if Js.same func "AVERAGE" then ret ("average(" ++ list ++ ")")
     else if Js.same func "MEDIAN" then ret ("median(" ++ list ++ ")")
     else if Js.same func "MODE" then ret ("mode(" ++ list ++ ")")
     else if Js.same func "STD_DEV" then ret ("std_dev(" ++ list ++ ")")
     else if Js.same func "RANDOM" then ret ("random.choice(" ++ list ++ ")")
     else throw ("Unknown operator: " ++ Js.of_nullable func)) ;;
  ret (Tuple code Order.FUNCTION_CALL).

Definition math_modulo (block : Block) : Gen Emitted :=
  argument0 <- valueToCode blockToCode block "DIVIDEND" Order.MULTIPLICATIVE ;;
  let argument0 := Js.or_else argument0 "0" in
  argument1 <- valueToCode blockToCode block "DIVISOR" Order.MULTIPLICATIVE ;;
  let argument1 := Js.or_else argument1 "1" in
  ret (Tuple (argument0 ++ " % " ++ argument1) Order.MULTIPLICATIVE).

Definition math_constrain (block : Block) : Gen Emitted :=
  argument0 <- valueToCode blockToCode block "VALUE" Order.NONE ;;
  let argument0 := Js.or_else argument0 "0" in
  argument1 <- valueToCode blockToCode block "LOW" Order.NONE ;;
  let argument1 := Js.or_else argument1 "0" in
  argument2 <- valueToCode blockToCode block "HIGH" Order.NONE ;;
  let argument2 := Js.or_else argument2 "Infinity" in
  ret (Tuple ("math.max(" ++ argument1 ++ ", math.min(" ++ argument2 ++ ", "
                ++ argument0 ++ "))")
             Order.FUNCTION_CALL).

Definition math_random_int (block : Block) : Gen Emitted :=
  argument0 <- valueToCode blockToCode block "FROM" Order.NONE ;;
  let argument0 := Js.or_else argument0 "0" in
  argument1 <- valueToCode blockToCode block "TO" Order.NONE ;;
  let argument1 := Js.or_else argument1 "0" in
  ret (Tuple ("random.randint(" ++ argument0 ++ ", " ++ argument1 ++ ")")
             Order.FUNCTION_CALL).

Definition math_random_float (block : Block) : Gen Emitted :=
  ret (Tuple "random.random()" Order.FUNCTION_CALL).

Definition math_atan2 (block : Block) : Gen Emitted :=
  argument0 <- valueToCode blockToCode block "X" Order.NONE ;;
  let argument0 := Js.or_else argument0 "0" in
  argument1 <- valueToCode blockToCode block "Y" Order.NONE ;;
  let argument1 := Js.or_else argument1 "0" in
  ret (Tuple ("math.atan2(" ++ argument1 ++ ", " ++ argument0 ++ ")")
             Order.FUNCTION_CALL).

(** *** Logic (generators/splice/logic) *)

(** The statement suffix, injected and indented, put before the code of
    a branch when [STATEMENT_SUFFIX] is set. *)
Definition suffixedBranch (block : Block) (branchCode : string) (g : Generator) : string :=
  if truthy (STATEMENT_SUFFIX g)
  then prefixLines (injectId (Js.of_nullable (STATEMENT_SUFFIX g)) block) (INDENT g)
         ++ branchCode
  else branchCode.

(** The do-while loop of [controls_if], from round [n] on, with the code
    so far.  A further round is made while the block has an input
    ['IF' + n]; [rounds] bounds the further rounds, and the number of
    inputs of the block is a bound that is never reached. *)
Fixpoint controls_if_rounds (block : Block) (rounds n : nat) (code : string)
  : Gen string :=
  conditionCode <- valueToCode blockToCode block (indexed "IF" n) Order.NONE ;;
  let conditionCode := Js.or_else conditionCode "false" in
  branchCode <- statementToCode blockToCode block (indexed "DO" n) ;;
  g <- read (fun g => g) ;;
  let branchCode := Js.or_else branchCode (PASS g) in
  let branchCode := suffixedBranch block branchCode g in
  let code := code ++ (if Nat.eqb n 0 then "if (" else ") else if (")
                   ++ conditionCode ++ ") {" ++ NL ++ branchCode ++ "}" in
  if getInput block (indexed "IF" (S n)) then
    match rounds with
    | S rounds' => controls_if_rounds block rounds' (S n) code
    | O => ret code
    end
  else ret code.

Definition controls_if (block : Block) : Gen Emitted :=
  g <- read (fun g => g) ;;
  let code := EmptyString in
  let code := if truthy (STATEMENT_PREFIX g)
              then code ++ injectId (Js.of_nullable (STATEMENT_PREFIX g)) block
              else code in
  code <- controls_if_rounds block (List.length (inputList block)) O code ;;
  g <- read (fun g => g) ;;
  code <-
    (if getInput block "ELSE" || truthy (STATEMENT_SUFFIX g) then
       branchCode <-
         (if getInput block "ELSE" then
            branchCode <- statementToCode blockToCode block "ELSE" ;;
            g <- read (fun g => g) ;;
            ret (Js.or_else branchCode (PASS g))
          else read PASS) ;;
       g <- read (fun g => g) ;;
       let branchCode := suffixedBranch block branchCode g in
       ret (code ++ " else {" ++ NL ++ branchCode ++ "}")
     else ret code) ;;
  ret (Text (code ++ NL)).

Definition logic_null (block : Block) : Gen Emitted :=
  ret (Tuple "null" Order.ATOMIC).

Definition logic_ternary (block : Block) : Gen Emitted :=
  value_if <- valueToCode blockToCode block "IF" Order.CONDITIONAL ;;
  let value_if := Js.or_else value_if "false" in
  value_then <- valueToCode blockToCode block "THEN" Order.CONDITIONAL ;;
  let value_then := Js.or_else value_then "null" in
  value_else <- valueToCode blockToCode block "ELSE" Order.CONDITIONAL ;;
  let value_else := Js.or_else value_else "null" in
  ret (Tuple (value_if ++ " ? " ++ value_then ++ " : " ++ value_else) Order.CONDITIONAL).

(** *** Loops (generators/splice/loops) *)

Definition controls_whileUntil (block : Block) : Gen Emitted :=
  let until := Js.same (getFieldValue block "MODE") "UNTIL" in
  argument0 <- valueToCode blockToCode block "BOOL" Order.LOGICAL_AND ;;
  let argument0 := Js.or_else argument0 "false" in
  branch <- statementToCode blockToCode block "DO" ;;
  let branch := addLoopTrap branch block in
  let argument0 := if until then "!" ++ argument0 else argument0 in
  ret (Text ("while (" ++ argument0 ++ ") {" ++ NL ++ branch ++ "}" ++ NL)).

Definition controls_for (block : Block) : Gen Emitted :=
  variable0 <- getVariableName (getFieldValue block "VAR") ;;
  argument0 <- valueToCode blockToCode block "FROM" Order.ASSIGNMENT ;;
  let argument0 := Js.or_else argument0 "0" in
  argument1 <- valueToCode blockToCode block "TO" Order.ASSIGNMENT ;;
  let argument1 := Js.or_else argument1 "0" in
  increment <- valueToCode blockToCode block "BY" Order.ASSIGNMENT ;;
  let increment := Js.or_else increment "1" in
  branch <- statementToCode blockToCode block "DO" ;;
  let branch := addLoopTrap branch block in
  let code := EmptyString in
  let code :=
    if String.eqb increment "1" then
      code ++ "for " ++ variable0 ++ " in " ++ argument0 ++ " . " ++ argument1
           ++ " {" ++ NL ++ branch ++ "}" ++ NL
    else
      let code := code ++ "let " ++ variable0 ++ " = " ++ argument0 ++ ";" ++ NL in
      code ++ "while (" ++ variable0 ++ " <= " ++ argument1 ++ ") {" ++ NL ++ branch
           ++ "  " ++ variable0 ++ " = " ++ variable0 ++ " + " ++ increment ++ ";" ++ NL
           ++ "}" ++ NL in
  ret (Text code).

Definition controls_forEach (block : Block) : Gen Emitted :=
  variable0 <- getVariableName (getFieldValue block "VAR") ;;
  argument0 <- valueToCode blockToCode block "LIST" Order.ASSIGNMENT ;;
  let argument0 := Js.or_else argument0 "[]" in
  branch <- statementToCode blockToCode block "DO" ;;
  let branch := addLoopTrap branch block in
  let code := EmptyString in
  listVar <- getDistinctName "list" VARIABLE ;;
  indexVar <- getDistinctName "index" VARIABLE ;;
  let code := code ++ "let " ++ listVar ++ " = " ++ argument0 ++ ";" ++ NL in
  let code := code ++ "for (let " ++ indexVar ++ " = 0; " ++ indexVar ++ " < len("
                   ++ listVar ++ "); " ++ indexVar ++ "++) {" ++ NL in
  let code := code ++ "  let " ++ variable0 ++ " = " ++ listVar ++ "[" ++ indexVar ++ "];"
                   ++ NL ++ branch ++ "}" ++ NL in
  ret (Text code).

Definition controls_flow_statements (block : Block) : Gen Emitted :=
  let xfix := EmptyString in
  g <- read (fun g => g) ;;
  if truthy (STATEMENT_PREFIX g) then
    ret (Text (injectId (Js.of_nullable (STATEMENT_PREFIX g)) block ++ xfix
                 ++ Js.of_nullable (getFieldValue block "FLOW") ++ ";" ++ NL))
  else
    ret (Text (xfix ++ Js.of_nullable (getFieldValue block "FLOW") ++ ";" ++ NL)).

(** *** Dynamic variables (generators/splice/variables_dynamic) *)

Definition variables_get_dynamic (block : Block) : Gen Emitted :=
  code <- getVariableName (getFieldValue block "VAR") ;;
  ret (Tuple code Order.ATOMIC).

Definition variables_set_dynamic (block : Block) : Gen Emitted :=
  argument0 <- valueToCode blockToCode block "VALUE" Order.ASSIGNMENT ;;
  let argument0 := Js.or_else argument0 "0" in
  varName <- getVariableName (getFieldValue block "VAR") ;;
  ret (Text (varName ++ " = " ++ argument0 ++ ";" ++ NL)).

(** *** Procedure calls (generators/splice/procedures) *)

Definition procedures_callreturn (block : Block) : Gen Emitted :=
  funcName <- getProcedureName (getFieldValue block "NAME") ;;
  args <- indexedValues block "ARG" "null" (List.length (getVars block)) O ;;
  ret (Tuple (funcName ++ "(" ++ Js.join ", " args ++ ")") Order.FUNCTION_CALL).

Definition procedures_callnoreturn (block : Block) : Gen Emitted :=
  funcName <- getProcedureName (getFieldValue block "NAME") ;;
  args <- indexedValues block "ARG" "null" (List.length (getVars block)) O ;;
  ret (Text (funcName ++ "(" ++ Js.join ", " args ++ ");" ++ NL)).

Definition procedures_ifreturn (block : Block) : Gen Emitted :=
  condition <- valueToCode blockToCode block "CONDITION" Order.NONE ;;
  let condition := Js.or_else condition "false" in
  let code := "if (" ++ condition ++ ") {" ++ NL in
  g <- read (fun g => g) ;;
  let code := if truthy (STATEMENT_SUFFIX g)
              then code ++ prefixLines
                             (injectId (Js.of_nullable (STATEMENT_SUFFIX g)) block)
                             (INDENT g)
              else code in
  code <-
    (if getInput block "RETURN" then
       value <- valueToCode blockToCode block "VALUE" Order.NONE ;;
       let value := Js.or_else value "null" in
       indent <- read INDENT ;;
       ret (code ++ indent ++ "return " ++ value ++ ";" ++ NL)
     else ret (code ++ INDENT g ++ "return;" ++ NL)) ;;
  ret (Text (code ++ "}" ++ NL)).

End MoreEmitters.

(** ** Vocabulary of the further properties *)

(** The escape of one character in a string literal. *)
Definition escapeChar (c : ascii) : string :=
  if Ascii.eqb c (ascii_of_nat 92) then BS ++ BS
  else if Ascii.eqb c (ascii_of_nat 10) then BS ++ "n"
  else if Ascii.eqb c (ascii_of_nat 39) then BS ++ "'"
  else if Ascii.eqb c (ascii_of_nat 34) then BS ++ DQ
  else if Ascii.eqb c (ascii_of_nat 9) then BS ++ "t"
  else if Ascii.eqb c (ascii_of_nat 13) then BS ++ "r"
  else String c EmptyString.

Fixpoint escapeAll (s : string) : string :=
  match s with
  | EmptyString => EmptyString
  | String c rest => escapeChar c ++ escapeAll rest
  end.

(** The character that a backslash followed by [c] stands for. *)
Definition escaped (c : ascii) : ascii :=
  if Ascii.eqb c "n" then ascii_of_nat 10
  else if Ascii.eqb c "t" then ascii_of_nat 9
  else if Ascii.eqb c "r" then ascii_of_nat 13
  else c.

(** A reader of string literals: the text of a literal that opens with a
    double quote and closes at its first bare double quote, which has to
    be its last character. *)
Fixpoint readBody (s : string) : option string :=
  match s with
  | EmptyString => None
  | String c rest =>
      if Ascii.eqb c (ascii_of_nat 34) then
        match rest with EmptyString => Some EmptyString | _ => None end
      else if Ascii.eqb c (ascii_of_nat 92) then
        match rest with
        | String e rest' => option_map (String (escaped e)) (readBody rest')
        | EmptyString => None
        end
      else option_map (String c) (readBody rest)
  end.

Definition readLiteral (s : string) : option string :=
  match s with
  | String c rest => if Ascii.eqb c (ascii_of_nat 34) then readBody rest else None
  | EmptyString => None
  end.

(** The character occurs in the text. *)
Fixpoint occurs (c : ascii) (s : string) : bool :=
  match s with
  | EmptyString => false
  | String d rest => Ascii.eqb d c || occurs c rest
  end.

(** The six replacements of [quote_], one after the other. *)
Definition replacements (s : string) : string :=
  JsString.replaceAll (ascii_of_nat 13) (BS ++ "r")
    (JsString.replaceAll (ascii_of_nat 9) (BS ++ "t")
       (JsString.replaceAll (ascii_of_nat 34) (BS ++ DQ)
          (JsString.replaceAll (ascii_of_nat 39) (BS ++ "'")
             (JsString.replaceAll (ascii_of_nat 10) (BS ++ "n")
                (JsString.replaceAll (ascii_of_nat 92) (BS ++ BS) s))))).

(** The options the further if/else chains recognize. *)
Definition text_charAt_options : list string :=
  ["FROM_START"; "FROM_END"; "FIRST"; "LAST"; "RANDOM"].

Definition where1_options : list string := ["FROM_START"; "FROM_END"; "FIRST"].

Definition where2_options : list string := ["FROM_START"; "FROM_END"; "LAST"].

Definition lists_split_options : list string := ["SPLIT"; "JOIN"].

Definition math_number_property_options : list string :=
  ["EVEN"; "ODD"; "WHOLE"; "POSITIVE"; "NEGATIVE"; "DIVISIBLE_BY"].

Definition math_on_list_options : list string :=
  ["SUM"; "MIN"; "MAX"; "AVERAGE"; "MEDIAN"; "MODE"; "STD_DEV"; "RANDOM"].

(** The text ends with a line break. *)
Definition endsWithNewline (s : string) : Prop := exists c, s = c ++ NL.

(** Whenever the method returns, it returns the text of a statement, and
    the text ends with a line break. *)
Definition returnsStatement {names : NamesAPI} (c : Gen Emitted) : Prop :=
  forall g r g', c g = Returned (r, g') ->
                 exists code, r = Text code /\ endsWithNewline code.

(** Whenever the method returns, it returns the code and order of an
    expression, and the code is not empty. *)
Definition returnsExpression {names : NamesAPI} (c : Gen Emitted) : Prop :=
  forall g r g', c g = Returned (r, g') ->
                 exists code order, r = Tuple code order /\ code <> EmptyString.

(** An integer that a JavaScript number holds exactly and writes with
    all its digits (Number.isSafeInteger). *)
Definition safeInteger (n : Z) : Prop := (Z.abs n < 2 ^ 53)%Z.

(** The inputs [prefix + i], [prefix + (i + 1)], ... of the block,
    [count] of them, are resolved at NONE one after the other, each from
    the generator that the one before it left: [codes] are the texts
    they resolve to, the empty string for an unconnected input. *)
Inductive resolved {names : NamesAPI} {framework : FrameworkAPI}
          (blockToCode : Block -> Gen Emitted) (block : Block) (prefix : string)
  : nat -> nat -> Generator -> list string -> Generator -> Prop :=
| resolved_none (i : nat) (g : Generator) :
    resolved blockToCode block prefix O i g [] g
| resolved_next (count i : nat) (g g1 g' : Generator) (code : string)
                (codes : list string) :
    valueToCode blockToCode block (indexed prefix i) Order.NONE g = Returned (code, g1) ->
    resolved blockToCode block prefix count (S i) g1 codes g' ->
    resolved blockToCode block prefix (S count) i g (code :: codes) g'.

(** The elements of a create-with block or the arguments of a call: the
    resolved texts, a missing one replaced by its default. *)
Definition withDefault (missing : string) (codes : list string) : list string :=
  map (fun code => Js.or_else code missing) codes.

(** ** Further concrete blocks *)

Module MoreExamples.

Import Plain Examples.

(** The number of items of a create-with block, read off its inputs, and
    a loop trap that adds nothing. *)
Definition itemCount (block : Block) : nat := List.length (inputList block).

Definition noLoopTrap (branch : string) (block : Block) : string := branch.

(** A text with a double quote, a backslash and a line feed in it. *)
Definition awkward : string := "say " ++ DQ ++ "hi" ++ DQ ++ BS ++ NL ++ "bye".

(** The substring of a missing text between the positions 2 and 5, both
    counted from the start. *)
Definition substring (ws : Workspace) : Block :=
  valueBlock ws "text_getSubstring"
    [("WHERE1", "FROM_START"); ("WHERE2", "FROM_START")]
    [("STRING", (VALUE, None));
     ("AT1", (VALUE, Some (number ws "2")));
     ("AT2", (VALUE, Some (number ws "5")))].

(** The letter of a missing text at position 3, in the mode [where_]. *)
Definition charAt (ws : Workspace) (where_ : list (string * string)) : Block :=
  valueBlock ws "text_charAt" where_
    [("VALUE", (VALUE, None)); ("AT", (VALUE, Some (number ws "3")))].

(** A statement with a comment. *)
Definition commented : Block :=
  {| type := "lists_setIndex"; id := "c"; workspace := zeroBased; fields := [];
     inputList := []; nextBlock := None; outputConnection := NoConnection;
     getCommentText := Some "note"; getVars := [] |}.

(** A block without comment with the commented statement in a statement
    input. *)
Definition holdsCommented : Block :=
  statementBlock zeroBased "controls_whileUntil" [("MODE", "WHILE")]
    [("BOOL", (VALUE, None)); ("DO", (STATEMENT, Some commented))].

(** A join of two items, the first plugged and the second not. *)
Definition joinTwo : Block :=
  valueBlock zeroBased "text_join" []
    [("ADD0", (VALUE, Some (number zeroBased "1"))); ("ADD1", (VALUE, None))].

Definition joinNone : Block := valueBlock zeroBased "text_join" [] [].

(** if (true) {...} with one branch, and with a second condition. *)
Definition truth : Block := valueBlock zeroBased "logic_boolean" [("BOOL", "TRUE")] [].

Definition ifOne : Block :=
  statementBlock zeroBased "controls_if" []
    [("IF0", (VALUE, Some truth));
     ("DO0", (STATEMENT, Some (setIndex zeroBased None)))].

Definition ifTwo : Block :=
  statementBlock zeroBased "controls_if" []
    [("IF0", (VALUE, Some truth));
     ("DO0", (STATEMENT, Some (setIndex zeroBased None)));
     ("IF1", (VALUE, None));
     ("DO1", (STATEMENT, None))].


(** A text from its first to its last letter, and a split with nothing
    plugged in. *)
Definition firstToLast : Block :=
  valueBlock zeroBased "text_getSubstring" [("WHERE1", "FIRST"); ("WHERE2", "LAST")]
    [("STRING", (VALUE, None))].

Definition splitNothing : Block :=
  valueBlock zeroBased "lists_split" [("MODE", "SPLIT")]
    [("INPUT", (VALUE, None)); ("DELIM", (VALUE, None))].

(** A text block holding the awkward text. *)
Definition saysAwkward : Block :=
  valueBlock zeroBased "text" [("TEXT", awkward)] [].

End MoreExamples.

(** * Properties *)

(** ** JavaScript operators *)

Lemma append_empty_r (s : string) : s ++ EmptyString = s.
Proof. induction s; simpl; congruence. Qed.

Lemma append_assoc (s t u : string) : (s ++ t) ++ u = s ++ t ++ u.
Proof. induction s; simpl; congruence. Qed.

Lemma falsy_nonempty (a : string) : a <> EmptyString -> Js.falsy a = false.
Proof.
  intros Ha. unfold Js.falsy.
  destruct (String.eqb_spec a EmptyString); [contradiction | reflexivity].
Qed.

Lemma prop_set_same (obj : list (string * string)) (k v : string) :
  Js.prop (Js.set obj k v) k = Some v.
Proof.
  induction obj as [| [k' v'] rest IH]; simpl.
  - now rewrite String.eqb_refl.
  - destruct (String.eqb k' k) eqn:E; simpl; rewrite E; [reflexivity | exact IH].
Qed.



(** ** Resolution of inputs *)

Lemma withInputTarget_spec {A : Type} (name : string) (absent : A)
      (present : Block -> A) (block : Block) :
  withInputTarget name absent present (inputList block) =
  match getInputTargetBlock block name with
  | Some target => present target
  | None => absent
  end.
Proof.
  unfold getInputTargetBlock.
  induction (inputList block) as [| [n [ty target]] rest IH]; simpl.
  - reflexivity.
  - destruct (String.eqb n name); [now destruct target | exact IH].
Qed.

Section CoreFacts.

Context {names : NamesAPI} {framework : FrameworkAPI}.
Variable blockToCode : Block -> Gen Emitted.

(** An unconnected slot resolves to the empty string, and the generator
    is left as it was. *)
Lemma valueToCode_unconnected (block : Block) (name : string) (order : Order)
      (g : Generator) :
  getInputTargetBlock block name = None ->
  valueToCode blockToCode block name order g = Returned (EmptyString, g).
Proof.
  intros H. unfold valueToCode. now rewrite withInputTarget_spec, H.
Qed.

(** A connected slot resolves to the code of the plugged block, in
    parentheses when the wrap decision says so. *)
Lemma valueToCode_connected (block target : Block) (name : string)
      (outer inner : Order) (code : string) (g g' : Generator) :
  getInputTargetBlock block name = Some target ->
  blockToCode target g = Returned (Tuple code inner, g') ->
  valueToCode blockToCode block name outer g =
  Returned (if wrap outer inner then "(" ++ code ++ ")" else code, g').
Proof.
  intros H Hb. unfold valueToCode. rewrite withInputTarget_spec, H.
  unfold bind. now rewrite Hb.
Qed.

Lemma statementToCode_unconnected (block : Block) (name : string) (g : Generator) :
  getInputTargetBlock block name = None ->
  statementToCode blockToCode block name g = Returned (EmptyString, g).
Proof.
  intros H. unfold statementToCode. now rewrite withInputTarget_spec, H.
Qed.

End CoreFacts.
(** ** Lines and joins *)

Lemma occurs_app (c : ascii) (s t : string) :
  occurs c (s ++ t) = occurs c s || occurs c t.
Proof.
  induction s as [| d s IH]; simpl; [reflexivity |].
  now rewrite IH, orb_assoc.
Qed.

Lemma splitLines_nonempty (s : string) : JsString.splitLines s <> [].
Proof.
  induction s as [| c rest IH]; simpl; [discriminate |].
  destruct (Ascii.eqb c (ascii_of_nat 10)); [discriminate |].
  destruct (JsString.splitLines rest); [contradiction | discriminate].
Qed.

Lemma splitLines_join (s : string) : Js.join NL (JsString.splitLines s) = s.
Proof.
  induction s as [| c rest IH]; [reflexivity |].
  simpl. destruct (Ascii.eqb_spec c (ascii_of_nat 10)) as [-> | Hc].
  - pose proof (splitLines_nonempty rest) as Hne.
    destruct (JsString.splitLines rest) as [| l ls]; [contradiction |].
    change (Js.join NL (EmptyString :: l :: ls)) with (NL ++ Js.join NL (l :: ls)).
    now rewrite IH.
  - pose proof (splitLines_nonempty rest) as Hne.
    destruct (JsString.splitLines rest) as [| l ls]; [contradiction |].
    destruct ls as [| l' ls'].
    + simpl in *. now rewrite IH.
    + change (Js.join NL (String c l :: l' :: ls'))
        with (String c (l ++ NL ++ Js.join NL (l' :: ls'))).
      change (Js.join NL (l :: l' :: ls')) with (l ++ NL ++ Js.join NL (l' :: ls')) in IH.
      now rewrite IH.
Qed.

Lemma splitLines_no_break (s : string) :
  Forall (fun line => occurs (ascii_of_nat 10) line = false) (JsString.splitLines s).
Proof.
  induction s as [| c rest IH]; simpl.
  - constructor; [reflexivity | constructor].
  - destruct (Ascii.eqb c (ascii_of_nat 10)) eqn:E.
    + constructor; [reflexivity | exact IH].
    + destruct (JsString.splitLines rest) as [| l ls].
      * constructor; [simpl; now rewrite E | constructor].
      * inversion IH; subst. constructor; [simpl; now rewrite E | assumption].
Qed.

Lemma splitLines_one_line (s : string) :
  occurs (ascii_of_nat 10) s = false -> JsString.splitLines s = [s].
Proof.
  induction s as [| c rest IH]; simpl; [reflexivity |].
  intros H. apply orb_false_iff in H. destruct H as [Hc Hrest].
  rewrite Hc, (IH Hrest). reflexivity.
Qed.

(** A piece without line feed before a line break is a line of its
    own. *)
Lemma splitLines_cut (s t : string) :
  occurs (ascii_of_nat 10) s = false ->
  JsString.splitLines (s ++ NL ++ t) = s :: JsString.splitLines t.
Proof.
  induction s as [| c rest IH]; intros H; simpl in *; [reflexivity |].
  apply orb_false_iff in H. destruct H as [Hc Hrest].
  rewrite Hc, (IH Hrest). reflexivity.
Qed.

(** Texts without line feed, joined by line feeds, are the lines of the
    join. *)
Lemma splitLines_of_join (lines : list string) :
  lines <> [] ->
  Forall (fun line => occurs (ascii_of_nat 10) line = false) lines ->
  JsString.splitLines (Js.join NL lines) = lines.
Proof.
  induction lines as [| l rest IH]; [contradiction |]. intros _ Hall.
  inversion Hall as [| ? ? Hl Hrest]; subst.
  destruct rest as [| l' rest'].
  - simpl. now apply splitLines_one_line.
  - change (Js.join NL (l :: l' :: rest')) with (l ++ NL ++ Js.join NL (l' :: rest')).
    rewrite splitLines_cut by assumption. f_equal. apply IH; [discriminate | assumption].
Qed.

Lemma declarations_without_break (variables : list string) :
  Forall (fun name => occurs (ascii_of_nat 10) name = false) variables ->
  Forall (fun line => occurs (ascii_of_nat 10) line = false) (map declaration variables).
Proof.
  induction 1 as [| name rest Hname _ IH]; simpl; constructor; [| exact IH].
  unfold declaration. rewrite !occurs_app, Hname. reflexivity.
Qed.




(** ** The precedence table and the wrap decision *)

Section Precedence.

Local Open Scope Q_scope.

(** The decision in logical form: a child is wrapped exactly when its
    order is not strictly below the context order and the pair is not
    an override. *)
Lemma wrap_iff (contextOrder childOrder : Order) :
  wrap contextOrder childOrder = true <->
  ~ childOrder < contextOrder /\ is_override contextOrder childOrder = false.
Proof.
  unfold wrap. rewrite negb_true_iff, orb_false_iff, negb_false_iff, Qle_bool_iff.
  split; intros [H1 H2]; split; try assumption.
  - now apply Qle_not_lt.
  - now apply Qnot_lt_le.
Qed.

Lemma is_override_iff (outer inner : Order) :
  is_override outer inner = true <-> listed outer inner.
Proof.
  unfold is_override, listed, ORDER_OVERRIDES. simpl.
  rewrite !orb_true_iff, !andb_true_iff, !Qeq_bool_iff.
  split.
  - intros H.
    repeat (destruct H as [[H1 H2] | H];
            [ symmetry in H1, H2; tauto | ]).
    discriminate.
  - intros H.
    repeat (destruct H as [[H1 H2] | H];
            [ symmetry in H1, H2; tauto | ]).
    destruct H as [H1 H2]. symmetry in H1, H2. tauto.
Qed.


End Precedence.

Section PrecedenceOfValues.

Context {names : NamesAPI} {framework : FrameworkAPI}.
Variable blockToCode : Block -> Gen Emitted.

(** A plugged block whose own order is below the context order, or
    listed with it, is resolved to its code as it is. *)
Lemma valueToCode_unwrapped (block target : Block) (name code : string)
      (outer inner : Order) (g g' : Generator) :
  getInputTargetBlock block name = Some target ->
  blockToCode target g = Returned (Tuple code inner, g') ->
  (inner < outer)%Q \/ listed outer inner ->
  valueToCode blockToCode block name outer g = Returned (code, g').
Proof.
  intros Ht Hb Hno.
  rewrite (valueToCode_connected blockToCode block target name outer inner code g g' Ht Hb).
  destruct (wrap outer inner) eqn:E; [| reflexivity].
  apply wrap_iff in E. destruct E as [Hle Hov].
  destruct Hno as [Hno | Hno]; [contradiction |].
  apply is_override_iff in Hno. congruence.
Qed.

(** Any other plugged block is resolved to its code in parentheses. *)
Lemma valueToCode_wrapped (block target : Block) (name code : string)
      (outer inner : Order) (g g' : Generator) :
  getInputTargetBlock block name = Some target ->
  blockToCode target g = Returned (Tuple code inner, g') ->
  ~ (inner < outer)%Q -> ~ listed outer inner ->
  valueToCode blockToCode block name outer g = Returned ("(" ++ code ++ ")", g').
Proof.
  intros Ht Hb Hle Hov.
  rewrite (valueToCode_connected blockToCode block target name outer inner code g g' Ht Hb).
  destruct (wrap outer inner) eqn:E; [reflexivity |].
  exfalso. unfold wrap in E. apply negb_false_iff, orb_true_iff in E.
  destruct E as [E | E].
  - apply Hle. apply negb_true_iff in E. apply Qnot_le_lt. intros H.
    apply Qle_bool_iff in H. congruence.
  - apply Hov. now apply is_override_iff.
Qed.

End PrecedenceOfValues.

(** ** Unknown enumerated options *)

Ltac all_unrecognized H :=
  unfold recognized in H; simpl in H;
  rewrite ?orb_false_iff in H; decompose [and] H; clear H;
  repeat match goal with
         | E : Js.same _ _ = false |- _ => rewrite E; clear E
         end.

Section UnknownOptions.

Context {names : NamesAPI} {framework : FrameworkAPI}.
Variable blockToCode : Block -> Gen Emitted.





End UnknownOptions.

(** ** Missing operands of binary blocks *)

Section Operands.

Context {names : NamesAPI} {framework : FrameworkAPI}.
Variable blockToCode : Block -> Gen Emitted.

(** The arithmetic operators and their orders. *)
Lemma math_arithmetic_operands (block : Block) (operator : string) (order : Order)
      (a b : string) (g g1 g2 : Generator) :
  In (getFieldValue block "OP", (operator, order))
     [ (Some "ADD", (" + ", Order.ADDITIVE));
       (Some "MINUS", (" - ", Order.ADDITIVE));
       (Some "MULTIPLY", (" * ", Order.MULTIPLICATIVE));
       (Some "DIVIDE", (" / ", Order.MULTIPLICATIVE));
       (Some "POWER", (" ** ", Order.EXPONENTIATION)) ] ->
  valueToCode blockToCode block "A" order g = Returned (a, g1) ->
  valueToCode blockToCode block "B" order g1 = Returned (b, g2) ->
  math_arithmetic blockToCode block g =
  Returned (Tuple (Js.or_else a "0" ++ operator ++ Js.or_else b "0") order, g2).
Proof.
  intros Hop Ha Hb. unfold math_arithmetic.
  simpl in Hop.
  repeat (destruct Hop as [Hop | Hop];
          [ injection Hop as Hf <- <-; rewrite <- Hf; simpl;
            unfold bind; rewrite Ha, Hb; reflexivity | ]).
  contradiction.
Qed.

Lemma logic_operation_operands (block : Block) (a b : string)
      (g g1 g2 : Generator) :
  let and_ := Js.same (getFieldValue block "OP") "AND" in
  let operator := if and_ then "&&" else "||" in
  let order := if and_ then Order.LOGICAL_AND else Order.LOGICAL_OR in
  let neutral := if and_ then "true" else "false" in
  valueToCode blockToCode block "A" order g = Returned (a, g1) ->
  valueToCode blockToCode block "B" order g1 = Returned (b, g2) ->
  exists x y,
    logic_operation blockToCode block g =
    Returned (Tuple (x ++ " " ++ operator ++ " " ++ y) order, g2) /\
    (a = EmptyString -> b = EmptyString -> x = "false" /\ y = "false") /\
    (a = EmptyString -> b <> EmptyString -> x = neutral /\ y = b) /\
    (a <> EmptyString -> b = EmptyString -> x = a /\ y = neutral) /\
    (a <> EmptyString -> b <> EmptyString -> x = a /\ y = b).
Proof.
  intros and_ operator order neutral Ha Hb.
  unfold logic_operation. fold and_.
  assert (Horder : (if String.eqb (if and_ then "&&" else "||") "&&"
                    then Order.LOGICAL_AND else Order.LOGICAL_OR) = order)
    by (unfold order; now destruct and_).
  assert (Hneutral : (if String.eqb (if and_ then "&&" else "||") "&&"
                      then "true" else "false") = neutral)
    by (unfold neutral; now destruct and_).
  rewrite Horder, Hneutral. unfold bind. rewrite Ha, Hb. unfold ret.
  eexists. eexists. split; [reflexivity |].
  destruct (String.eqb_spec a EmptyString) as [-> | Hna];
    destruct (String.eqb_spec b EmptyString) as [-> | Hnb];
    simpl; rewrite ?(falsy_nonempty _ Hna), ?(falsy_nonempty _ Hnb); simpl;
    repeat split; intros; try reflexivity; try contradiction; congruence.
Qed.

(** C4 (as amended).  In a binary arithmetic block each missing operand
    is replaced by '0', for every combination of connected and
    unconnected slots.  In a logic_operation block, when exactly one
    operand is missing it is replaced by 'true' for AND and by 'false'
    for OR; when both are missing, both are replaced by 'false',
    whatever the operator. *)
Theorem missing_operands (block : Block) (g : Generator) :
  (forall operator order a b g1 g2,
      In (getFieldValue block "OP", (operator, order))
         [ (Some "ADD", (" + ", Order.ADDITIVE));
           (Some "MINUS", (" - ", Order.ADDITIVE));
           (Some "MULTIPLY", (" * ", Order.MULTIPLICATIVE));
           (Some "DIVIDE", (" / ", Order.MULTIPLICATIVE));
           (Some "POWER", (" ** ", Order.EXPONENTIATION)) ] ->
      valueToCode blockToCode block "A" order g = Returned (a, g1) ->
      valueToCode blockToCode block "B" order g1 = Returned (b, g2) ->
      exists x y,
        math_arithmetic blockToCode block g =
        Returned (Tuple (x ++ operator ++ y) order, g2) /\
        (if Js.falsy a then x = "0" else x = a) /\
        (if Js.falsy b then y = "0" else y = b)) /\
  (forall a b g1 g2,
      let and_ := Js.same (getFieldValue block "OP") "AND" in
      let operator := if and_ then "&&" else "||" in
      let order := if and_ then Order.LOGICAL_AND else Order.LOGICAL_OR in
      let neutral := if and_ then "true" else "false" in
      valueToCode blockToCode block "A" order g = Returned (a, g1) ->
      valueToCode blockToCode block "B" order g1 = Returned (b, g2) ->
      exists x y,
        logic_operation blockToCode block g =
        Returned (Tuple (x ++ " " ++ operator ++ " " ++ y) order, g2) /\
        (a = EmptyString -> b = EmptyString -> x = "false" /\ y = "false") /\
        (a = EmptyString -> b <> EmptyString -> x = neutral /\ y = b) /\
        (a <> EmptyString -> b = EmptyString -> x = a /\ y = neutral) /\
        (a <> EmptyString -> b <> EmptyString -> x = a /\ y = b)) /\
  (forall name order g0,
      getInputTargetBlock block name = None ->
      valueToCode blockToCode block name order g0 = Returned (EmptyString, g0)).
Proof.
  split; [| split].
  - intros operator order a b g1 g2 Hop Ha Hb.
    exists (Js.or_else a "0"), (Js.or_else b "0").
    split; [exact (math_arithmetic_operands block operator order a b g g1 g2 Hop Ha Hb) |].
    unfold Js.or_else, Js.falsy.
    now destruct (String.eqb a EmptyString), (String.eqb b EmptyString).
  - intros a b g1 g2. apply logic_operation_operands.
  - intros name order g0. apply valueToCode_unconnected.
Qed.

End Operands.

(** ** Negation *)

Lemma has_double_minus_cons_other (c : ascii) (s : string) :
  Ascii.eqb c "-" = false -> has_double_minus (String c s) = has_double_minus s.
Proof.
  intros Hc. destruct s as [| d s]; simpl; [reflexivity | now rewrite Hc].
Qed.

Lemma has_double_minus_cons_minus (s : string) :
  Js.first_is "-" s = false ->
  has_double_minus (String "-" s) = has_double_minus s.
Proof.
  destruct s as [| d s]; simpl; [reflexivity |].
  intros Hd. now rewrite Hd.
Qed.

Lemma has_double_minus_snoc_other (s : string) (c : ascii) :
  Ascii.eqb c "-" = false ->
  has_double_minus (s ++ String c EmptyString) = has_double_minus s.
Proof.
  intros Hc. induction s as [| c1 rest IH]; [reflexivity |].
  destruct rest as [| c2 r].
  - simpl. rewrite Hc. now rewrite andb_false_r.
  - cbn [append] in *.
    change (has_double_minus (String c1 (String c2 (r ++ String c EmptyString))))
      with ((Ascii.eqb c1 "-" && Ascii.eqb c2 "-")
            || has_double_minus (String c2 (r ++ String c EmptyString))).
    now rewrite IH.
Qed.

Section Negation.

Context {names : NamesAPI} {framework : FrameworkAPI}.
Variable blockToCode : Block -> Gen Emitted.

(** C8.  For a math_single block with operator NEG, an operand whose
    rendered text begins with a minus sign is put in parentheses before
    the prefix minus is attached; the emitted expression has two
    adjacent minus signs only where the operand's own text has them, so
    the prefix never forms '--'; the result is at unary-sign
    precedence. *)
Theorem math_single_negation (block : Block) (a : string) (g g1 : Generator) :
  getFieldValue block "OP" = Some "NEG" ->
  valueToCode blockToCode block "NUM" Order.UNARY_SIGN g = Returned (a, g1) ->
  let arg := Js.or_else a "0" in
  exists code,
    math_single blockToCode block g = Returned (Tuple code Order.UNARY_SIGN, g1) /\
    (Js.first_is "-" arg = true -> code = "-" ++ " (" ++ arg ++ ")") /\
    (Js.first_is "-" arg = false -> code = "-" ++ arg) /\
    has_double_minus code = has_double_minus arg /\
    (has_double_minus arg = false -> has_double_minus code = false).
Proof.
  intros Hop Ha arg.
  assert (Hcode : exists code,
             math_single blockToCode block g =
               Returned (Tuple code Order.UNARY_SIGN, g1) /\
             code = "-" ++ (if Js.first_is "-" arg then " (" ++ arg ++ ")" else arg)).
  { eexists. split; [| reflexivity].
    unfold math_single. rewrite Hop. simpl. unfold bind. now rewrite Ha. }
  destruct Hcode as [code [Hrun Hcode]].
  assert (Hdm : has_double_minus code = has_double_minus arg).
  { subst code. destruct (Js.first_is "-" arg) eqn:E.
    - change ("-" ++ " (" ++ arg ++ ")")
        with (String "-" (String " " (String "(" (arg ++ ")")))).
      rewrite has_double_minus_cons_minus by reflexivity.
      rewrite !has_double_minus_cons_other by reflexivity.
      now apply has_double_minus_snoc_other.
    - now apply has_double_minus_cons_minus. }
  exists code. repeat split; try assumption.
  - intros E. now rewrite E in Hcode.
  - intros E. now rewrite E in Hcode.
  - intros E. now rewrite Hdm.
Qed.

End Negation.

(** ** Index adjustment *)

Section Indexing.

Context {names : NamesAPI} {framework : FrameworkAPI}.
Variable blockToCode : Block -> Gen Emitted.

Lemma getAdjusted_unconnected (block : Block) (atId : string)
      (opt_delta : option Z) (opt_negate : option bool) (opt_order : option Order)
      (g : Generator) :
  getInputTargetBlock block atId = None ->
  getAdjusted blockToCode block atId opt_delta opt_negate opt_order g =
  Returned (EmptyString, g).
Proof.
  intros H. unfold getAdjusted, bind.
  now rewrite (valueToCode_unconnected blockToCode block atId _ g H).
Qed.

(** With no explicit order the adjusted value is the resolved text, with
    the offset after it. *)
Lemma getAdjusted_offset (block : Block) (atId v : string) (opt_delta : option Z)
      (g g1 : Generator) :
  valueToCode blockToCode block atId Order.NONE g = Returned (v, g1) ->
  v <> EmptyString ->
  let delta := match opt_delta with Some d => d | None => 0 end in
  let delta := if oneBasedIndex (workspace block) then delta - 1 else delta in
  getAdjusted blockToCode block atId opt_delta None None g =
  Returned (if 0 <? delta then v ++ " + " ++ Js.of_int delta
            else if delta <? 0 then v ++ " - " ++ Js.of_int (- delta)
            else v, g1).
Proof.
  intros Hv Hne. simpl. unfold getAdjusted, bind. rewrite Hv.
  destruct (String.eqb_spec v EmptyString); [contradiction |]. reflexivity.
Qed.

(** In from-end mode the resolved text gets the prefix '!'. *)
Lemma getAdjusted_negate (block : Block) (atId v : string) (opt_delta : option Z)
      (g g1 : Generator) :
  valueToCode blockToCode block atId Order.NONE g = Returned (v, g1) ->
  v <> EmptyString ->
  exists offset,
    getAdjusted blockToCode block atId opt_delta (Some true) None g =
    Returned ("!" ++ v ++ offset, g1).
Proof.
  intros Hv Hne. unfold getAdjusted, bind. rewrite Hv.
  destruct (String.eqb_spec v EmptyString); [contradiction |]. simpl.
  match goal with
  | |- context [if ?c then _ else if ?d then _ else _] => destruct c; [| destruct d]
  end.
  - eexists. reflexivity.
  - eexists. reflexivity.
  - exists EmptyString. unfold ret. now rewrite append_empty_r.
Qed.

(** With an explicit order the adjusted value is put in parentheses
    exactly when that order (NONE when it is ATOMIC) is ADDITIVE or
    looser. *)
Lemma getAdjusted_parentheses (block : Block) (atId v : string) (o : Order)
      (g g1 : Generator) :
  let order := if Qeq_bool o 0 then Order.NONE else o in
  valueToCode blockToCode block atId order g = Returned (v, g1) ->
  v <> EmptyString ->
  oneBasedIndex (workspace block) = false ->
  getAdjusted blockToCode block atId None None (Some o) g =
  Returned (if Qle_bool Order.ADDITIVE order then "(" ++ v ++ ")" else v, g1).
Proof.
  intros order Hv Hne Hzero. unfold getAdjusted, bind. fold order.
  rewrite Hzero, Hv.
  destruct (String.eqb_spec v EmptyString); [contradiction |]. reflexivity.
Qed.

(** C9.  When the slot is unconnected, getAdjusted returns the empty
    string: no offset, no negation and no default literal, in a
    one-based workspace as in a zero-based one.  So lists_getIndex and
    lists_setIndex on a block whose 'AT' slot is unconnected emit an
    indexing expression with an empty index, '[][]' when the list slot
    is unconnected too. *)
Theorem unconnected_index (block : Block) (g : Generator) :
  getInputTargetBlock block "AT" = None ->
  (forall opt_delta opt_negate opt_order,
      getAdjusted blockToCode block "AT" opt_delta opt_negate opt_order g =
      Returned (EmptyString, g)) /\
  (forall l g1,
      valueToCode blockToCode block "VALUE" Order.MEMBER g = Returned (l, g1) ->
      lists_getIndex blockToCode block g =
      Returned (Tuple (Js.or_else l "[]" ++ "[]") Order.MEMBER, g1)) /\
  (getInputTargetBlock block "VALUE" = None ->
   lists_getIndex blockToCode block g = Returned (Tuple "[][]" Order.MEMBER, g)) /\
  (forall l v g1 g2,
      valueToCode blockToCode block "LIST" Order.MEMBER g = Returned (l, g1) ->
      valueToCode blockToCode block "TO" Order.ASSIGNMENT g1 = Returned (v, g2) ->
      lists_setIndex blockToCode block g =
      Returned (Text (Js.or_else l "[]" ++ "[] = " ++ Js.or_else v "null" ++ ";" ++ NL),
                g2)).
Proof.
  intros Hat.
  assert (Hget : forall l g1,
             valueToCode blockToCode block "VALUE" Order.MEMBER g = Returned (l, g1) ->
             lists_getIndex blockToCode block g =
             Returned (Tuple (Js.or_else l "[]" ++ "[]") Order.MEMBER, g1)).
  { intros l g1 Hl. unfold lists_getIndex, bind. rewrite Hl.
    now rewrite (getAdjusted_unconnected block "AT" None None None g1 Hat). }
  repeat split.
  - intros. now apply getAdjusted_unconnected.
  - exact Hget.
  - intros Hv.
    now rewrite (Hget EmptyString g (valueToCode_unconnected _ _ _ _ _ Hv)).
  - intros l v g1 g2 Hl Hv. unfold lists_setIndex, bind. rewrite Hl.
    rewrite (getAdjusted_unconnected block "AT" None None None g1 Hat).
    now rewrite Hv.
Qed.

(** C10.  In a one-based workspace lists_indexOf returns its code with
    the suffix ' + 1' at Order.FUNCTION_CALL, and text_indexOf returns
    its ' + 1' code at Order.ADDITIVE: two different precedence levels
    for the same shape of expression. *)
Theorem indexOf_orders (block : Block) (g : Generator) :
  oneBasedIndex (workspace block) = true ->
  (forall functionName item list g1 g2 g3,
      let isFirst := Js.same (getFieldValue block "END") "FIRST" in
      provideFunction_ (if isFirst then "lists_indexOf" else "lists_lastIndexOf")
                       (lists_indexOf_helper isFirst) g = Returned (functionName, g1) ->
      valueToCode blockToCode block "FIND" Order.NONE g1 = Returned (item, g2) ->
      valueToCode blockToCode block "VALUE" Order.NONE g2 = Returned (list, g3) ->
      lists_indexOf blockToCode block g =
      Returned (Tuple ((functionName ++ "(" ++ Js.or_else list "[]" ++ ", "
                          ++ Js.or_else item "null" ++ ")") ++ " + 1")
                      Order.FUNCTION_CALL, g3)) /\
  (forall substring text g1 g2,
      let operator := if Js.same (getFieldValue block "END") "FIRST"
                      then "indexOf" else "lastIndexOf" in
      valueToCode blockToCode block "FIND" Order.NONE g = Returned (substring, g1) ->
      valueToCode blockToCode block "VALUE" Order.NONE g1 = Returned (text, g2) ->
      text_indexOf blockToCode block g =
      Returned (Tuple ((Js.or_else text (DQ ++ DQ) ++ "." ++ operator ++ "("
                          ++ Js.or_else substring (DQ ++ DQ) ++ ")") ++ " + 1")
                      Order.ADDITIVE, g2)) /\
  Qeq_bool Order.FUNCTION_CALL Order.ADDITIVE = false.
Proof.
  intros Hone. repeat split.
  - intros fn item list g1 g2 g3 isFirst Hf Hi Hl.
    unfold lists_indexOf, bind. fold isFirst. rewrite Hf, Hi, Hl, Hone. reflexivity.
  - intros substring text g1 g2 operator Hs Ht.
    unfold text_indexOf, bind. rewrite Hs, Ht, Hone. reflexivity.
Qed.

End Indexing.

(** ** A generation pass: init and finish *)

Section Pass.

Context {names : NamesAPI} {framework : FrameworkAPI}.

Lemma with_nameDB_same (g : Generator) (db : Names) :
  nameDB_ g = Some db -> with_nameDB (Some db) g = g.
Proof. destruct g; simpl; intros ->; reflexivity. Qed.

Lemma namesOf_length (variables : list VariableModel) (db : Names) :
  List.length (fst (namesOf variables db)) = List.length variables.
Proof.
  revert db. induction variables as [| v rest IH]; intros db; simpl.
  - reflexivity.
  - destruct (Names_getName (Some (var_getId v)) VARIABLE db) as [n db1].
    specialize (IH db1). destruct (namesOf rest db1) as [ns db2].
    simpl in *. now rewrite IH.
Qed.

Lemma init_defvars_spec (variables : list VariableModel) :
  forall (defvars : list string) (g : Generator) (db : Names),
    nameDB_ g = Some db ->
    init_defvars variables defvars g =
    Returned (List.app defvars (map declaration (fst (namesOf variables db))),
              with_nameDB (Some (snd (namesOf variables db))) g).
Proof.
  induction variables as [| v rest IH]; intros defvars g db Hdb; simpl.
  - unfold ret. now rewrite app_nil_r, with_nameDB_same.
  - unfold bind, getVariableName, withNames. rewrite Hdb.
    destruct (Names_getName (Some (var_getId v)) VARIABLE db) as [n db1].
    rewrite (IH _ _ db1) by reflexivity.
    destruct (namesOf rest db1) as [ns db2]. simpl.
    rewrite <- app_assoc. reflexivity.
Qed.


(** C6.  init resets the name database and populates it with the
    variable and procedure names; it stores under the Definitions Table
    key 'variables' one declaration line per used variable, of the form
    let NAME = "";, in the order of the used-variable scan (a variable
    that the scan does not report gets no line): the entry is the join
    of these declarations by line feeds, so that its lines are the
    declarations, as many as the scan reports variables, whenever the
    names the database gives have no line feed in them; with no used
    variable the entry is empty.  After init, isInitialized is true. *)
Theorem init_variables (ws : Workspace) (g : Generator) :
  let g0 := super_init ws g in
  let db0 := match nameDB_ g0 with
             | Some db => db
             | None => Names_new (RESERVED_WORDS_ g0)
             end in
  let db1 := Names_populateProcedures ws
               (Names_populateVariables ws
                  (Names_setVariableMap (getVariableMap ws) (Names_reset db0))) in
  let used := allUsedVarModels ws in
  let given := fst (namesOf used db1) in
  exists g' entry,
    init ws g = Returned (tt, g') /\
    isInitialized g' = true /\
    nameDB_ g' = Some (snd (namesOf used db1)) /\
    Js.prop (definitions_ g') "variables" = Some entry /\
    entry = Js.join NL (map declaration given) /\
    List.length (map declaration given) = List.length used /\
    (used = [] -> entry = EmptyString) /\
    (used <> [] ->
     Forall (fun name => occurs (ascii_of_nat 10) name = false) given ->
     JsString.splitLines entry = map declaration given /\
     List.length (JsString.splitLines entry) = List.length used).
Proof.
  intros g0 db0 db1 used given.
  unfold init, bind, update.
  match goal with
  | |- context [init_defvars _ _ ?s] =>
      assert (Hdb : nameDB_ s = Some db1)
  end.
  { simpl. fold g0. unfold db1, db0.
    destruct (nameDB_ g0) eqn:E; simpl; rewrite ?E; reflexivity. }
  rewrite (init_defvars_spec _ _ _ _ Hdb).
  assert (Hlen : List.length (map declaration given) = List.length used).
  { unfold given. now rewrite length_map, namesOf_length. }
  eexists. exists (Js.join NL (map declaration given)).
  split; [reflexivity |]. simpl.
  split; [reflexivity | split; [reflexivity | split; [apply prop_set_same |]]].
  split; [reflexivity | split; [exact Hlen | split]].
  - intros Hused. destruct (map declaration given); [reflexivity |].
    rewrite Hused in Hlen. discriminate Hlen.
  - intros Hused Hnames.
    assert (Hlines : JsString.splitLines (Js.join NL (map declaration given))
                     = map declaration given).
    { apply splitLines_of_join; [| now apply declarations_without_break].
      intros Hnil. rewrite Hnil in Hlen. destruct used; [contradiction | discriminate]. }
    split; [exact Hlines | now rewrite Hlines].
Qed.

(** C7.  finish returns the entries of the Definitions Table in
    insertion order, joined pairwise by one blank line, then one blank
    line and the main statement code: an empty table gives the blank
    line and the code; a table of one entry gives the entry, the blank
    line and the code; the first entry of a longer table comes first,
    then a blank line, then what finish returns for the table of the
    entries after it.  finish leaves isInitialized false. *)
Theorem finish_output (code : string) (g : Generator) :
  exists out g',
    finish code g = Returned (out, g') /\
    isInitialized g' = false /\
    out = Js.join (NL ++ NL) (map snd (definitions_ g)) ++ NL ++ NL ++ code /\
    (definitions_ g = [] -> out = NL ++ NL ++ code) /\
    (forall k v, definitions_ g = [(k, v)] -> out = v ++ NL ++ NL ++ code) /\
    (forall k v rest,
        definitions_ g = (k, v) :: rest -> rest <> [] ->
        exists out' g'',
          finish code (with_definitions rest g) = Returned (out', g'') /\
          out = v ++ NL ++ NL ++ out').
Proof.
  eexists. eexists. split; [reflexivity |].
  split; [reflexivity | split; [reflexivity |]].
  unfold Js.values. split; [| split].
  - intros ->. reflexivity.
  - intros k v ->. reflexivity.
  - intros k v rest -> Hrest. eexists. eexists. split; [reflexivity |].
    cbn [definitions_ with_definitions]. unfold Js.values.
    destruct rest as [| [k' v'] rest']; [contradiction |].
    change (map snd ((k, v) :: (k', v') :: rest'))
      with (v :: map snd ((k', v') :: rest')).
    change (Js.join (NL ++ NL) (v :: map snd ((k', v') :: rest')))
      with (v ++ (NL ++ NL) ++ Js.join (NL ++ NL) (map snd ((k', v') :: rest'))).
    now rewrite !append_assoc.
Qed.

End Pass.

(** ** Procedure definitions *)


Section Procedures.

Context {names : NamesAPI} {framework : FrameworkAPI}.
Variable blockToCode : Block -> Gen Emitted.

(** Without statement prefix and suffix nothing is injected. *)
Lemma procedure_xfix1_none (block : Block) (g : Generator) :
  STATEMENT_PREFIX g = None -> STATEMENT_SUFFIX g = None ->
  procedure_xfix1 block g = Returned (EmptyString, g).
Proof.
  intros Hp Hs. unfold procedure_xfix1, bind, read. now rewrite Hp, Hs.
Qed.




End Procedures.

(** ** The generator on concrete blocks *)

Section Runs.

#[local] Existing Instance Plain.names.
#[local] Existing Instance Plain.framework.

Import Plain Examples.





Lemma missing_operands_witness :
  math_arithmetic Splice.blockToCode
    (binary "math_arithmetic" "ADD" None (Some (number zeroBased "2"))) generator =
    Returned (Tuple "0 + 2" Order.ADDITIVE, generator) /\
  logic_operation Splice.blockToCode
    (binary "logic_operation" "AND" (Some (number zeroBased "2")) None) generator =
    Returned (Tuple "2 && true" Order.LOGICAL_AND, generator).
Proof.
  split.
  - destruct (missing_operands Splice.blockToCode
                (binary "math_arithmetic" "ADD" None (Some (number zeroBased "2")))
                generator) as [H _].
    destruct (H " + " Order.ADDITIVE EmptyString "2" generator generator
                ltac:(now left) ltac:(reflexivity) ltac:(reflexivity)) as [x [y [E [Hx Hy]]]].
    simpl in Hx, Hy. subst x y. exact E.
  - destruct (missing_operands Splice.blockToCode
                (binary "logic_operation" "AND" (Some (number zeroBased "2")) None)
                generator) as [_ [H _]].
    destruct (H "2" EmptyString generator generator ltac:(reflexivity) ltac:(reflexivity))
      as [x [y [E [_ [_ [Hxy _]]]]]].
    destruct (Hxy ltac:(discriminate) ltac:(reflexivity)) as [-> ->]. exact E.
Defined.

(** C4, as stated, fails: with AND and both operands missing, both are
    replaced by 'false', not by 'true'. *)
Lemma and_with_no_operands :
  logic_operation Splice.blockToCode
    (binary "logic_operation" "AND" None None) generator =
    Returned (Tuple "false && false" Order.LOGICAL_AND, generator) /\
  logic_operation Splice.blockToCode
    (binary "logic_operation" "AND" None None) generator <>
    Returned (Tuple "true && true" Order.LOGICAL_AND, generator).
Proof. split; [reflexivity | discriminate]. Qed.



Lemma math_single_negation_witness :
  math_single Splice.blockToCode (negate (Some (number zeroBased "-3"))) generator =
    Returned (Tuple "- (-3)" Order.UNARY_SIGN, generator) /\
  has_double_minus "- (-3)" = false.
Proof.
  destruct (math_single_negation Splice.blockToCode
              (negate (Some (number zeroBased "-3"))) "-3" generator generator
              ltac:(reflexivity) ltac:(reflexivity)) as [code [E [Hwrap [_ [_ Hdm]]]]].
  rewrite (Hwrap ltac:(reflexivity)) in E, Hdm.
  split; [exact E | exact (Hdm ltac:(reflexivity))].
Defined.

Lemma unconnected_index_witness :
  getAdjusted Splice.blockToCode (getIndex oneBased None) "AT"
              (Some 1) (Some true) None generator = Returned (EmptyString, generator) /\
  lists_getIndex Splice.blockToCode (getIndex oneBased None) generator =
    Returned (Tuple "[][]" Order.MEMBER, generator) /\
  lists_setIndex Splice.blockToCode (setIndex oneBased None) generator =
    Returned (Text ("[][] = null;" ++ NL), generator).
Proof.
  destruct (unconnected_index Splice.blockToCode (getIndex oneBased None)
              generator ltac:(reflexivity)) as [Hadj [_ [Hget _]]].
  destruct (unconnected_index Splice.blockToCode (setIndex oneBased None)
              generator ltac:(reflexivity)) as [_ [_ [_ Hset]]].
  split; [apply Hadj | split; [apply Hget; reflexivity |]].
  exact (Hset EmptyString EmptyString generator generator ltac:(reflexivity) ltac:(reflexivity)).
Defined.

Lemma indexOf_orders_witness :
  (exists g',
      lists_indexOf Splice.blockToCode (indexOf "lists_indexOf") (ready oneBased) =
      Returned (Tuple "lists_indexOf([], null) + 1" Order.FUNCTION_CALL, g')) /\
  text_indexOf Splice.blockToCode (indexOf "text_indexOf") (ready oneBased) =
    Returned (Tuple (DQ ++ DQ ++ ".indexOf(" ++ DQ ++ DQ ++ ") + 1") Order.ADDITIVE,
              ready oneBased).
Proof.
  split.
  - destruct (indexOf_orders Splice.blockToCode (indexOf "lists_indexOf")
                (ready oneBased) ltac:(reflexivity)) as [H _].
    set (g1 := stateAfter (provideFunction_ "lists_indexOf" (lists_indexOf_helper true))
                          (ready oneBased)).
    exists g1.
    exact (H "lists_indexOf" EmptyString EmptyString g1 g1 g1
             ltac:(vm_compute; reflexivity) ltac:(vm_compute; reflexivity)
             ltac:(vm_compute; reflexivity)).
  - destruct (indexOf_orders Splice.blockToCode (indexOf "text_indexOf")
                (ready oneBased) ltac:(reflexivity)) as [_ [H _]].
    exact (H EmptyString EmptyString (ready oneBased) (ready oneBased)
             ltac:(vm_compute; reflexivity) ltac:(vm_compute; reflexivity)).
Defined.

(** C2, at the inputs where the code departs from it.  In from-end mode
    the resolved index 2 with offset 1 comes out with the logical-not
    prefix, as '!2 + 1', where the arithmetic negation is '-2 + 1'.  In
    a one-based workspace the index 1 comes out as '1 - 1', and in a
    zero-based workspace the index 0 as '0'. *)
Theorem getAdjusted_from_end :
  getAdjusted Splice.blockToCode (getIndex zeroBased (Some (number zeroBased "2")))
              "AT" (Some 1) (Some true) None generator =
    Returned ("!2 + 1", generator) /\
  getAdjusted Splice.blockToCode (getIndex oneBased (Some (number oneBased "2")))
              "AT" (Some 1) (Some true) None generator =
    Returned ("!2", generator) /\
  getAdjusted Splice.blockToCode (getIndex oneBased (Some (number oneBased "1")))
              "AT" None None None generator =
    Returned ("1 - 1", generator) /\
  getAdjusted Splice.blockToCode (getIndex zeroBased (Some (number zeroBased "0")))
              "AT" None None None generator =
    Returned ("0", generator).
Proof. repeat split. Qed.

(** A pass on a workspace that declares a and b and uses b: the one
    declaration is that of b, and finish puts it before the code. *)
Lemma init_variables_witness :
  exists g',
    init usesTwo generator = Returned (tt, g') /\
    Js.prop (definitions_ g') "variables" =
      Some ("let b = " ++ DQ ++ DQ ++ ";" ++ NL ++ "let a = " ++ DQ ++ DQ ++ ";") /\
    JsString.splitLines ("let b = " ++ DQ ++ DQ ++ ";" ++ NL ++ "let a = " ++ DQ ++ DQ ++ ";")
    = ["let b = " ++ DQ ++ DQ ++ ";"; "let a = " ++ DQ ++ DQ ++ ";"].
Proof.
  pose proof (init_variables (framework := framework) usesTwo generator) as H.
  cbv zeta in H.
  destruct H as [g' [entry [Hinit [_ [_ [Hprop [Hentry [_ [_ Hlines]]]]]]]]].
  destruct (Hlines ltac:(discriminate)
                   ltac:(repeat constructor)) as [Hsplit _].
  vm_compute in Hentry. subst entry.
  exists g'. split; [exact Hinit | split; [exact Hprop | exact Hsplit]].
Defined.

Lemma finish_output_witness :
  exists g',
    finish "f();" holdsTwo =
    Returned ("let a = 0;" ++ NL ++ NL ++ "func f() {}" ++ NL ++ NL ++ "f();", g').
Proof.
  destruct (finish_output (framework := framework) "f();" holdsTwo)
    as [out [g' [Hfinish [_ [_ [_ [_ Hfirst]]]]]]].
  destruct (Hfirst "variables" "let a = 0;" [("%f", "func f() {}")]
                   ltac:(reflexivity) ltac:(discriminate))
    as [out' [g'' [Hrest Hout]]].
  destruct (finish_output (framework := framework) "f();"
              (with_definitions [("%f", "func f() {}")] holdsTwo))
    as [out2 [g2 [Hfinish2 [_ [_ [_ [Hone _]]]]]]].
  rewrite Hfinish2 in Hrest. injection Hrest as Hsame _.
  rewrite (Hone "%f" "func f() {}" ltac:(reflexivity)) in Hsame.
  subst out' out. exists g'. exact Hfinish.
Defined.

Lemma pass_declares_used_variables :
  (init declaresTwoUsesOne ;;; finish "b = 1;") generator =
  Returned ("let b = " ++ DQ ++ DQ ++ ";" ++ NL ++ NL ++ "b = 1;",
            stateAfter (init declaresTwoUsesOne ;;; finish "b = 1;") generator) /\
  isInitialized (stateAfter (init declaresTwoUsesOne) generator) = true /\
  isInitialized (stateAfter (init declaresTwoUsesOne ;;; finish "b = 1;") generator)
  = false.
Proof. split; [| split]; vm_compute; reflexivity. Qed.

End Runs.

(** ** String literals *)

Lemma replaceAll_app (c : ascii) (by_ s t : string) :
  JsString.replaceAll c by_ (s ++ t) =
  JsString.replaceAll c by_ s ++ JsString.replaceAll c by_ t.
Proof.
  induction s as [| d s IH]; simpl; [reflexivity |].
  destruct (Ascii.eqb d c); rewrite IH; [now rewrite append_assoc | reflexivity].
Qed.

Lemma replacements_cons (d : ascii) (rest : string) :
  replacements (String d rest) = escapeChar d ++ replacements rest.
Proof.
  unfold replacements, escapeChar.
  cbn [JsString.replaceAll].
  destruct (Ascii.eqb_spec d (ascii_of_nat 92)) as [-> | H1].
  { rewrite !replaceAll_app. reflexivity. }
  cbn [JsString.replaceAll].
  destruct (Ascii.eqb_spec d (ascii_of_nat 10)) as [-> | H2].
  { rewrite !replaceAll_app. reflexivity. }
  cbn [JsString.replaceAll].
  destruct (Ascii.eqb_spec d (ascii_of_nat 39)) as [-> | H3].
  { rewrite !replaceAll_app. reflexivity. }
  cbn [JsString.replaceAll].
  destruct (Ascii.eqb_spec d (ascii_of_nat 34)) as [-> | H4].
  { rewrite !replaceAll_app. reflexivity. }
  cbn [JsString.replaceAll].
  destruct (Ascii.eqb_spec d (ascii_of_nat 9)) as [-> | H5].
  { rewrite !replaceAll_app. reflexivity. }
  cbn [JsString.replaceAll].
  destruct (Ascii.eqb_spec d (ascii_of_nat 13)) as [-> | H6].
  { reflexivity. }
  reflexivity.
Qed.

Lemma replacements_escapeAll (s : string) : replacements s = escapeAll s.
Proof.
  induction s as [| d rest IH]; [reflexivity |].
  rewrite replacements_cons. simpl. now rewrite IH.
Qed.

Ltac by_characters s :=
  unfold quote_; fold (replacements s); rewrite replacements_escapeAll.

(** X1.  quote_ escapes character by character: the six replacements made
    one after the other do not touch each other's output, so the literal
    is the text with each backslash, line feed, single quote, double
    quote, tab and carriage return replaced by its two-character escape,
    between two double quotes. *)
Theorem quote_escapes (s : string) : quote_ s = DQ ++ escapeAll s ++ DQ.
Proof. unfold quote_. fold (replacements s). now rewrite replacements_escapeAll. Qed.

Lemma readBody_escapeChar (d : ascii) (t : string) :
  readBody (escapeChar d ++ t) = option_map (String d) (readBody t).
Proof.
  unfold escapeChar.
  destruct (Ascii.eqb_spec d (ascii_of_nat 92)) as [-> | H1]; [reflexivity |].
  destruct (Ascii.eqb_spec d (ascii_of_nat 10)) as [-> | H2]; [reflexivity |].
  destruct (Ascii.eqb_spec d (ascii_of_nat 39)) as [-> | H3]; [reflexivity |].
  destruct (Ascii.eqb_spec d (ascii_of_nat 34)) as [-> | H4]; [reflexivity |].
  destruct (Ascii.eqb_spec d (ascii_of_nat 9)) as [-> | H5]; [reflexivity |].
  destruct (Ascii.eqb_spec d (ascii_of_nat 13)) as [-> | H6]; [reflexivity |].
  simpl.
  destruct (Ascii.eqb_spec d (ascii_of_nat 34)); [contradiction |].
  destruct (Ascii.eqb_spec d (ascii_of_nat 92)); [contradiction |].
  reflexivity.
Qed.

Lemma readBody_escapeAll (s : string) : readBody (escapeAll s ++ DQ) = Some s.
Proof.
  induction s as [| d rest IH]; [reflexivity |].
  simpl. rewrite append_assoc, readBody_escapeChar, IH. reflexivity.
Qed.

Lemma readLiteral_quote (s : string) : readLiteral (quote_ s) = Some s.
Proof. by_characters s. simpl. apply readBody_escapeAll. Qed.

(** X2.  A literal made by quote_ reads back as the text it was made from:
    the reader that opens at the first double quote, takes a backslash
    with the character after it as one escaped character, and closes at
    the first bare double quote, returns the text.  So quote_ gives
    different literals to different texts. *)
Theorem quote_reads_back :
  (forall s, readLiteral (quote_ s) = Some s) /\
  (forall s t, quote_ s = quote_ t -> s = t).
Proof.
  split; [exact readLiteral_quote |].
  intros s t E. apply (f_equal readLiteral) in E.
  rewrite !readLiteral_quote in E. congruence.
Qed.

Lemma occurs_escapeChar (c d : ascii) :
  In c [ascii_of_nat 10; ascii_of_nat 9; ascii_of_nat 13] ->
  occurs c (escapeChar d) = false.
Proof.
  intros Hc. unfold escapeChar.
  destruct (Ascii.eqb_spec d (ascii_of_nat 92)) as [-> | H1];
    [simpl in Hc; decompose [or] Hc; subst; try reflexivity; contradiction |].
  destruct (Ascii.eqb_spec d (ascii_of_nat 10)) as [-> | H2];
    [simpl in Hc; decompose [or] Hc; subst; try reflexivity; contradiction |].
  destruct (Ascii.eqb_spec d (ascii_of_nat 39)) as [-> | H3];
    [simpl in Hc; decompose [or] Hc; subst; try reflexivity; contradiction |].
  destruct (Ascii.eqb_spec d (ascii_of_nat 34)) as [-> | H4];
    [simpl in Hc; decompose [or] Hc; subst; try reflexivity; contradiction |].
  destruct (Ascii.eqb_spec d (ascii_of_nat 9)) as [-> | H5];
    [simpl in Hc; decompose [or] Hc; subst; try reflexivity; contradiction |].
  destruct (Ascii.eqb_spec d (ascii_of_nat 13)) as [-> | H6];
    [simpl in Hc; decompose [or] Hc; subst; try reflexivity; contradiction |].
  simpl. rewrite orb_false_r.
  simpl in Hc. decompose [or] Hc; subst; try contradiction;
    match goal with
    | |- Ascii.eqb d ?c = false => destruct (Ascii.eqb_spec d c); [contradiction | reflexivity]
    end.
Qed.

(** X3.  A literal made by quote_ stays on one line: whatever the text, it
    has no line feed, no carriage return and no tab in it. *)
Theorem quote_on_one_line (s : string) :
  occurs (ascii_of_nat 10) (quote_ s) = false /\
  occurs (ascii_of_nat 13) (quote_ s) = false /\
  occurs (ascii_of_nat 9) (quote_ s) = false.
Proof.
  assert (H : forall c, In c [ascii_of_nat 10; ascii_of_nat 9; ascii_of_nat 13] ->
                        occurs c (quote_ s) = false).
  { intros c Hc. by_characters s. rewrite !occurs_app.
    assert (Hq : occurs c DQ = false).
    { simpl in Hc. decompose [or] Hc; subst; try reflexivity; contradiction. }
    rewrite Hq, orb_false_r. simpl.
    induction s as [| d rest IH]; [reflexivity |].
    simpl. now rewrite occurs_app, occurs_escapeChar, IH. }
  repeat split; apply H; simpl; tauto.
Qed.

(** X4.  multiline_quote_ quotes a text line by line: the result is the
    quote_ literals of the lines of the text, joined by a concatenation
    with a line-feed literal and a line break, where the lines are the
    pieces of the text between its line feeds (joined by line feeds they
    give the text back, and none has a line feed in it).  A text without
    line feed is quoted as by quote_. *)
Theorem multiline_quote_lines (s : string) :
  (exists lines,
      Js.join NL lines = s /\
      Forall (fun line => occurs (ascii_of_nat 10) line = false) lines /\
      multiline_quote_ s = Js.join (" + '" ++ BS ++ "n' +" ++ NL) (map quote_ lines)) /\
  (occurs (ascii_of_nat 10) s = false -> multiline_quote_ s = quote_ s).
Proof.
  split.
  - exists (JsString.splitLines s).
    split; [apply splitLines_join | split; [apply splitLines_no_break | reflexivity]].
  - intros H. unfold multiline_quote_. now rewrite (splitLines_one_line s H).
Qed.

(** ** Unknown options of the further emitters *)

(** Case analysis on the outcome of each call the method makes, in
    order. *)
Ltac run_calls :=
  unfold bind, ret, throw, read;
  repeat (cbn beta iota;
          match goal with
          | |- context [match ?c ?g with Returned _ => _ | Thrown _ => _ end] =>
              destruct (c g) as [[? ?] | ?]
          end).

Section MoreUnknownOptions.

Context {names : NamesAPI} {framework : FrameworkAPI}.
Variable blockToCode : Block -> Gen Emitted.

Lemma text_charAt_unknown (block : Block) (w : string) (g : Generator) :
  getFieldValue block "WHERE" = Some w -> w <> EmptyString ->
  recognized text_charAt_options (Some w) = false ->
  throws (text_charAt blockToCode block) g.
Proof.
  intros Hw Hne H. unfold throws, text_charAt. rewrite Hw.
  assert (Hor : Js.or_else w "FROM_START" = w).
  { unfold Js.or_else. destruct (String.eqb_spec w EmptyString); congruence. }
  rewrite Hor. unfold recognized in H. simpl in H.
  rewrite ?orb_false_iff in H. decompose [and] H. clear H.
  repeat match goal with
         | E : String.eqb _ _ = false |- _ => rewrite E; clear E
         end.
  unfold bind. run_calls; eexists; reflexivity.
Qed.

Lemma where_unknown (getSub : Block -> Gen Emitted) (block : Block) (g : Generator) :
  (getSub = text_getSubstring blockToCode \/ getSub = lists_getSublist blockToCode) ->
  recognized where1_options (getFieldValue block "WHERE1") = false \/
  recognized where2_options (getFieldValue block "WHERE2") = false ->
  throws (getSub block) g.
Proof.
  intros Hsub H. unfold throws.
  destruct Hsub as [-> | ->]; [unfold text_getSubstring | unfold lists_getSublist];
    unfold bind; cbv zeta;
    (destruct H as [H | H]; all_unrecognized H; run_calls; eexists; reflexivity).
Qed.

Lemma lists_split_unknown (block : Block) (g : Generator) :
  recognized lists_split_options (getFieldValue block "MODE") = false ->
  throws (lists_split blockToCode block) g.
Proof.
  intros H. unfold throws, lists_split, bind. cbv zeta. all_unrecognized H.
  run_calls; eexists; reflexivity.
Qed.

Lemma math_number_property_unknown (block : Block) (g : Generator) :
  recognized math_number_property_options (getFieldValue block "PROPERTY") = false ->
  throws (math_number_property blockToCode block) g.
Proof.
  intros H. unfold throws, math_number_property, bind. cbv zeta. all_unrecognized H.
  run_calls; eexists; reflexivity.
Qed.

Lemma math_on_list_unknown (block : Block) (g : Generator) :
  recognized math_on_list_options (getFieldValue block "OP") = false ->
  throws (math_on_list blockToCode block) g.
Proof.
  intros H. unfold throws, math_on_list, bind. cbv zeta. all_unrecognized H.
  run_calls; eexists; reflexivity.
Qed.

(** X5.  The emitters whose if/else chain on an option field ends in a
    throw fail on a value that is not one of their options, whatever the
    inputs of the block hold: text_charAt on 'WHERE' (a missing or empty
    'WHERE' counts as FROM_START), text_getSubstring and lists_getSublist
    on 'WHERE1' or 'WHERE2', lists_split on 'MODE', math_number_property
    on 'PROPERTY' and math_on_list on 'OP'. *)
Theorem more_unknown_options_throw (block : Block) (g : Generator) :
  (forall w, getFieldValue block "WHERE" = Some w -> w <> EmptyString ->
             recognized text_charAt_options (Some w) = false ->
             throws (text_charAt blockToCode block) g) /\
  (recognized where1_options (getFieldValue block "WHERE1") = false \/
   recognized where2_options (getFieldValue block "WHERE2") = false ->
   throws (text_getSubstring blockToCode block) g /\
   throws (lists_getSublist blockToCode block) g) /\
  (recognized lists_split_options (getFieldValue block "MODE") = false ->
   throws (lists_split blockToCode block) g) /\
  (recognized math_number_property_options (getFieldValue block "PROPERTY") = false ->
   throws (math_number_property blockToCode block) g) /\
  (recognized math_on_list_options (getFieldValue block "OP") = false ->
   throws (math_on_list blockToCode block) g).
Proof.
  split; [| split; [| split; [| split]]].
  - intros w. apply text_charAt_unknown.
  - intros H. split; eapply where_unknown; eauto.
  - apply lists_split_unknown.
  - apply math_number_property_unknown.
  - apply math_on_list_unknown.
Qed.

End MoreUnknownOptions.

(** ** What the emitters return *)

Lemma endsWithNewline_NL : endsWithNewline NL.
Proof. now exists EmptyString. Qed.

Lemma endsWithNewline_app (s t : string) : endsWithNewline t -> endsWithNewline (s ++ t).
Proof. intros [c ->]. exists (s ++ c). now rewrite append_assoc. Qed.

Lemma endsWithNewline_cons (c : ascii) (t : string) :
  endsWithNewline t -> endsWithNewline (String c t).
Proof. intros [u ->]. now exists (String c u). Qed.

Lemma length_append (s t : string) :
  String.length (s ++ t) = (String.length s + String.length t)%nat.
Proof. induction s; simpl; congruence. Qed.

Lemma nonempty_length (s : string) : (0 < String.length s)%nat -> s <> EmptyString.
Proof. intros H ->. simpl in H. lia. Qed.

Lemma or_else_length (a d : string) :
  (0 < String.length d)%nat -> (0 < String.length (Js.or_else a d))%nat.
Proof.
  intros Hd. unfold Js.or_else.
  destruct (String.eqb_spec a EmptyString) as [-> | Hne]; [exact Hd |].
  destruct a; [contradiction | simpl; lia].
Qed.

Lemma quote_length (s : string) : (0 < String.length (quote_ s))%nat.
Proof. by_characters s. unfold DQ. simpl. lia. Qed.

Lemma multiline_quote_length (s : string) : (0 < String.length (multiline_quote_ s))%nat.
Proof.
  unfold multiline_quote_. pose proof (splitLines_nonempty s) as Hne.
  destruct (JsString.splitLines s) as [| l ls]; [contradiction |].
  pose proof (quote_length l) as Hl.
  destruct ls; simpl; [exact Hl | rewrite length_append; lia].
Qed.

(** Case analysis on every call, test and table lookup the method makes. *)
Ltac run_method :=
  unfold bind, ret, throw, read;
  repeat (cbn beta iota zeta;
          match goal with
          | |- context [if ?b then _ else _] => destruct b
          | |- context [match ?o with Some _ => _ | None => _ end] =>
              destruct o
          | |- context [match ?c ?g with Returned _ => _ | Thrown _ => _ end] =>
              destruct (c g) as [[? ?] | ?]
          end).

Ltac ends_with_newline :=
  repeat first [ apply endsWithNewline_NL
               | apply endsWithNewline_app
               | apply endsWithNewline_cons
               | match goal with
                 | |- endsWithNewline (if ?b then _ else _) => destruct b
                 end ].

Ltac statement_returned :=
  intros g r g'; run_method; intros E;
  try discriminate E; injection E as <- _;
  eexists; (split; [reflexivity | ends_with_newline]).

Ltac not_empty :=
  apply nonempty_length;
  repeat match goal with
         | |- context [Js.or_else ?a ?d] =>
             let H := fresh "H" in
             let x := fresh "x" in
             assert (H : (0 < String.length (Js.or_else a d))%nat)
               by (apply or_else_length; unfold DQ; simpl; lia);
             set (x := Js.or_else a d) in *; clearbody x
         | |- context [quote_ ?s] =>
             let H := fresh "H" in
             let x := fresh "x" in
             pose proof (quote_length s) as H;
             set (x := quote_ s) in *; clearbody x
         | |- context [multiline_quote_ ?s] =>
             let H := fresh "H" in
             let x := fresh "x" in
             pose proof (multiline_quote_length s) as H;
             set (x := multiline_quote_ s) in *; clearbody x
         end;
  rewrite ?length_append; unfold DQ, BS, NL; simpl String.length;
  rewrite ?length_append; simpl String.length; lia.

Ltac expression_returned :=
  intros g r g'; run_method; intros E;
  try discriminate E; injection E as <- _;
  eexists; eexists; (split; [reflexivity | not_empty]).

Section Returned.

Context {names : NamesAPI} {framework : FrameworkAPI}.
Variable blockToCode : Block -> Gen Emitted.
Variable itemCount_ : Block -> nat.
Variable addLoopTrap : string -> Block -> string.

Lemma text_append_statement (block : Block) :
  returnsStatement (text_append blockToCode block).
Proof. unfold returnsStatement, text_append. statement_returned. Qed.

Lemma text_print_statement (block : Block) :
  returnsStatement (text_print blockToCode block).
Proof. unfold returnsStatement, text_print. statement_returned. Qed.

Lemma math_change_statement (block : Block) :
  returnsStatement (math_change blockToCode block).
Proof. unfold returnsStatement, math_change. statement_returned. Qed.

Lemma variables_set_dynamic_statement (block : Block) :
  returnsStatement (variables_set_dynamic blockToCode block).
Proof. unfold returnsStatement, variables_set_dynamic. statement_returned. Qed.

Lemma lists_setIndex_statement (block : Block) :
  returnsStatement (lists_setIndex blockToCode block).
Proof. unfold returnsStatement, lists_setIndex. statement_returned. Qed.

Lemma procedures_callnoreturn_statement (block : Block) :
  returnsStatement (procedures_callnoreturn blockToCode block).
Proof. unfold returnsStatement, procedures_callnoreturn. statement_returned. Qed.

Lemma procedures_ifreturn_statement (block : Block) :
  returnsStatement (procedures_ifreturn blockToCode block).
Proof. unfold returnsStatement, procedures_ifreturn. statement_returned. Qed.

Lemma controls_whileUntil_statement (block : Block) :
  returnsStatement (controls_whileUntil blockToCode addLoopTrap block).
Proof. unfold returnsStatement, controls_whileUntil. statement_returned. Qed.

Lemma controls_for_statement (block : Block) :
  returnsStatement (controls_for blockToCode addLoopTrap block).
Proof. unfold returnsStatement, controls_for. statement_returned. Qed.

Lemma controls_forEach_statement (block : Block) :
  returnsStatement (controls_forEach blockToCode addLoopTrap block).
Proof. unfold returnsStatement, controls_forEach. statement_returned. Qed.

Lemma controls_flow_statements_statement (block : Block) :
  returnsStatement (controls_flow_statements block).
Proof. unfold returnsStatement, controls_flow_statements. statement_returned. Qed.

Lemma controls_if_statement (block : Block) :
  returnsStatement (controls_if blockToCode block).
Proof. unfold returnsStatement, controls_if. statement_returned. Qed.

Lemma text_expression (block : Block) :
  returnsExpression (text block).
Proof. unfold returnsExpression, text, quoteField. expression_returned. Qed.

Lemma text_multiline_expression (block : Block) :
  returnsExpression (text_multiline block).
Proof. unfold returnsExpression, text_multiline. expression_returned. Qed.

Lemma text_length_expression (block : Block) :
  returnsExpression (text_length blockToCode block).
Proof. unfold returnsExpression, text_length. expression_returned. Qed.

Lemma text_isEmpty_expression (block : Block) :
  returnsExpression (text_isEmpty blockToCode block).
Proof. unfold returnsExpression, text_isEmpty. expression_returned. Qed.

Lemma text_indexOf_expression (block : Block) :
  returnsExpression (text_indexOf blockToCode block).
Proof. unfold returnsExpression, text_indexOf. expression_returned. Qed.

Lemma text_charAt_expression (block : Block) :
  returnsExpression (text_charAt blockToCode block).
Proof. unfold returnsExpression, text_charAt. expression_returned. Qed.

Lemma text_getSubstring_expression (block : Block) :
  returnsExpression (text_getSubstring blockToCode block).
Proof. unfold returnsExpression, text_getSubstring. expression_returned. Qed.

Lemma text_changeCase_expression (block : Block) :
  returnsExpression (text_changeCase blockToCode block).
Proof. unfold returnsExpression, text_changeCase. expression_returned. Qed.

Lemma text_trim_expression (block : Block) :
  returnsExpression (text_trim blockToCode block).
Proof. unfold returnsExpression, text_trim. expression_returned. Qed.

Lemma text_prompt_ext_expression (block : Block) :
  returnsExpression (text_prompt_ext blockToCode block).
Proof. unfold returnsExpression, text_prompt_ext. expression_returned. Qed.

Lemma text_prompt_expression (block : Block) :
  returnsExpression (text_prompt block).
Proof. unfold returnsExpression, text_prompt, quoteField. expression_returned. Qed.

Lemma text_count_expression (block : Block) :
  returnsExpression (text_count blockToCode block).
Proof. unfold returnsExpression, text_count. expression_returned. Qed.

Lemma text_replace_expression (block : Block) :
  returnsExpression (text_replace blockToCode block).
Proof. unfold returnsExpression, text_replace. expression_returned. Qed.

Lemma text_reverse_expression (block : Block) :
  returnsExpression (text_reverse blockToCode block).
Proof. unfold returnsExpression, text_reverse. expression_returned. Qed.

Lemma lists_create_empty_expression (block : Block) :
  returnsExpression (lists_create_empty block).
Proof. unfold returnsExpression, lists_create_empty. expression_returned. Qed.

Lemma lists_create_with_expression (block : Block) :
  returnsExpression (lists_create_with blockToCode itemCount_ block).
Proof. unfold returnsExpression, lists_create_with. expression_returned. Qed.

Lemma lists_repeat_expression (block : Block) :
  returnsExpression (lists_repeat blockToCode block).
Proof. unfold returnsExpression, lists_repeat. expression_returned. Qed.

Lemma lists_length_expression (block : Block) :
  returnsExpression (lists_length blockToCode block).
Proof. unfold returnsExpression, lists_length. expression_returned. Qed.

Lemma lists_isEmpty_expression (block : Block) :
  returnsExpression (lists_isEmpty blockToCode block).
Proof. unfold returnsExpression, lists_isEmpty. expression_returned. Qed.

Lemma lists_indexOf_expression (block : Block) :
  returnsExpression (lists_indexOf blockToCode block).
Proof. unfold returnsExpression, lists_indexOf. expression_returned. Qed.

Lemma lists_getIndex_expression (block : Block) :
  returnsExpression (lists_getIndex blockToCode block).
Proof. unfold returnsExpression, lists_getIndex. expression_returned. Qed.

Lemma lists_getSublist_expression (block : Block) :
  returnsExpression (lists_getSublist blockToCode block).
Proof. unfold returnsExpression, lists_getSublist. expression_returned. Qed.

Lemma lists_split_expression (block : Block) :
  returnsExpression (lists_split blockToCode block).
Proof. unfold returnsExpression, lists_split. expression_returned. Qed.

Lemma lists_sort_expression (block : Block) :
  returnsExpression (lists_sort blockToCode block).
Proof. unfold returnsExpression, lists_sort. expression_returned. Qed.

Lemma lists_reverse_expression (block : Block) :
  returnsExpression (lists_reverse blockToCode block).
Proof. unfold returnsExpression, lists_reverse. expression_returned. Qed.

Lemma math_arithmetic_expression (block : Block) :
  returnsExpression (math_arithmetic blockToCode block).
Proof. unfold returnsExpression, math_arithmetic. expression_returned. Qed.

Lemma math_single_expression (block : Block) :
  returnsExpression (math_single blockToCode block).
Proof. unfold returnsExpression, math_single. expression_returned. Qed.

Lemma math_round_expression (block : Block) :
  returnsExpression (math_round blockToCode block).
Proof. unfold returnsExpression, math_round. expression_returned. Qed.

Lemma math_number_property_expression (block : Block) :
  returnsExpression (math_number_property blockToCode block).
Proof. unfold returnsExpression, math_number_property. expression_returned. Qed.

Lemma math_on_list_expression (block : Block) :
  returnsExpression (math_on_list blockToCode block).
Proof. unfold returnsExpression, math_on_list. expression_returned. Qed.

Lemma math_modulo_expression (block : Block) :
  returnsExpression (math_modulo blockToCode block).
Proof. unfold returnsExpression, math_modulo. expression_returned. Qed.

Lemma math_constrain_expression (block : Block) :
  returnsExpression (math_constrain blockToCode block).
Proof. unfold returnsExpression, math_constrain. expression_returned. Qed.

Lemma math_random_int_expression (block : Block) :
  returnsExpression (math_random_int blockToCode block).
Proof. unfold returnsExpression, math_random_int. expression_returned. Qed.

Lemma math_random_float_expression (block : Block) :
  returnsExpression (math_random_float block).
Proof. unfold returnsExpression, math_random_float. expression_returned. Qed.

Lemma math_atan2_expression (block : Block) :
  returnsExpression (math_atan2 blockToCode block).
Proof. unfold returnsExpression, math_atan2. expression_returned. Qed.

Lemma logic_compare_expression (block : Block) :
  returnsExpression (logic_compare blockToCode block).
Proof. unfold returnsExpression, logic_compare. expression_returned. Qed.

Lemma logic_operation_expression (block : Block) :
  returnsExpression (logic_operation blockToCode block).
Proof. unfold returnsExpression, logic_operation. expression_returned. Qed.

Lemma logic_negate_expression (block : Block) :
  returnsExpression (logic_negate blockToCode block).
Proof. unfold returnsExpression, logic_negate. expression_returned. Qed.

Lemma logic_boolean_expression (block : Block) :
  returnsExpression (logic_boolean block).
Proof. unfold returnsExpression, logic_boolean. expression_returned. Qed.

Lemma logic_null_expression (block : Block) :
  returnsExpression (logic_null block).
Proof. unfold returnsExpression, logic_null. expression_returned. Qed.

Lemma logic_ternary_expression (block : Block) :
  returnsExpression (logic_ternary blockToCode block).
Proof. unfold returnsExpression, logic_ternary. expression_returned. Qed.

Lemma procedures_callreturn_expression (block : Block) :
  returnsExpression (procedures_callreturn blockToCode block).
Proof. unfold returnsExpression, procedures_callreturn. expression_returned. Qed.

(** X6.  A statement emitter never returns a text that does not end with
    a line break: whenever text_append, text_print, math_change,
    variables_set_dynamic, lists_setIndex, procedures_callnoreturn,
    procedures_ifreturn, controls_whileUntil, controls_for,
    controls_forEach, controls_flow_statements or controls_if returns, it
    returns a string, and the string ends with a line feed. *)
Theorem statements_end_with_newline (block : Block) :
  returnsStatement (text_append blockToCode block) /\
  returnsStatement (text_print blockToCode block) /\
  returnsStatement (math_change blockToCode block) /\
  returnsStatement (variables_set_dynamic blockToCode block) /\
  returnsStatement (lists_setIndex blockToCode block) /\
  returnsStatement (procedures_callnoreturn blockToCode block) /\
  returnsStatement (procedures_ifreturn blockToCode block) /\
  returnsStatement (controls_whileUntil blockToCode addLoopTrap block) /\
  returnsStatement (controls_for blockToCode addLoopTrap block) /\
  returnsStatement (controls_forEach blockToCode addLoopTrap block) /\
  returnsStatement (controls_flow_statements block) /\
  returnsStatement (controls_if blockToCode block).
Proof.
  repeat split.
  - apply text_append_statement.
  - apply text_print_statement.
  - apply math_change_statement.
  - apply variables_set_dynamic_statement.
  - apply lists_setIndex_statement.
  - apply procedures_callnoreturn_statement.
  - apply procedures_ifreturn_statement.
  - apply controls_whileUntil_statement.
  - apply controls_for_statement.
  - apply controls_forEach_statement.
  - apply controls_flow_statements_statement.
  - apply controls_if_statement.
Qed.

(** X7.  An expression emitter never returns empty code, whatever its
    inputs hold and whatever its fields are: whenever one of the text,
    list, math, logic and procedure-call emitters below returns, it
    returns a code and order pair whose code is not the empty string.  So
    a slot with such a block plugged in is never taken for an
    unconnected one by the test of the parent on the empty string. *)
Theorem expressions_are_not_empty (block : Block) :
  returnsExpression (text block) /\
  returnsExpression (text_multiline block) /\
  returnsExpression (text_length blockToCode block) /\
  returnsExpression (text_isEmpty blockToCode block) /\
  returnsExpression (text_indexOf blockToCode block) /\
  returnsExpression (text_charAt blockToCode block) /\
  returnsExpression (text_getSubstring blockToCode block) /\
  returnsExpression (text_changeCase blockToCode block) /\
  returnsExpression (text_trim blockToCode block) /\
  returnsExpression (text_prompt_ext blockToCode block) /\
  returnsExpression (text_prompt block) /\
  returnsExpression (text_count blockToCode block) /\
  returnsExpression (text_replace blockToCode block) /\
  returnsExpression (text_reverse blockToCode block) /\
  returnsExpression (lists_create_empty block) /\
  returnsExpression (lists_create_with blockToCode itemCount_ block) /\
  returnsExpression (lists_repeat blockToCode block) /\
  returnsExpression (lists_length blockToCode block) /\
  returnsExpression (lists_isEmpty blockToCode block) /\
  returnsExpression (lists_indexOf blockToCode block) /\
  returnsExpression (lists_getIndex blockToCode block) /\
  returnsExpression (lists_getSublist blockToCode block) /\
  returnsExpression (lists_split blockToCode block) /\
  returnsExpression (lists_sort blockToCode block) /\
  returnsExpression (lists_reverse blockToCode block) /\
  returnsExpression (math_arithmetic blockToCode block) /\
  returnsExpression (math_single blockToCode block) /\
  returnsExpression (math_round blockToCode block) /\
  returnsExpression (math_number_property blockToCode block) /\
  returnsExpression (math_on_list blockToCode block) /\
  returnsExpression (math_modulo blockToCode block) /\
  returnsExpression (math_constrain blockToCode block) /\
  returnsExpression (math_random_int blockToCode block) /\
  returnsExpression (math_random_float block) /\
  returnsExpression (math_atan2 blockToCode block) /\
  returnsExpression (logic_compare blockToCode block) /\
  returnsExpression (logic_operation blockToCode block) /\
  returnsExpression (logic_negate blockToCode block) /\
  returnsExpression (logic_boolean block) /\
  returnsExpression (logic_null block) /\
  returnsExpression (logic_ternary blockToCode block) /\
  returnsExpression (procedures_callreturn blockToCode block).
Proof.
  repeat split.
  - apply text_expression.
  - apply text_multiline_expression.
  - apply text_length_expression.
  - apply text_isEmpty_expression.
  - apply text_indexOf_expression.
  - apply text_charAt_expression.
  - apply text_getSubstring_expression.
  - apply text_changeCase_expression.
  - apply text_trim_expression.
  - apply text_prompt_ext_expression.
  - apply text_prompt_expression.
  - apply text_count_expression.
  - apply text_replace_expression.
  - apply text_reverse_expression.
  - apply lists_create_empty_expression.
  - apply lists_create_with_expression.
  - apply lists_repeat_expression.
  - apply lists_length_expression.
  - apply lists_isEmpty_expression.
  - apply lists_indexOf_expression.
  - apply lists_getIndex_expression.
  - apply lists_getSublist_expression.
  - apply lists_split_expression.
  - apply lists_sort_expression.
  - apply lists_reverse_expression.
  - apply math_arithmetic_expression.
  - apply math_single_expression.
  - apply math_round_expression.
  - apply math_number_property_expression.
  - apply math_on_list_expression.
  - apply math_modulo_expression.
  - apply math_constrain_expression.
  - apply math_random_int_expression.
  - apply math_random_float_expression.
  - apply math_atan2_expression.
  - apply logic_compare_expression.
  - apply logic_operation_expression.
  - apply logic_negate_expression.
  - apply logic_boolean_expression.
  - apply logic_null_expression.
  - apply logic_ternary_expression.
  - apply procedures_callreturn_expression.
Qed.

End Returned.

(** ** Offsets of indices *)

Section Offsets.

Context {names : NamesAPI} {framework : FrameworkAPI}.
Variable blockToCode : Block -> Gen Emitted.

(** X8.  For a connected index with no from-end flag and no explicit
    order, and a requested offset that is a safe integer, getAdjusted
    writes the resolved text followed by the net offset, which is the
    requested offset less one in a one-based workspace: nothing when the
    net offset is zero (so a one-based workspace and an offset of 1
    cancel), ' + n' when it is positive and ' - n' when it is negative,
    with n the absolute value, never a zero or a negative number, and
    at most 2^53, a number that is held exactly and written with all
    its digits. *)
Theorem getAdjusted_net_offset (block : Block) (atId v : string)
        (opt_delta : option Z) (g g1 : Generator) :
  valueToCode blockToCode block atId Order.NONE g = Returned (v, g1) ->
  v <> EmptyString ->
  safeInteger (match opt_delta with Some d => d | None => 0 end) ->
  let net := match opt_delta with Some d => d | None => 0 end
             - (if oneBasedIndex (workspace block) then 1 else 0) in
  exists shift,
    getAdjusted blockToCode block atId opt_delta None None g = Returned (v ++ shift, g1) /\
    (net = 0 -> shift = EmptyString) /\
    (0 < net -> shift = " + " ++ Js.of_int (Z.abs net)) /\
    (net < 0 -> shift = " - " ++ Js.of_int (Z.abs net)) /\
    (net <> 0 -> 0 < Z.abs net) /\
    Z.abs net <= 2 ^ 53.
Proof.
  intros Hv Hne Hsafe net.
  pose proof (getAdjusted_offset blockToCode block atId v opt_delta g g1 Hv Hne) as H.
  cbv zeta in H.
  assert (Hnet : (if oneBasedIndex (workspace block)
                  then match opt_delta with Some d => d | None => 0 end - 1
                  else match opt_delta with Some d => d | None => 0 end) = net).
  { unfold net. destruct (oneBasedIndex (workspace block)); lia. }
  assert (Hbound : Z.abs net <= 2 ^ 53).
  { unfold net, safeInteger in *. destruct (oneBasedIndex (workspace block)); lia. }
  rewrite Hnet in H. rewrite H.
  destruct (Z.ltb_spec 0 net) as [Hpos | Hnpos].
  - exists (" + " ++ Js.of_int net). repeat split; try lia; intros.
    now rewrite Z.abs_eq by lia.
  - destruct (Z.ltb_spec net 0) as [Hneg | Hnneg].
    + exists (" - " ++ Js.of_int (- net)). repeat split; try lia; intros.
      now rewrite Z.abs_neq by lia.
    + exists EmptyString. rewrite append_empty_r. repeat split; try lia; reflexivity.
Qed.

(** X9.  text_getSubstring between two positions counted from the start
    takes the start as the index and the end as a bound that is not
    included: in a one-based workspace the start is written less one and
    the end as it is; in a zero-based workspace the start is written as
    it is and the end plus one. *)
Theorem text_getSubstring_from_start (block : Block) (t a b : string)
        (g g1 g2 g3 : Generator) :
  getFieldValue block "WHERE1" = Some "FROM_START" ->
  getFieldValue block "WHERE2" = Some "FROM_START" ->
  valueToCode blockToCode block "STRING" Order.NONE g = Returned (t, g1) ->
  valueToCode blockToCode block "AT1" Order.NONE g1 = Returned (a, g2) ->
  valueToCode blockToCode block "AT2" Order.NONE g2 = Returned (b, g3) ->
  a <> EmptyString -> b <> EmptyString ->
  text_getSubstring blockToCode block g =
  Returned (Tuple (Js.or_else t (DQ ++ DQ) ++ ".substring("
                     ++ (if oneBasedIndex (workspace block) then a ++ " - 1" else a)
                     ++ ", "
                     ++ (if oneBasedIndex (workspace block) then b else b ++ " + 1")
                     ++ ")")
                  Order.FUNCTION_CALL, g3).
Proof.
  intros H1 H2 Ht Ha Hb Hna Hnb.
  unfold text_getSubstring, bind. rewrite Ht. cbv zeta. rewrite H1, H2. simpl.
  rewrite (getAdjusted_offset blockToCode block "AT1" a None g1 g2 Ha Hna).
  rewrite (getAdjusted_offset blockToCode block "AT2" b (Some 1) g2 g3 Hb Hnb).
  destruct (oneBasedIndex (workspace block)); reflexivity.
Qed.

(** X10.  text_charAt at the first or the last letter does not look at
    the 'AT' input nor at the base of the workspace: the index is 0 or
    -1.  At a position counted from the start, which is also what a
    missing or empty 'WHERE' means, the index is the resolved 'AT' text,
    less one in a one-based workspace. *)
Theorem text_charAt_positions (block : Block) (t : string) (g g1 : Generator) :
  valueToCode blockToCode block "VALUE" Order.NONE g = Returned (t, g1) ->
  (getFieldValue block "WHERE" = Some "FIRST" ->
   text_charAt blockToCode block g =
   Returned (Tuple (Js.or_else t (DQ ++ DQ) ++ "[0]") Order.MEMBER, g1)) /\
  (getFieldValue block "WHERE" = Some "LAST" ->
   text_charAt blockToCode block g =
   Returned (Tuple (Js.or_else t (DQ ++ DQ) ++ "[-1]") Order.MEMBER, g1)) /\
  (forall a g2,
      getFieldValue block "WHERE" = None \/
      getFieldValue block "WHERE" = Some EmptyString \/
      getFieldValue block "WHERE" = Some "FROM_START" ->
      valueToCode blockToCode block "AT" Order.NONE g1 = Returned (a, g2) ->
      a <> EmptyString ->
      text_charAt blockToCode block g =
      Returned (Tuple (Js.or_else t (DQ ++ DQ) ++ "["
                         ++ (if oneBasedIndex (workspace block) then a ++ " - 1" else a)
                         ++ "]")
                      Order.MEMBER, g2)).
Proof.
  intros Ht. repeat split.
  - intros Hw. unfold text_charAt, bind. rewrite Hw. simpl. now rewrite Ht.
  - intros Hw. unfold text_charAt, bind. rewrite Hw. simpl. now rewrite Ht.
  - intros a g2 Hw Ha Hna. unfold text_charAt, bind.
    assert (Hwhere : match getFieldValue block "WHERE" with
                     | Some w => Js.or_else w "FROM_START"
                     | None => "FROM_START"
                     end = "FROM_START")
      by (destruct Hw as [-> | [-> | ->]]; reflexivity).
    rewrite Hwhere. simpl. rewrite Ht.
    rewrite (getAdjusted_offset blockToCode block "AT" a None g1 g2 Ha Hna).
    destruct (oneBasedIndex (workspace block)); reflexivity.
Qed.

(** X17.  What is written for the end of a text or list and for a
    missing input.  text_getSubstring from the first to the last letter
    writes the start 0 and leaves the end argument empty, while
    lists_getSublist writes the length of the list for the end.
    lists_split gives its 'INPUT' no default: with the input
    unconnected the first argument of the call is empty. *)
Theorem ends_and_missing_arguments (block : Block) (g : Generator) :
  (forall t g1,
      getFieldValue block "WHERE1" = Some "FIRST" ->
      getFieldValue block "WHERE2" = Some "LAST" ->
      valueToCode blockToCode block "STRING" Order.NONE g = Returned (t, g1) ->
      text_getSubstring blockToCode block g =
      Returned (Tuple (Js.or_else t (DQ ++ DQ) ++ ".substring(0, )")
                      Order.FUNCTION_CALL, g1)) /\
  (forall l functionName g1 g2,
      getFieldValue block "WHERE1" = Some "FIRST" ->
      getFieldValue block "WHERE2" = Some "LAST" ->
      valueToCode blockToCode block "LIST" Order.NONE g = Returned (l, g1) ->
      provideFunction_ "lists_getSublist" lists_getSublist_helper g1 =
        Returned (functionName, g2) ->
      lists_getSublist blockToCode block g =
      Returned (Tuple (functionName ++ "(" ++ Js.or_else l "[]" ++ ", 0, len("
                         ++ Js.or_else l "[]" ++ "))")
                      Order.FUNCTION_CALL, g2)) /\
  (forall d functionName g1 g2,
      getFieldValue block "MODE" = Some "SPLIT" ->
      getInputTargetBlock block "INPUT" = None ->
      valueToCode blockToCode block "DELIM" Order.NONE g = Returned (d, g1) ->
      provideFunction_ "lists_split" lists_split_helper g1 = Returned (functionName, g2) ->
      lists_split blockToCode block g =
      Returned (Tuple (functionName ++ "(, " ++ Js.or_else d (DQ ++ DQ) ++ ")")
                      Order.FUNCTION_CALL, g2)).
Proof.
  repeat split.
  - intros t g1 H1 H2 Ht. unfold text_getSubstring, bind. rewrite Ht. cbv zeta.
    rewrite H1, H2. reflexivity.
  - intros l fn g1 g2 H1 H2 Hl Hf. unfold lists_getSublist, bind. rewrite Hl. cbv zeta.
    rewrite H1, H2. simpl. unfold bind in Hf. rewrite Hf. unfold ret.
    now rewrite !append_assoc.
  - intros d fn g1 g2 Hm Hin Hd Hf. unfold lists_split, bind.
    rewrite (valueToCode_unconnected blockToCode block "INPUT" _ g Hin), Hd. cbv zeta.
    rewrite Hm. simpl. unfold bind in Hf. rewrite Hf. reflexivity.
Qed.

(** X18.  With an explicit order, getAdjusted puts the adjusted value in
    parentheses exactly when the order is ADDITIVE or looser; the order
    ATOMIC, whose number is 0, is taken for no order at all, so that the
    value is resolved at NONE and put in parentheses. *)
Theorem getAdjusted_explicit_order (block : Block) (atId v : string)
        (opt_delta : option Z) (o : Order) (g g1 : Generator) :
  let order := if Qeq_bool o 0 then Order.NONE else o in
  valueToCode blockToCode block atId order g = Returned (v, g1) ->
  v <> EmptyString ->
  exists shift,
    getAdjusted blockToCode block atId opt_delta None (Some o) g =
    Returned (if Qle_bool Order.ADDITIVE order
              then "(" ++ (v ++ shift) ++ ")" else v ++ shift, g1) /\
    (Qeq_bool o Order.ATOMIC = true -> Qle_bool Order.ADDITIVE order = true).
Proof.
  intros order Hv Hne. unfold getAdjusted, bind. fold order. rewrite Hv.
  destruct (String.eqb_spec v EmptyString); [contradiction |].
  assert (Hatomic : Qeq_bool o Order.ATOMIC = true -> Qle_bool Order.ADDITIVE order = true).
  { intros Ha. unfold order, Order.ATOMIC in *. now rewrite Ha. }
  match goal with
  | |- context [0 <? ?d] => set (delta := d)
  end.
  simpl negb. cbv iota. unfold ret.
  destruct (0 <? delta); [| destruct (delta <? 0)].
  - eexists. split; [reflexivity | exact Hatomic].
  - eexists. split; [reflexivity | exact Hatomic].
  - exists EmptyString. rewrite append_empty_r. split; [reflexivity | exact Hatomic].
Qed.

End Offsets.
(** ** Text blocks and their literals *)

Section TextLiterals.

Context {names : NamesAPI} {framework : FrameworkAPI}.

(** X19.  The text block emits a literal that reads back as its 'TEXT'
    field, and the prompt block passes such a literal to input; neither
    touches the generator.  For a text without line feed the multiline
    block emits what the text block emits.  On a block without 'TEXT'
    field the three of them throw. *)
Theorem text_literals_read_back (block : Block) (g : Generator) :
  (forall s,
      getFieldValue block "TEXT" = Some s ->
      (exists code,
          text block g = Returned (Tuple code Order.ATOMIC, g) /\
          readLiteral code = Some s) /\
      (exists literal,
          text_prompt block g =
          Returned (Tuple ("input(" ++ literal ++ ")") Order.FUNCTION_CALL, g) /\
          readLiteral literal = Some s) /\
      (occurs (ascii_of_nat 10) s = false -> text_multiline block g = text block g)) /\
  (getFieldValue block "TEXT" = None ->
   throws (text block) g /\ throws (text_multiline block) g /\
   throws (text_prompt block) g).
Proof.
  split.
  - intros s Hs. unfold text, text_prompt, text_multiline, quoteField, bind, ret.
    rewrite Hs. split; [| split].
    + exists (quote_ s). split; [reflexivity | apply readLiteral_quote].
    + exists (quote_ s). split; [reflexivity | apply readLiteral_quote].
    + intros Hline. unfold multiline_quote_. now rewrite (splitLines_one_line s Hline).
  - intros Hs. unfold throws, text, text_prompt, text_multiline, quoteField, bind, throw.
    rewrite Hs. repeat split; eexists; reflexivity.
Qed.

End TextLiterals.

(** ** Comments, create-with blocks and calls *)

Section Scrub.

Context {names : NamesAPI} {framework : FrameworkAPI}.
Variable blockToCode : Block -> Gen Emitted.

Lemma no_value_comments (g : Generator)
      (inputs : list (string * (inputTypes * option Block))) (acc : string) :
  (forall name child, In (name, (VALUE, Some child)) inputs ->
                      getCommentText child = None) ->
  fold_left
    (fun acc input =>
       match input with
       | (_, (VALUE, Some childBlock)) =>
           acc ++ commentLines (getCommentText childBlock) g
       | _ => acc
       end)
    inputs acc = acc.
Proof.
  revert acc. induction inputs as [| [name [ty target]] rest IH]; intros acc H.
  - reflexivity.
  - simpl. rewrite IH.
    + destruct ty; try reflexivity. destruct target as [child |]; [| reflexivity].
      rewrite (H name child (or_introl eq_refl)). simpl. apply append_empty_r.
    + intros n c Hin. apply (H n c). now right.
Qed.

(** X11.  scrub_ never collects the comment of a block that is plugged
    into a statement input: for a block without comment whose value
    inputs hold no commented block, the code comes back as it is,
    whatever comments the blocks in its statement inputs carry.  A block
    whose output is plugged in gets no comment at all, its own
    included.  (With thisOnly set, nothing follows the code.) *)
Theorem scrub_leaves_statement_comments (block : Block) (code : string) (g : Generator) :
  (outputConnection block = Plugged ->
   scrub_ blockToCode block code true g = Returned (code, g)) /\
  (getCommentText block = None ->
   (forall name child, In (name, (VALUE, Some child)) (inputList block) ->
                       getCommentText child = None) ->
   scrub_ blockToCode block code true g = Returned (code, g)).
Proof.
  split.
  - intros Hout. unfold scrub_, bind, read, ret. rewrite Hout. simpl.
    now rewrite append_empty_r.
  - intros Hc Hv. unfold scrub_, bind, read, ret. rewrite Hc.
    rewrite (no_value_comments g (inputList block) EmptyString Hv). simpl.
    destruct (outputConnection block); simpl; now rewrite append_empty_r.
Qed.

End Scrub.

Section Arity.

Context {names : NamesAPI} {framework : FrameworkAPI}.
Variable blockToCode : Block -> Gen Emitted.
Variable itemCount_ : Block -> nat.

(** The loop over the indexed inputs returns exactly when the inputs
    resolve one after the other, and then returns the resolved texts
    with the default for the missing ones. *)
Lemma indexedValues_resolved (block : Block) (prefix missing : string) (count : nat) :
  forall i g elements g',
    indexedValues blockToCode block prefix missing count i g = Returned (elements, g') <->
    exists codes,
      resolved blockToCode block prefix count i g codes g' /\
      elements = withDefault missing codes.
Proof.
  induction count as [| count IH]; intros i g elements g'; simpl; split.
  - intros H. injection H as <- <-. exists []. split; [constructor | reflexivity].
  - intros [codes [Hr ->]]. inversion Hr; subst. reflexivity.
  - intros H. unfold bind in H.
    destruct (valueToCode blockToCode block (indexed prefix i) Order.NONE g)
      as [[e g1] | m] eqn:Ev; [| discriminate].
    destruct (indexedValues blockToCode block prefix missing count (S i) g1)
      as [[rest g2] | m] eqn:E; [| discriminate].
    injection H as <- <-. apply IH in E. destruct E as [codes [Hr ->]].
    exists (e :: codes). split; [| reflexivity].
    econstructor; eassumption.
  - intros [codes [Hr ->]]. inversion Hr as [| ? ? ? g1 ? code rest Hv Hrest]; subst.
    unfold bind. rewrite Hv.
    assert (E : indexedValues blockToCode block prefix missing count (S i) g1
                = Returned (withDefault missing rest, g')).
    { apply IH. exists rest. split; [assumption | reflexivity]. }
    rewrite E. reflexivity.
Qed.

Lemma resolved_length (block : Block) (prefix : string) (count i : nat)
      (g g' : Generator) (codes : list string) :
  resolved blockToCode block prefix count i g codes g' -> List.length codes = count.
Proof. induction 1; simpl; congruence. Qed.

Lemma resolved_unconnected (block : Block) (prefix : string) (g : Generator) :
  (forall i, getInputTargetBlock block (indexed prefix i) = None) ->
  forall count i, resolved blockToCode block prefix count i g (repeat EmptyString count) g.
Proof.
  intros Hnone. induction count as [| count IH]; intros i; simpl.
  - constructor.
  - econstructor; [| apply IH].
    apply valueToCode_unconnected, Hnone.
Qed.

Lemma withDefault_nonempty (missing : string) (codes : list string) :
  missing <> EmptyString -> Forall (fun e => e <> EmptyString) (withDefault missing codes).
Proof.
  intros Hm. induction codes as [| c rest IH]; simpl; constructor; [| exact IH].
  unfold Js.or_else. destruct (String.eqb_spec c EmptyString); assumption.
Qed.

Lemma withDefault_missing (missing : string) (count : nat) :
  withDefault missing (repeat EmptyString count) = repeat missing count.
Proof. induction count as [| count IH]; simpl; [reflexivity | now rewrite <- IH]. Qed.

(** X12.  A create-with block gives one element per item and a call one
    argument per variable of the block, each of them the text its own
    input resolves to: text_join, lists_create_with,
    procedures_callreturn and procedures_callnoreturn return exactly
    when the inputs 'ADD0', 'ADD1', ... (or 'ARG0', 'ARG1', ...) resolve
    one after the other, as many as the block has items (or variables),
    and they return the join of the resolved texts in that order, a
    missing one being '""' (text_join) or 'null'.  So no element is
    empty; with nothing plugged in every element is the default; with
    no item, text_join returns the empty code and lists_create_with
    returns '[]'. *)
Theorem one_element_per_item (block : Block) :
  (forall g r g',
      text_join blockToCode itemCount_ block g = Returned (r, g') <->
      exists codes,
        resolved blockToCode block "ADD" (itemCount_ block) 0 g codes g' /\
        r = Tuple (Js.join " + " (withDefault (DQ ++ DQ) codes)) Order.ADDITIVE) /\
  (forall g r g',
      lists_create_with blockToCode itemCount_ block g = Returned (r, g') <->
      exists codes,
        resolved blockToCode block "ADD" (itemCount_ block) 0 g codes g' /\
        r = Tuple ("[" ++ Js.join "," (withDefault "null" codes) ++ "]") Order.ATOMIC) /\
  (forall g r g',
      procedures_callreturn blockToCode block g = Returned (r, g') <->
      exists funcName g1 codes,
        getProcedureName (getFieldValue block "NAME") g = Returned (funcName, g1) /\
        resolved blockToCode block "ARG" (List.length (getVars block)) 0 g1 codes g' /\
        r = Tuple (funcName ++ "(" ++ Js.join ", " (withDefault "null" codes) ++ ")")
                  Order.FUNCTION_CALL) /\
  (forall g r g',
      procedures_callnoreturn blockToCode block g = Returned (r, g') <->
      exists funcName g1 codes,
        getProcedureName (getFieldValue block "NAME") g = Returned (funcName, g1) /\
        resolved blockToCode block "ARG" (List.length (getVars block)) 0 g1 codes g' /\
        r = Text (funcName ++ "(" ++ Js.join ", " (withDefault "null" codes) ++ ");" ++ NL)) /\
  (forall prefix count i g codes g',
      resolved blockToCode block prefix count i g codes g' ->
      List.length (withDefault (DQ ++ DQ) codes) = count /\
      List.length (withDefault "null" codes) = count /\
      Forall (fun e => e <> EmptyString) (withDefault (DQ ++ DQ) codes) /\
      Forall (fun e => e <> EmptyString) (withDefault "null" codes)) /\
  ((forall i, getInputTargetBlock block (indexed "ADD" i) = None) ->
   forall g,
     text_join blockToCode itemCount_ block g =
       Returned (Tuple (Js.join " + " (repeat (DQ ++ DQ) (itemCount_ block)))
                       Order.ADDITIVE, g) /\
     lists_create_with blockToCode itemCount_ block g =
       Returned (Tuple ("[" ++ Js.join "," (repeat "null" (itemCount_ block)) ++ "]")
                       Order.ATOMIC, g)) /\
  (itemCount_ block = O ->
   forall g,
     text_join blockToCode itemCount_ block g =
       Returned (Tuple EmptyString Order.ADDITIVE, g) /\
     lists_create_with blockToCode itemCount_ block g =
       Returned (Tuple "[]" Order.ATOMIC, g)).
Proof.
  assert (Hjoin : forall g r g',
             text_join blockToCode itemCount_ block g = Returned (r, g') <->
             exists codes,
               resolved blockToCode block "ADD" (itemCount_ block) 0 g codes g' /\
               r = Tuple (Js.join " + " (withDefault (DQ ++ DQ) codes)) Order.ADDITIVE).
  { intros g r g'. unfold text_join, bind. split.
    - intros H.
      destruct (indexedValues blockToCode block "ADD" (DQ ++ DQ) (itemCount_ block) 0 g)
        as [[els g1] | m] eqn:E; [| discriminate].
      injection H as <- <-. apply indexedValues_resolved in E.
      destruct E as [codes [Hr ->]]. exists codes. split; [exact Hr | reflexivity].
    - intros [codes [Hr ->]].
      assert (E : indexedValues blockToCode block "ADD" (DQ ++ DQ) (itemCount_ block) 0 g
                  = Returned (withDefault (DQ ++ DQ) codes, g')).
      { apply indexedValues_resolved. exists codes. split; [exact Hr | reflexivity]. }
      rewrite E. reflexivity. }
  assert (Hlist : forall g r g',
             lists_create_with blockToCode itemCount_ block g = Returned (r, g') <->
             exists codes,
               resolved blockToCode block "ADD" (itemCount_ block) 0 g codes g' /\
               r = Tuple ("[" ++ Js.join "," (withDefault "null" codes) ++ "]")
                         Order.ATOMIC).
  { intros g r g'. unfold lists_create_with, bind. split.
    - intros H.
      destruct (indexedValues blockToCode block "ADD" "null" (itemCount_ block) 0 g)
        as [[els g1] | m] eqn:E; [| discriminate].
      injection H as <- <-. apply indexedValues_resolved in E.
      destruct E as [codes [Hr ->]]. exists codes. split; [exact Hr | reflexivity].
    - intros [codes [Hr ->]].
      assert (E : indexedValues blockToCode block "ADD" "null" (itemCount_ block) 0 g
                  = Returned (withDefault "null" codes, g')).
      { apply indexedValues_resolved. exists codes. split; [exact Hr | reflexivity]. }
      rewrite E. reflexivity. }
  split; [exact Hjoin | split; [exact Hlist | split; [| split; [| split; [| split]]]]].
  - intros g r g'. unfold procedures_callreturn, bind. split.
    + intros H.
      destruct (getProcedureName (getFieldValue block "NAME") g)
        as [[f g1] | m]; [| discriminate].
      destruct (indexedValues blockToCode block "ARG" "null"
                              (List.length (getVars block)) 0 g1)
        as [[args g2] | m] eqn:E; [| discriminate].
      injection H as <- <-. apply indexedValues_resolved in E.
      destruct E as [codes [Hr ->]]. exists f, g1, codes.
      split; [reflexivity | split; [exact Hr | reflexivity]].
    + intros [f [g1 [codes [Hf [Hr ->]]]]]. rewrite Hf.
      assert (E : indexedValues blockToCode block "ARG" "null"
                                (List.length (getVars block)) 0 g1
                  = Returned (withDefault "null" codes, g')).
      { apply indexedValues_resolved. exists codes. split; [exact Hr | reflexivity]. }
      rewrite E. reflexivity.
  - intros g r g'. unfold procedures_callnoreturn, bind. split.
    + intros H.
      destruct (getProcedureName (getFieldValue block "NAME") g)
        as [[f g1] | m]; [| discriminate].
      destruct (indexedValues blockToCode block "ARG" "null"
                              (List.length (getVars block)) 0 g1)
        as [[args g2] | m] eqn:E; [| discriminate].
      injection H as <- <-. apply indexedValues_resolved in E.
      destruct E as [codes [Hr ->]]. exists f, g1, codes.
      split; [reflexivity | split; [exact Hr | reflexivity]].
    + intros [f [g1 [codes [Hf [Hr ->]]]]]. rewrite Hf.
      assert (E : indexedValues blockToCode block "ARG" "null"
                                (List.length (getVars block)) 0 g1
                  = Returned (withDefault "null" codes, g')).
      { apply indexedValues_resolved. exists codes. split; [exact Hr | reflexivity]. }
      rewrite E. reflexivity.
  - intros prefix count i g codes g' Hr. apply resolved_length in Hr.
    unfold withDefault at 1 2. rewrite !length_map.
    split; [exact Hr | split; [exact Hr | split]];
      apply withDefault_nonempty; discriminate.
  - intros Hnone g. split.
    + apply Hjoin. exists (repeat EmptyString (itemCount_ block)).
      split; [now apply resolved_unconnected |]. now rewrite withDefault_missing.
    + apply Hlist. exists (repeat EmptyString (itemCount_ block)).
      split; [now apply resolved_unconnected |]. now rewrite withDefault_missing.
  - intros H0 g. unfold text_join, lists_create_with. rewrite H0. split; reflexivity.
Qed.

End Arity.

(** ** Definitions in the output of a pass *)



Section PassOutput.

Context {names : NamesAPI} {framework : FrameworkAPI}.


(** X14.  A pass over a program with no blocks gives the declarations and
    the code: when the base class's init leaves the Definitions Table
    empty, init followed by finish returns the declarations of the used
    variables, one per line, then a blank line and the code, and the
    generator is left uninitialised.  The text before the blank line is
    the join of the declarations by line feeds: its lines are the
    declarations, as many as the scan reports variables, whenever the
    names the database gives have no line feed in them; with no used
    variable it is empty. *)
Theorem init_then_finish (ws : Workspace) (code : string) (g : Generator) :
  definitions_ (super_init ws g) = [] ->
  let g0 := super_init ws g in
  let db0 := match nameDB_ g0 with
             | Some db => db
             | None => Names_new (RESERVED_WORDS_ g0)
             end in
  let db1 := Names_populateProcedures ws
               (Names_populateVariables ws
                  (Names_setVariableMap (getVariableMap ws) (Names_reset db0))) in
  let given := fst (namesOf (allUsedVarModels ws) db1) in
  exists g' entry,
    (init ws ;;; finish code) g = Returned (entry ++ NL ++ NL ++ code, g') /\
    isInitialized g' = false /\
    entry = Js.join NL (map declaration given) /\
    (allUsedVarModels ws = [] -> entry = EmptyString) /\
    (allUsedVarModels ws <> [] ->
     Forall (fun name => occurs (ascii_of_nat 10) name = false) given ->
     JsString.splitLines entry = map declaration given /\
     List.length (JsString.splitLines entry) = List.length (allUsedVarModels ws)).
Proof.
  intros Hempty g0 db0 db1 given.
  assert (Hlen : List.length (map declaration given) = List.length (allUsedVarModels ws)).
  { unfold given. now rewrite length_map, namesOf_length. }
  unfold init, bind, update.
  match goal with
  | |- context [init_defvars _ _ ?s] =>
      assert (Hdb : nameDB_ s = Some db1)
  end.
  { simpl. fold g0. unfold db1, db0.
    destruct (nameDB_ g0) eqn:E; simpl; rewrite ?E; reflexivity. }
  rewrite (init_defvars_spec _ _ _ _ Hdb).
  eexists. exists (Js.join NL (map declaration given)).
  split; [| split; [| split; [reflexivity | split]]].
  - unfold finish, bind, read, update, ret. unfold g0 in *.
    destruct (nameDB_ (super_init ws g)) eqn:E; simpl; rewrite Hempty; simpl; reflexivity.
  - reflexivity.
  - intros Hused. destruct (map declaration given); [reflexivity |].
    rewrite Hused in Hlen. discriminate Hlen.
  - intros Hused Hnames.
    assert (Hlines : JsString.splitLines (Js.join NL (map declaration given))
                     = map declaration given).
    { apply splitLines_of_join; [| now apply declarations_without_break].
      intros Hnil. rewrite Hnil in Hlen.
      destruct (allUsedVarModels ws); [contradiction | discriminate]. }
    split; [exact Hlines | now rewrite Hlines].
Qed.

End PassOutput.

(** ** The rounds of controls_if *)

Lemma of_int_inj (a b : Z) : Js.of_int a = Js.of_int b -> a = b.
Proof.
  unfold Js.of_int. intros H. apply DecimalZ.to_int_inj.
  assert (Hread : forall z, NilZero.int_of_string (NilZero.string_of_int (Z.to_int z))
                            = Some (Z.to_int z)).
  { intros z. apply NilZero.isi; destruct z; simpl; try discriminate;
      intros E; injection E as E; now apply DecimalPos.Unsigned.to_uint_nonnil in E. }
  apply (f_equal NilZero.int_of_string) in H. rewrite !Hread in H. congruence.
Qed.

Lemma append_cancel_l (p a b : string) : p ++ a = p ++ b -> a = b.
Proof. induction p as [| c p IH]; simpl; intros H; [exact H | injection H as H; auto]. Qed.

Lemma indexed_inj (prefix : string) (i j : nat) :
  indexed prefix i = indexed prefix j -> i = j.
Proof.
  unfold indexed. intros H.
  apply append_cancel_l, of_int_inj in H. now apply Nat2Z.inj.
Qed.

Lemma getInput_In (block : Block) (name : string) :
  getInput block name = true -> In name (map fst (inputList block)).
Proof.
  unfold getInput. induction (inputList block) as [| [n v] rest IH]; simpl.
  - discriminate.
  - destruct (String.eqb_spec n name) as [-> | Hne]; [now left | right; auto].
Qed.

(** A block has no more inputs 'IF1', 'IF2', ... in a row than it has
    inputs. *)
Lemma if_inputs_bounded (block : Block) (m : nat) :
  (forall k, (1 <= k <= m)%nat -> getInput block (indexed "IF" k) = true) ->
  (m <= List.length (inputList block))%nat.
Proof.
  intros H.
  assert (Hnodup : NoDup (map (indexed "IF") (seq 1 m))).
  { apply Injective_map_NoDup; [| apply seq_NoDup].
    intros i j. apply indexed_inj. }
  assert (Hincl : incl (map (indexed "IF") (seq 1 m)) (map fst (inputList block))).
  { intros name Hin. apply in_map_iff in Hin. destruct Hin as [k [<- Hk]].
    apply in_seq in Hk. apply getInput_In, H. lia. }
  pose proof (NoDup_incl_length Hnodup Hincl) as Hlen.
  now rewrite !length_map, length_seq in Hlen.
Qed.

Section IfRounds.

Context {names : NamesAPI} {framework : FrameworkAPI}.
Variable blockToCode : Block -> Gen Emitted.

Lemma controls_if_rounds_unfold (block : Block) (rounds n : nat) (code : string) :
  controls_if_rounds blockToCode block rounds n code =
  (conditionCode <- valueToCode blockToCode block (indexed "IF" n) Order.NONE ;;
   let conditionCode := Js.or_else conditionCode "false" in
   branchCode <- statementToCode blockToCode block (indexed "DO" n) ;;
   g <- read (fun g => g) ;;
   let branchCode := Js.or_else branchCode (PASS g) in
   let branchCode := suffixedBranch block branchCode g in
   let code := code ++ (if Nat.eqb n 0 then "if (" else ") else if (")
                    ++ conditionCode ++ ") {" ++ NL ++ branchCode ++ "}" in
   if getInput block (indexed "IF" (S n)) then
     match rounds with
     | S rounds' => controls_if_rounds blockToCode block rounds' (S n) code
     | O => ret code
     end
   else ret code).
Proof. destruct rounds; reflexivity. Qed.

Lemma controls_if_rounds_enough (block : Block) (rounds1 : nat) :
  forall rounds2 n code g,
    (forall k, (1 <= k <= n)%nat -> getInput block (indexed "IF" k) = true) ->
    (List.length (inputList block) <= n + rounds1)%nat ->
    (List.length (inputList block) <= n + rounds2)%nat ->
    controls_if_rounds blockToCode block rounds1 n code g =
    controls_if_rounds blockToCode block rounds2 n code g.
Proof.
  induction rounds1 as [| rounds1 IH]; intros rounds2 n code g Hin H1 H2;
    rewrite (controls_if_rounds_unfold block _ n code),
            (controls_if_rounds_unfold block rounds2 n code);
    unfold bind, read;
    destruct (valueToCode blockToCode block (indexed "IF" n) Order.NONE g)
      as [[c g1] | m]; try reflexivity;
    destruct (statementToCode blockToCode block (indexed "DO" n) g1)
      as [[b g2] | m]; try reflexivity;
    cbv zeta;
    destruct (getInput block (indexed "IF" (S n))) eqn:E; try reflexivity;
    assert (Hin' : forall k, (1 <= k <= S n)%nat ->
                             getInput block (indexed "IF" k) = true)
      by (intros k Hk; destruct (Nat.eq_dec k (S n)) as [-> | Hne];
          [exact E | apply Hin; lia]);
    pose proof (if_inputs_bounded block (S n) Hin') as Hle.
  - lia.
  - destruct rounds2 as [| rounds2]; [lia |].
    apply IH; [exact Hin' | lia | lia].
Qed.

(** X15.  The do-while loop of controls_if ends by itself: it makes a
    further round only for an input 'IF1', 'IF2', ... that the block has,
    so the rounds after the first are at most as many as the inputs of
    the block, and the bound on the rounds is never what ends the loop:
    with any larger bound the loop returns the same. *)
Theorem controls_if_rounds_bound (block : Block) (rounds : nat) (code : string)
        (g : Generator) :
  (List.length (inputList block) <= rounds)%nat ->
  controls_if_rounds blockToCode block rounds O code g =
  controls_if_rounds blockToCode block (List.length (inputList block)) O code g.
Proof.
  intros H. apply controls_if_rounds_enough; [intros k Hk; lia | lia | lia].
Qed.

(** X16.  The text of controls_if without else branch and without
    statement prefix and suffix.  With the one input pair 'IF0'/'DO0' it
    is 'if (' condition ') {' line break, branch, '}' and a line break,
    a missing condition being 'false' and an empty branch the PASS
    text.  Each further pair 'IFn'/'DOn' adds ') else if (' condition
    ') {' line break, branch, '}' right after the brace that closes the
    branch before it. *)
Theorem controls_if_text (block : Block) (c0 b0 : string) (g g1 g2 : Generator) :
  STATEMENT_PREFIX g = None ->
  getInput block "ELSE" = false ->
  valueToCode blockToCode block "IF0" Order.NONE g = Returned (c0, g1) ->
  statementToCode blockToCode block "DO0" g1 = Returned (b0, g2) ->
  STATEMENT_SUFFIX g2 = None ->
  (getInput block "IF1" = false ->
   controls_if blockToCode block g =
   Returned (Text ("if (" ++ Js.or_else c0 "false" ++ ") {" ++ NL
                     ++ Js.or_else b0 (PASS g2) ++ "}" ++ NL), g2)) /\
  (forall c1 b1 g3 g4,
      getInput block "IF1" = true ->
      getInput block "IF2" = false ->
      valueToCode blockToCode block "IF1" Order.NONE g2 = Returned (c1, g3) ->
      statementToCode blockToCode block "DO1" g3 = Returned (b1, g4) ->
      STATEMENT_SUFFIX g4 = None ->
      controls_if blockToCode block g =
      Returned (Text ("if (" ++ Js.or_else c0 "false" ++ ") {" ++ NL
                        ++ Js.or_else b0 (PASS g2) ++ "}"
                        ++ ") else if (" ++ Js.or_else c1 "false" ++ ") {" ++ NL
                        ++ Js.or_else b1 (PASS g4) ++ "}" ++ NL), g4)).
Proof.
  intros Hprefix Helse Hc0 Hb0 Hs2.
  assert (Hround0 : forall rounds code,
             controls_if_rounds blockToCode block rounds O code g =
             (let code := code ++ "if (" ++ Js.or_else c0 "false" ++ ") {" ++ NL
                               ++ Js.or_else b0 (PASS g2) ++ "}" in
              if getInput block "IF1" then
                match rounds with
                | S rounds' => controls_if_rounds blockToCode block rounds' 1 code
                | O => ret code
                end
              else ret code) g2).
  { intros rounds code. rewrite controls_if_rounds_unfold.
    change (indexed "IF" 0) with "IF0". change (indexed "DO" 0) with "DO0".
    change (indexed "IF" 1) with "IF1".
    unfold bind, read. rewrite Hc0, Hb0. cbv zeta.
    unfold suffixedBranch. rewrite Hs2. reflexivity. }
  split.
  - intros Hif1. unfold controls_if, bind, read. rewrite Hprefix. simpl truthy. cbv iota.
    rewrite Hround0. cbv zeta. rewrite Hif1. unfold ret.
    rewrite Helse, Hs2. change (false || truthy None) with false. cbv beta iota.
    now rewrite !append_assoc.
  - intros c1 b1 g3 g4 Hif1 Hif2 Hc1 Hb1 Hs4.
    assert (Hlen : (1 <= List.length (inputList block))%nat).
    { apply if_inputs_bounded. intros k Hk.
      replace k with 1%nat by lia. exact Hif1. }
    unfold controls_if, bind, read. rewrite Hprefix. simpl truthy. cbv iota.
    rewrite Hround0. cbv zeta. rewrite Hif1.
    destruct (List.length (inputList block)) as [| rounds]; [lia |].
    rewrite controls_if_rounds_unfold.
    change (indexed "IF" 1) with "IF1". change (indexed "DO" 1) with "DO1".
    change (indexed "IF" 2) with "IF2".
    unfold bind, read. rewrite Hc1, Hb1. cbv zeta. rewrite Hif2. unfold ret.
    rewrite Helse, Hs4. unfold suffixedBranch. rewrite Hs4.
    change (false || truthy None) with false. cbv beta iota.
    change (Nat.eqb 1 0) with false. cbv beta iota.
    now rewrite !append_assoc.
Qed.

End IfRounds.

(** ** The further properties on concrete blocks *)

Section MoreRuns.

#[local] Existing Instance Plain.names.
#[local] Existing Instance Plain.framework.

Import Plain Examples MoreExamples.

Lemma quote_reads_back_witness :
  readLiteral (quote_ awkward) = Some awkward /\ awkward = awkward.
Proof.
  destruct quote_reads_back as [Hread Hinj].
  split; [apply Hread | apply Hinj; reflexivity].
Defined.

Lemma multiline_quote_lines_witness : multiline_quote_ "one line" = quote_ "one line".
Proof.
  destruct (multiline_quote_lines "one line") as [_ H]. apply H. reflexivity.
Defined.

Lemma more_unknown_options_throw_witness :
  throws (text_charAt Splice.blockToCode (charAt zeroBased [("WHERE", "XYZ")])) generator /\
  throws (text_getSubstring Splice.blockToCode (unknownOptionBlock "text_getSubstring"))
         generator /\
  throws (lists_split Splice.blockToCode (unknownOptionBlock "lists_split")) generator /\
  throws (math_number_property Splice.blockToCode
            (unknownOptionBlock "math_number_property")) generator /\
  throws (math_on_list Splice.blockToCode (unknownOptionBlock "math_on_list")) generator.
Proof.
  destruct (more_unknown_options_throw Splice.blockToCode
              (charAt zeroBased [("WHERE", "XYZ")]) generator) as [H1 _].
  destruct (more_unknown_options_throw Splice.blockToCode
              (unknownOptionBlock "text_getSubstring") generator) as [_ [H2 _]].
  destruct (more_unknown_options_throw Splice.blockToCode
              (unknownOptionBlock "lists_split") generator) as [_ [_ [H3 _]]].
  destruct (more_unknown_options_throw Splice.blockToCode
              (unknownOptionBlock "math_number_property") generator)
    as [_ [_ [_ [H4 _]]]].
  destruct (more_unknown_options_throw Splice.blockToCode
              (unknownOptionBlock "math_on_list") generator)
    as [_ [_ [_ [_ H5]]]].
  split; [apply (H1 "XYZ"); [reflexivity | discriminate | reflexivity] |].
  split; [apply H2; left; reflexivity |].
  split; [apply H3; reflexivity |].
  split; [apply H4; reflexivity | apply H5; reflexivity].
Defined.

Lemma getAdjusted_net_offset_witness :
  getAdjusted Splice.blockToCode (charAt oneBased []) "AT" (Some 1) None None generator =
    Returned ("3", generator) /\
  getAdjusted Splice.blockToCode (charAt oneBased []) "AT" None None None generator =
    Returned ("3 - 1", generator).
Proof.
  split.
  - destruct (getAdjusted_net_offset Splice.blockToCode (charAt oneBased []) "AT" "3"
                (Some 1) generator generator ltac:(reflexivity) ltac:(discriminate)
                ltac:(reflexivity))
      as [shift [E [Hzero _]]].
    rewrite (Hzero ltac:(reflexivity)) in E. exact E.
  - destruct (getAdjusted_net_offset Splice.blockToCode (charAt oneBased []) "AT" "3"
                None generator generator ltac:(reflexivity) ltac:(discriminate)
                ltac:(reflexivity))
      as [shift [E [_ [_ [Hneg _]]]]].
    rewrite (Hneg ltac:(reflexivity)) in E. exact E.
Defined.

Lemma text_getSubstring_from_start_witness :
  text_getSubstring Splice.blockToCode (substring oneBased) generator =
    Returned (Tuple (DQ ++ DQ ++ ".substring(2 - 1, 5)") Order.FUNCTION_CALL, generator) /\
  text_getSubstring Splice.blockToCode (substring zeroBased) generator =
    Returned (Tuple (DQ ++ DQ ++ ".substring(2, 5 + 1)") Order.FUNCTION_CALL, generator).
Proof.
  split.
  - exact (text_getSubstring_from_start Splice.blockToCode (substring oneBased)
             EmptyString "2" "5" generator generator generator generator
             ltac:(reflexivity) ltac:(reflexivity) ltac:(reflexivity)
             ltac:(reflexivity) ltac:(reflexivity)
             ltac:(discriminate) ltac:(discriminate)).
  - exact (text_getSubstring_from_start Splice.blockToCode (substring zeroBased)
             EmptyString "2" "5" generator generator generator generator
             ltac:(reflexivity) ltac:(reflexivity) ltac:(reflexivity)
             ltac:(reflexivity) ltac:(reflexivity)
             ltac:(discriminate) ltac:(discriminate)).
Defined.

Lemma text_charAt_positions_witness :
  text_charAt Splice.blockToCode (charAt oneBased [("WHERE", "FIRST")]) generator =
    Returned (Tuple (DQ ++ DQ ++ "[0]") Order.MEMBER, generator) /\
  text_charAt Splice.blockToCode (charAt oneBased [("WHERE", "LAST")]) generator =
    Returned (Tuple (DQ ++ DQ ++ "[-1]") Order.MEMBER, generator) /\
  text_charAt Splice.blockToCode (charAt oneBased []) generator =
    Returned (Tuple (DQ ++ DQ ++ "[3 - 1]") Order.MEMBER, generator).
Proof.
  destruct (text_charAt_positions Splice.blockToCode (charAt oneBased [("WHERE", "FIRST")])
              EmptyString generator generator ltac:(reflexivity)) as [H1 _].
  destruct (text_charAt_positions Splice.blockToCode (charAt oneBased [("WHERE", "LAST")])
              EmptyString generator generator ltac:(reflexivity)) as [_ [H2 _]].
  destruct (text_charAt_positions Splice.blockToCode (charAt oneBased [])
              EmptyString generator generator ltac:(reflexivity)) as [_ [_ H3]].
  split; [exact (H1 ltac:(reflexivity)) | split; [exact (H2 ltac:(reflexivity)) |]].
  exact (H3 "3" generator ltac:(left; reflexivity) ltac:(reflexivity) ltac:(discriminate)).
Defined.

Lemma scrub_leaves_statement_comments_witness :
  scrub_ Splice.blockToCode holdsCommented "while (false) {}" true generator =
    Returned ("while (false) {}", generator) /\
  scrub_ Splice.blockToCode truth "true" true generator = Returned ("true", generator).
Proof.
  split.
  - destruct (scrub_leaves_statement_comments Splice.blockToCode holdsCommented
                "while (false) {}" generator) as [_ H].
    apply H; [reflexivity |].
    intros name child Hin. simpl in Hin.
    destruct Hin as [Hin | [Hin | []]]; discriminate Hin.
  - destruct (scrub_leaves_statement_comments Splice.blockToCode truth "true" generator)
      as [H _].
    apply H. reflexivity.
Defined.

Lemma one_element_per_item_witness :
  text_join Splice.blockToCode itemCount joinNone generator =
    Returned (Tuple EmptyString Order.ADDITIVE, generator) /\
  lists_create_with Splice.blockToCode itemCount joinNone generator =
    Returned (Tuple "[]" Order.ATOMIC, generator) /\
  text_join Splice.blockToCode itemCount joinTwo generator =
    Returned (Tuple ("1 + " ++ DQ ++ DQ) Order.ADDITIVE, generator).
Proof.
  destruct (one_element_per_item Splice.blockToCode itemCount joinNone)
    as [_ [_ [_ [_ [_ [_ Hnone]]]]]].
  destruct (Hnone ltac:(reflexivity) generator) as [Hjoin Hlist].
  split; [exact Hjoin | split; [exact Hlist |]].
  destruct (one_element_per_item Splice.blockToCode itemCount joinTwo) as [Htwo _].
  apply Htwo. exists ["1"; EmptyString]. split; [| reflexivity].
  apply (resolved_next Splice.blockToCode joinTwo "ADD" 1 0 generator generator generator
           "1" [EmptyString] ltac:(reflexivity)).
  apply (resolved_next Splice.blockToCode joinTwo "ADD" 0 1 generator generator generator
           EmptyString [] ltac:(reflexivity)).
  apply resolved_none.
Defined.


Lemma init_then_finish_witness :
  exists g',
    (init usesTwo ;;; finish "b = a;") generator =
    Returned ("let b = " ++ DQ ++ DQ ++ ";" ++ NL ++ "let a = " ++ DQ ++ DQ ++ ";"
                ++ NL ++ NL ++ "b = a;", g') /\
    isInitialized g' = false /\
    JsString.splitLines ("let b = " ++ DQ ++ DQ ++ ";" ++ NL ++ "let a = " ++ DQ ++ DQ ++ ";")
    = ["let b = " ++ DQ ++ DQ ++ ";"; "let a = " ++ DQ ++ DQ ++ ";"].
Proof.
  pose proof (init_then_finish (framework := framework) usesTwo "b = a;" generator
                ltac:(reflexivity)) as H.
  cbv zeta in H.
  destruct H as [g' [entry [E [Hinit [Hentry [_ Hlines]]]]]].
  destruct (Hlines ltac:(discriminate) ltac:(repeat constructor)) as [Hsplit _].
  vm_compute in Hentry. subst entry.
  exists g'. split; [exact E | split; [exact Hinit | exact Hsplit]].
Defined.

Lemma controls_if_rounds_bound_witness :
  controls_if_rounds Splice.blockToCode ifTwo 7 0 EmptyString (ready zeroBased) =
  controls_if_rounds Splice.blockToCode ifTwo 4 0 EmptyString (ready zeroBased).
Proof.
  apply (controls_if_rounds_bound Splice.blockToCode ifTwo 7 EmptyString (ready zeroBased)).
  simpl. lia.
Defined.

Lemma controls_if_text_witness :
  controls_if Splice.blockToCode ifOne (ready zeroBased) =
    Returned (Text ("if (true) {" ++ NL ++ "  [][] = null;" ++ NL ++ "}" ++ NL),
              ready zeroBased) /\
  controls_if Splice.blockToCode ifTwo (ready zeroBased) =
    Returned (Text ("if (true) {" ++ NL ++ "  [][] = null;" ++ NL
                      ++ "}) else if (false) {" ++ NL ++ "  // pass" ++ NL ++ "}" ++ NL),
              ready zeroBased).
Proof.
  split.
  - destruct (controls_if_text Splice.blockToCode ifOne "true" ("  [][] = null;" ++ NL)
                (ready zeroBased) (ready zeroBased) (ready zeroBased)
                ltac:(reflexivity) ltac:(reflexivity) ltac:(reflexivity)
                ltac:(reflexivity) ltac:(reflexivity)) as [H _].
    exact (H ltac:(reflexivity)).
  - destruct (controls_if_text Splice.blockToCode ifTwo "true" ("  [][] = null;" ++ NL)
                (ready zeroBased) (ready zeroBased) (ready zeroBased)
                ltac:(reflexivity) ltac:(reflexivity) ltac:(reflexivity)
                ltac:(reflexivity) ltac:(reflexivity)) as [_ H].
    exact (H EmptyString EmptyString (ready zeroBased) (ready zeroBased)
             ltac:(reflexivity) ltac:(reflexivity) ltac:(reflexivity)
             ltac:(reflexivity) ltac:(reflexivity)).
Defined.

Lemma ends_and_missing_arguments_witness :
  text_getSubstring Splice.blockToCode firstToLast generator =
    Returned (Tuple (DQ ++ DQ ++ ".substring(0, )") Order.FUNCTION_CALL, generator) /\
  exists g',
    lists_split Splice.blockToCode splitNothing (ready zeroBased) =
    Returned (Tuple ("lists_split(, " ++ DQ ++ DQ ++ ")") Order.FUNCTION_CALL, g').
Proof.
  split.
  - destruct (ends_and_missing_arguments Splice.blockToCode firstToLast generator)
      as [H _].
    exact (H EmptyString generator ltac:(reflexivity) ltac:(reflexivity)
             ltac:(reflexivity)).
  - destruct (ends_and_missing_arguments Splice.blockToCode splitNothing (ready zeroBased))
      as [_ [_ H]].
    set (g2 := stateAfter (provideFunction_ "lists_split" lists_split_helper)
                          (ready zeroBased)).
    exists g2.
    exact (H EmptyString "lists_split" (ready zeroBased) g2
             ltac:(reflexivity) ltac:(reflexivity) ltac:(vm_compute; reflexivity)
             ltac:(vm_compute; reflexivity)).
Defined.

Lemma getAdjusted_explicit_order_witness :
  (exists shift,
     getAdjusted Splice.blockToCode (charAt zeroBased []) "AT" None None
                 (Some Order.ATOMIC) generator =
     Returned ("(" ++ ("3" ++ shift) ++ ")", generator)) /\
  (exists shift,
     getAdjusted Splice.blockToCode (charAt zeroBased []) "AT" None None
                 (Some Order.MULTIPLICATIVE) generator =
     Returned ("3" ++ shift, generator)).
Proof.
  split.
  - destruct (getAdjusted_explicit_order Splice.blockToCode (charAt zeroBased []) "AT" "3"
                None Order.ATOMIC generator generator
                ltac:(reflexivity) ltac:(discriminate)) as [shift [E Hwrap]].
    exists shift. rewrite (Hwrap ltac:(reflexivity)) in E. exact E.
  - destruct (getAdjusted_explicit_order Splice.blockToCode (charAt zeroBased []) "AT" "3"
                None Order.MULTIPLICATIVE generator generator
                ltac:(reflexivity) ltac:(discriminate)) as [shift [E _]].
    exists shift. exact E.
Defined.

Lemma text_literals_read_back_witness :
  exists code,
    text saysAwkward generator = Returned (Tuple code Order.ATOMIC, generator) /\
    readLiteral code = Some awkward.
Proof.
  destruct (text_literals_read_back saysAwkward generator) as [H _].
  destruct (H awkward ltac:(reflexivity)) as [Htext _]. exact Htext.
Defined.

End MoreRuns.
